(** * Amazon Omics tutorial notebooks: orchestration cells and their properties

    A shallow embedding of the code cells of the three tutorial notebooks
    (Omics Storage, Omics Analytics, Omics Workflows) that create stores,
    build import manifests, submit import jobs, wait for jobs and download
    object parts, together with the properties these cells do and do not
    have.

    Python values are embedded as follows: [str] is [string], [bytes] is
    [list byte], dict-shaped API records are Rocq records, [None]-able
    values are [option], raised exceptions are the [Raise] case of [result],
    and everything a cell can touch (the IAM service, the Omics service per
    client, the local files, the printed output) lives in a [World] that is
    threaded through the cells. *)

From Stdlib Require Import Strings.String Strings.Ascii Strings.Byte List Arith Lia.
From stdpp Require Import base option list strings pretty gmap sorting functions.

Import ListNotations.
Open Scope string_scope.
Open Scope list_scope.
Set Warnings "-register-all".

(** ** Python runtime *)

Module Py.

(** Exceptions the cells raise, catch or let through.  [OSError] stands
    for its subclasses as well (a file that is not found, a permission that
    is denied). *)
Inductive exn : Type :=
| ClientError (code : string)
| WaiterError (message : string)
| IndexError
| TypeError
| NameError (name : string)
| AttributeError (attr : string)
| RuntimeError (message : string)
| ParamValidationError
| ResponseStreamingError (error : string)
| OSError (message : string).

Inductive exn_class : Type :=
| ClientErrorClass | WaiterErrorClass | IndexErrorClass | TypeErrorClass
| NameErrorClass | AttributeErrorClass | RuntimeErrorClass
| ParamValidationErrorClass | ResponseStreamingErrorClass | OSErrorClass.

Definition class_of (e : exn) : exn_class :=
  match e with
  | ClientError _ => ClientErrorClass
  | WaiterError _ => WaiterErrorClass
  | IndexError => IndexErrorClass
  | TypeError => TypeErrorClass
  | NameError _ => NameErrorClass
  | AttributeError _ => AttributeErrorClass
  | RuntimeError _ => RuntimeErrorClass
  | ParamValidationError => ParamValidationErrorClass
  | ResponseStreamingError _ => ResponseStreamingErrorClass
  | OSError _ => OSErrorClass
  end.

Definition exn_class_eqb (c d : exn_class) : bool :=
  match c, d with
  | ClientErrorClass, ClientErrorClass
  | WaiterErrorClass, WaiterErrorClass
  | IndexErrorClass, IndexErrorClass
  | TypeErrorClass, TypeErrorClass
  | NameErrorClass, NameErrorClass
  | AttributeErrorClass, AttributeErrorClass
  | RuntimeErrorClass, RuntimeErrorClass
  | ParamValidationErrorClass, ParamValidationErrorClass
  | ResponseStreamingErrorClass, ResponseStreamingErrorClass
  | OSErrorClass, OSErrorClass => true
  | _, _ => false
  end.

(** [isinstance(e, c)]: the classes above are unrelated by inheritance. *)
Definition isinstance (e : exn) (c : exn_class) : bool :=
  exn_class_eqb (class_of e) c.

(** The outcome of evaluating something that may raise. *)
Inductive result (A : Type) : Type :=
| Return (a : A)
| Raise (e : exn).
Arguments Return {A} a.
Arguments Raise {A} e.

Definition and_then {A B} (r : result A) (k : A → result B) : result B :=
  match r with
  | Return a => k a
  | Raise e => Raise e
  end.

(** [str(e)], by what the exception carries.  The report that a
    [ParamValidationError] carries after its first line is not kept. *)
Definition str (e : exn) : string :=
  match e with
  | ClientError code => code
  | WaiterError message => message
  | IndexError => "list index out of range"
  | TypeError => "'NoneType' object is not iterable"
  | NameError name => "name '" +:+ name +:+ "' is not defined"
  | AttributeError attr => "module has no attribute '" +:+ attr +:+ "'"
  | RuntimeError message => message
  | ParamValidationError => "Parameter validation failed:"
  | ResponseStreamingError error =>
      "An error occurred while reading from response stream: " +:+ error
  | OSError message => message
  end.

(** *** Names and attribute lookup

    What a global name or a module attribute is bound to.  Only modules
    and exception classes are told apart; anything else is [PyOther]. *)
Inductive pyobj : Type :=
| PyModule (attrs : list (string * pyobj))
| PyClass (c : exn_class)
| PyOther.

Definition namespace := list (string * pyobj).

Fixpoint lookup_name (x : string) (ns : namespace) : option pyobj :=
  match ns with
  | [] => None
  | (y, v) :: ns' => if String.eqb x y then Some v else lookup_name x ns'
  end.

(** The expressions that occur after [except]. *)
Inductive expr : Type :=
| Name (x : string)
| Attr (e : expr) (a : string).

Fixpoint eval (globals : namespace) (e : expr) : result pyobj :=
  match e with
  | Name x =>
      match lookup_name x globals with
      | Some v => Return v
      | None => Raise (NameError x)
      end
  | Attr e' a =>
      match eval globals e' with
      | Raise ex => Raise ex
      | Return (PyModule attrs) =>
          match lookup_name a attrs with
          | Some v => Return v
          | None => Raise (AttributeError a)
          end
      | Return _ => Raise (AttributeError a)
      end
  end.

(** *** Strings and sequences *)

(** [s[1:]] *)
Definition drop_first (s : string) : string :=
  match s with
  | EmptyString => EmptyString
  | String _ s' => s'
  end.

(** [s.split(sep)] for a one-character separator: never empty. *)
Fixpoint split (sep : ascii) (s : string) : list string :=
  match s with
  | EmptyString => [EmptyString]
  | String c s' =>
      if Ascii.eqb c sep then EmptyString :: split sep s'
      else match split sep s' with
           | [] => [String c EmptyString]
           | w :: ws => String c w :: ws
           end
  end.

(** [l[i]] for [i >= 0]. *)
Definition index {A} (l : list A) (i : nat) : result A :=
  match l !! i with
  | Some x => Return x
  | None => Raise IndexError
  end.

(** [l[-k]] for [k >= 1]. *)
Definition index_from_end {A} (l : list A) (k : nat) : result A :=
  if (k <=? length l)%nat then index l (length l - k) else Raise IndexError.



(** [sorted(l)] on strings: ascending code-point order. *)
Definition str_le (a b : string) : Prop := String.leb a b = true.

#[global] Instance str_le_dec (a b : string) : Decision (str_le a b).
Proof. unfold str_le. apply _. Defined.

Definition sorted (l : list string) : list string := merge_sort str_le l.

(** [zip(a, b)]: stops at the shorter argument. *)
Definition zip {A B} (a : list A) (b : list B) : list (A * B) := combine a b.

(** [enumerate(l)] *)
Definition enumerate {A} (l : list A) : list (nat * A) :=
  combine (seq 0 (length l)) l.

(** [sub in s] on strings. *)
Fixpoint contains (sub s : string) : bool :=
  String.prefix sub s ||
  match s with
  | EmptyString => false
  | String _ s' => contains sub s'
  end.

(** [s.replace('', new)]: [new] goes before every character and at the end. *)
Fixpoint interleave (new s : string) : string :=
  new +:+ match s with
          | EmptyString => EmptyString
          | String c s' => String c (interleave new s')
          end.

(** The scan of [s.replace(old, new)] for a non-empty [old]: occurrences
    are taken from the left and do not overlap; [skip] counts the characters
    of the occurrence just replaced that are still to be passed. *)
Fixpoint replace_from (old new : string) (skip : nat) (s : string) : string :=
  match s with
  | EmptyString => EmptyString
  | String c s' =>
      match skip with
      | S k => replace_from old new k s'
      | 0 =>
          if String.prefix old s
          then new +:+ replace_from old new (String.length old - 1) s'
          else String c (replace_from old new 0 s')
      end
  end.

(** [s.replace(old, new)] *)
Definition replace (old new s : string) : string :=
  match old with
  | EmptyString => interleave new s
  | String _ _ => replace_from old new 0 s
  end.

(** [s.endswith('/')] *)
Fixpoint ends_with_slash (s : string) : bool :=
  match s with
  | EmptyString => false
  | String c EmptyString => Ascii.eqb c "/"
  | String _ s' => ends_with_slash s'
  end.

(** [os.path.join(a, b)] on POSIX paths. *)
Definition path_join (a b : string) : string :=
  if String.prefix "/" b then b
  else if String.eqb a "" || ends_with_slash a then a +:+ b
  else a +:+ "/" +:+ b.

End Py.

Export Py.

(** ** The remote services at their boundary

    The IAM and Omics services are external collaborators.  Each is a state
    (what exists remotely), a log of the calls the notebook made on the
    client, and a fault schedule: the next entry of the schedule says
    whether the next call raises an error instead of being served.  The
    schedule is about calls, not about requests: the client sends the
    request of a call again on its own when the answer is an error of its
    retry policy, and a call raises only the error that is left when that
    has ended (see [call_faults]). *)

Module Aws.

Definition fault_schedule := list (option exn).

Definition next_fault (fs : fault_schedule) : option exn :=
  match fs with
  | Some e :: _ => Some e
  | _ => None
  end.

(** *** Requests sent again

    Beneath a call the client sends a request; its retry handler sends the
    request again while the answer is an error of the retry policy and
    fewer than [max_attempts] requests have been sent for the call (five,
    unless the client is configured otherwise).  The call returns what the
    last request was served, or raises the error it was answered with. *)

Section Retries.

(** The retry policy: the errors for which the request is sent again. *)
Variable retried : exn → bool.
Variable max_attempts : nat.


End Retries.

(** *** IAM *)

Inductive IamCall : Type :=
| GetRole (name : string)
| CreateRole (name document : string)
| CreatePolicy (name description document : string)
| AttachRolePolicy (policy role : string).

Record Iam : Type := mkIam {
  roles : gmap string string;            (* role name ↦ role ARN *)
  policies : list string;
  attachments : list (string * string);  (* (policy name, role name) *)
  iam_calls : list IamCall;
  iam_faults : fault_schedule;
}.

Definition role_arn_of (name : string) : string := "arn:aws:iam:::role/" +:+ name.

(** *** Omics *)

Record ReferenceStore : Type := { store_id : nat; store_name : string }.

Record Reference : Type := {
  reference_store : nat;    (* 'referenceStoreId' *)
  reference_id : nat;       (* 'id' *)
  reference_name : string;  (* 'name' *)
  reference_arn : string;   (* 'arn' *)
}.

Record SequenceStore : Type := { seq_id : nat; seq_name : string }.

(** One entry of the [sources] argument of a read set import job. *)
Record SourceFiles : Type := { source1 : string; source2 : option string }.

Record ImportSource : Type := {
  subjectId : string;
  sampleId : string;
  sourceFileType : string;
  sourceFiles : SourceFiles;
  referenceArn : string;
  generatedFrom : string;
  description : string;
  tags : list (string * string);
}.

Inductive ImportJob : Type :=
| ReadSetImportJob (id sequenceStoreId : nat) (roleArn : string)
    (sources : list ImportSource)
| VariantImportJob (id : nat) (destinationName roleArn : string)
    (items : list string).

(** The payload of a get-part answer (the library's [StreamingBody]): it
    is read after the call has returned.  It holds the bytes of the part,
    and reading it raises when the transfer breaks off. *)
Record StreamingBody : Type := {
  stream_bytes : list byte;
  read_error : option exn;   (* what [read()] raises, if the transfer breaks off *)
}.

(** A stored object: per file name ([SOURCE], [INDEX], [SOURCE1], ...) the
    list of its parts, each as the payload it is answered with; part
    numbers are 1-based. *)
Record TransferObject : Type := {
  obj_store : nat;
  obj_id : nat;
  obj_files : list (string * list StreamingBody);
}.

Inductive ApiCall : Type :=
| ListReferenceStores (maxResults : nat)
| CreateReferenceStore (name : string)
| ListReferences (referenceStoreId : nat)
| CreateSequenceStore (name : string)
| StartReadSetImportJob (roleArn : string) (sequenceStoreId : nat)
    (sources : list ImportSource)
| StartVariantImportJob (destinationName roleArn : string)
    (items : list string)
| GetReference (referenceStoreId id partNumber : nat) (file : string)
| GetReadSet (sequenceStoreId id partNumber : nat) (file : string).

Record Omics : Type := mkOmics {
  reference_stores : list ReferenceStore;
  all_references : list Reference;
  sequence_stores : list SequenceStore;
  objects : list TransferObject;
  import_jobs : list ImportJob;
  omits_empty_lists : bool;  (* an empty list member is left out of a response *)
  page_size : nat;           (* length of a listing page *)
  next_id : nat;
  calls : list ApiCall;
  faults : fault_schedule;
}.

(** A list member of a response, as [resp.get(member)] sees it. *)
Definition list_member {A} (st : Omics) (l : list A) : option (list A) :=
  match l with
  | [] => if omits_empty_lists st then None else Some []
  | _ => Some l
  end.

Definition received (c : ApiCall) (st : Omics) : Omics :=
  mkOmics (reference_stores st) (all_references st) (sequence_stores st)
    (objects st) (import_jobs st) (omits_empty_lists st) (page_size st)
    (next_id st) (calls st ++ [c]) (tail (faults st)).

Definition add_reference_store (name : string) (st : Omics) : Omics :=
  mkOmics (reference_stores st ++ [{| store_id := next_id st; store_name := name |}])
    (all_references st) (sequence_stores st) (objects st) (import_jobs st)
    (omits_empty_lists st) (page_size st) (S (next_id st)) (calls st) (faults st).

Definition add_sequence_store (name : string) (st : Omics) : Omics :=
  mkOmics (reference_stores st) (all_references st)
    (sequence_stores st ++ [{| seq_id := next_id st; seq_name := name |}])
    (objects st) (import_jobs st) (omits_empty_lists st) (page_size st)
    (S (next_id st)) (calls st) (faults st).

Definition add_import_job (j : ImportJob) (st : Omics) : Omics :=
  mkOmics (reference_stores st) (all_references st) (sequence_stores st)
    (objects st) (import_jobs st ++ [j]) (omits_empty_lists st) (page_size st)
    (S (next_id st)) (calls st) (faults st).

(** What each operation answers when it is served. *)

Definition serve_list_reference_stores (maxResults : nat) (st : Omics)
  : option (list ReferenceStore) :=
  list_member st (take maxResults (reference_stores st)).

Definition serve_list_references (referenceStoreId : nat) (st : Omics)
  : option (list Reference) :=
  list_member st
    (take (page_size st)
       (filter (λ r, reference_store r = referenceStoreId) (all_references st))).

Definition find_object (store id : nat) (st : Omics) : option TransferObject :=
  List.find (λ o, (obj_store o =? store)%nat && (obj_id o =? id)%nat) (objects st).

Fixpoint find_file (file : string) (fs : list (string * list StreamingBody))
  : option (list StreamingBody) :=
  match fs with
  | [] => None
  | (f, parts) :: fs' => if String.eqb file f then Some parts else find_file file fs'
  end.

Definition serve_get_part (store id partNumber : nat) (file : string) (st : Omics)
  : result StreamingBody :=
  match find_object store id st with
  | None => Raise (ClientError "ResourceNotFoundException")
  | Some o =>
      match find_file file (obj_files o) with
      | None => Raise (ClientError "ResourceNotFoundException")
      | Some parts =>
          match partNumber with
          | 0 => Raise (ClientError "ValidationException")
          | S k =>
              match parts !! k with
              | Some payload => Return payload
              | None => Raise (ClientError "RangeNotSatisfiableException")
              end
          end
      end
  end.

End Aws.

Export Aws.

(** ** The world a notebook runs in *)

Record World : Type := mkWorld {
  iam : Iam;
  default_region : string;             (* region of [boto3.client('omics')] *)
  omics_in : string → Omics;           (* the Omics service, per region *)
  files : gmap string (list byte);     (* local files *)
  stdout : list string;                (* printed lines *)
}.

(** A cell: it runs in a world, returns or raises, and leaves a world. *)
Definition M (A : Type) : Type := World → result A * World.

Definition ret {A} (a : A) : M A := λ w, (Return a, w).

Definition raise {A} (e : exn) : M A := λ w, (Raise e, w).

Definition bind {A B} (m : M A) (k : A → M B) : M B :=
  λ w, match m w with
       | (Return a, w') => k a w'
       | (Raise e, w') => (Raise e, w')
       end.

Definition lift {A} (r : result A) : M A := λ w, (r, w).

(** [for x in l: body(x)] *)
Fixpoint for_each {A} (l : list A) (body : A → M unit) : M unit :=
  match l with
  | [] => ret tt
  | x :: xs => bind (body x) (λ _, for_each xs body)
  end.

Declare Scope py_scope.
Delimit Scope py_scope with py.
Notation "x <-? r ;; k" := (and_then r (λ x, k))
  (at level 100, r at next level, k at level 200, right associativity) : py_scope.
Notation "x <- m ;; k" := (bind m (λ x, k))
  (at level 100, m at next level, k at level 200, right associativity) : py_scope.
Notation "m ;;; k" := (bind m (λ _, k))
  (at level 100, k at level 200, right associativity) : py_scope.
Open Scope py_scope.

(** [print(line)] *)
Definition print (line : string) : M unit :=
  λ w, (Return tt,
        mkWorld (iam w) (default_region w) (omics_in w) (files w) (stdout w ++ [line])).

(** [open(name, 'wb')]: the file is created, or truncated when it exists. *)
Definition open_wb (name : string) : M unit :=
  λ w, (Return tt,
        mkWorld (iam w) (default_region w) (omics_in w)
          (<[name := []]> (files w)) (stdout w)).

(** [f.write(data)] on the file opened as [name]: the data goes after what
    has been written to it. *)
Definition file_write (name : string) (data : list byte) : M unit :=
  λ w, (Return tt,
        mkWorld (iam w) (default_region w) (omics_in w)
          (<[name := default [] (files w !! name) ++ data]> (files w)) (stdout w)).

(** [with open(name, 'wb') as f: f.write(data)], where [data] is an
    expression: the file is opened first, then the expression is evaluated,
    then its value is written.  When the evaluation raises, the file is
    closed as it is and the error goes on. *)
Definition write_file (name : string) (data : M (list byte)) : M unit :=
  open_wb name ;;;
  payload <- data ;;
  file_write name payload.

(** [try: body / except cls as ex: handler(ex) / else: orelse(a)].
    The class expression is evaluated only once the body has raised; what
    that evaluation raises replaces the exception being handled.  Nothing
    raised by the handler or by the else branch is caught here. *)
Definition try_except_else {A B} (globals : namespace)
    (body : M A) (cls : expr) (handler : exn → M B) (orelse : A → M B) : M B :=
  λ w, match body w with
       | (Return a, w') => orelse a w'
       | (Raise ex, w') =>
           match eval globals cls with
           | Raise ex' => (Raise ex', w')
           | Return (PyClass c) =>
               if isinstance ex c then handler ex w' else (Raise ex, w')
           | Return _ => (Raise TypeError, w')
           end
       end.

(** *** boto3 clients and resources *)

Module Boto3.

(** A client is the region it talks to. *)
Definition client (region_name : option string) : M string :=
  λ w, (Return (default (default_region w) region_name), w).

Definition with_omics (region : string) (st : Omics) (w : World) : World :=
  mkWorld (iam w) (default_region w) (<[region := st]> (omics_in w))
    (files w) (stdout w).

Definition with_iam (i : Iam) (w : World) : World :=
  mkWorld i (default_region w) (omics_in w) (files w) (stdout w).

(** One call on the client of [region]: the call is logged, the fault
    schedule decides whether it raises, otherwise it is served.  The
    requests that the client sends and sends again for the call are beneath
    this: the schedule holds the outcome that is left of them. *)
Definition invoke {A} (region : string) (c : ApiCall)
    (serve : Omics → result A * Omics) : M A :=
  λ w, let st := omics_in w region in
       match next_fault (faults st) with
       | Some e => (Raise e, with_omics region (received c st) w)
       | None =>
           let '(r, st') := serve (received c st) in
           (r, with_omics region st' w)
       end.

Definition list_reference_stores (client : string) (maxResults : nat)
  : M (option (list ReferenceStore)) :=
  invoke client (ListReferenceStores maxResults)
    (λ st, (Return (serve_list_reference_stores maxResults st), st)).

Definition create_reference_store (client : string) (name : string)
  : M ReferenceStore :=
  invoke client (CreateReferenceStore name)
    (λ st, (Return {| store_id := next_id st; store_name := name |},
            add_reference_store name st)).

Definition list_references (client : string) (referenceStoreId : nat)
  : M (option (list Reference)) :=
  invoke client (ListReferences referenceStoreId)
    (λ st, (Return (serve_list_references referenceStoreId st), st)).

Definition create_sequence_store (client : string) (name : string)
  : M SequenceStore :=
  invoke client (CreateSequenceStore name)
    (λ st, (Return {| seq_id := next_id st; seq_name := name |},
            add_sequence_store name st)).

(** Before it sends a request the client checks the arguments against the
    service's description of the operation, and raises
    [ParamValidationError] without sending anything when they do not fit.
    Of that check, this is what a list of import sources can fail: the list
    has at least one entry, and the subject and sample identifiers, the
    reference ARN, [generatedFrom], the description and the tag keys of each
    entry have at least one character. *)
Definition valid_source (d : ImportSource) : bool :=
  negb (String.eqb (subjectId d) "") &&
  negb (String.eqb (sampleId d) "") &&
  negb (String.eqb (referenceArn d) "") &&
  negb (String.eqb (generatedFrom d) "") &&
  negb (String.eqb (description d) "") &&
  forallb (λ tag, negb (String.eqb (fst tag) "")) (tags d).

Definition valid_sources (sources : list ImportSource) : bool :=
  match sources with
  | [] => false
  | _ => forallb valid_source sources
  end.

(** The answer of a start-job call is the identifier of the new job. *)
Definition start_read_set_import_job (client : string) (roleArn : string)
    (sequenceStoreId : nat) (sources : list ImportSource) : M nat :=
  if valid_sources sources then
    invoke client (StartReadSetImportJob roleArn sequenceStoreId sources)
      (λ st, (Return (next_id st),
              add_import_job
                (ReadSetImportJob (next_id st) sequenceStoreId roleArn sources) st))
  else raise ParamValidationError.

Definition start_variant_import_job (client : string)
    (destinationName roleArn : string) (items : list string) : M nat :=
  invoke client (StartVariantImportJob destinationName roleArn items)
    (λ st, (Return (next_id st),
            add_import_job
              (VariantImportJob (next_id st) destinationName roleArn items) st)).

(** The answer of a get-part call carries its payload as a stream, which
    is not read yet when the call returns. *)
Definition get_reference (client : string) (referenceStoreId id partNumber : nat)
    (file : string) : M StreamingBody :=
  invoke client (GetReference referenceStoreId id partNumber file)
    (λ st, (serve_get_part referenceStoreId id partNumber file st, st)).


(** [payload.read()]: the bytes of the stream, unless the transfer breaks
    off. *)
Definition read (payload : StreamingBody) : M (list byte) :=
  lift match read_error payload with
       | Some e => Raise e
       | None => Return (stream_bytes payload)
       end.

(** One IAM call. *)
Definition invoke_iam {A} (c : IamCall) (serve : Iam → result A * Iam) : M A :=
  λ w, let i := iam w in
       let i1 := mkIam (roles i) (policies i) (attachments i)
                   (iam_calls i ++ [c]) (tail (iam_faults i)) in
       match next_fault (iam_faults i) with
       | Some e => (Raise e, with_iam i1 w)
       | None => let '(r, i2) := serve i1 in (r, with_iam i2 w)
       end.

(** [role = iam.Role(name); role.load()]: answers the role's ARN. *)
Definition role_load (name : string) : M string :=
  invoke_iam (GetRole name)
    (λ i, match roles i !! name with
          | Some arn => (Return arn, i)
          | None => (Raise (ClientError "NoSuchEntity"), i)
          end).

Definition create_role (RoleName AssumeRolePolicyDocument : string) : M unit :=
  invoke_iam (CreateRole RoleName AssumeRolePolicyDocument)
    (λ i, match roles i !! RoleName with
          | Some _ => (Raise (ClientError "EntityAlreadyExists"), i)
          | None =>
              (Return tt,
               mkIam (<[RoleName := role_arn_of RoleName]> (roles i))
                 (policies i) (attachments i) (iam_calls i) (iam_faults i))
          end).

(** Answers the policy, which is its name here. *)
Definition create_policy (PolicyName Description PolicyDocument : string)
  : M string :=
  invoke_iam (CreatePolicy PolicyName Description PolicyDocument)
    (λ i, if bool_decide (PolicyName ∈ policies i)
          then (Raise (ClientError "EntityAlreadyExists"), i)
          else (Return PolicyName,
                mkIam (roles i) (policies i ++ [PolicyName]) (attachments i)
                  (iam_calls i) (iam_faults i))).

Definition attach_role (policy RoleName : string) : M unit :=
  invoke_iam (AttachRolePolicy policy RoleName)
    (λ i, match roles i !! RoleName with
          | None => (Raise (ClientError "NoSuchEntity"), i)
          | Some _ =>
              (Return tt,
               mkIam (roles i) (policies i)
                 (attachments i ++ [(policy, RoleName)])
                 (iam_calls i) (iam_faults i))
          end).

End Boto3.

(** ** What [urllib.parse.urlparse] answers *)

Record ParseResult : Type := { netloc : string; path : string }.

(** ** Notebook: Using Omics Storage with genomic references and readsets *)

Module Storage.

(** The names the import cell binds.  Of the modules, only [botocore]
    carries its attribute here: [exceptions], bound by
    [import botocore.exceptions], with the two classes the cells name. *)
Definition globals : namespace :=
  [ ("datetime", PyOther); ("it", PyOther); ("json", PyOther);
    ("gzip", PyOther); ("os", PyOther); ("pprint", PyOther);
    ("time", PyOther); ("urllib", PyOther); ("boto3", PyOther);
    ("botocore",
      PyModule [("exceptions",
                  PyModule [("ClientError", PyClass ClientErrorClass);
                            ("WaiterError", PyClass WaiterErrorClass)])]);
    ("requests", PyOther) ].

(** The cell that creates the service role when it does not exist.
    [demo_trust_policy] and [demo_policy] are the two JSON documents. *)
Definition create_service_role (demo_trust_policy demo_policy : string)
    (omics_iam_name : string) : M unit :=
  try_except_else globals
    (Boto3.role_load omics_iam_name)
    (Attr (Attr (Name "botocore") "exceptions") "ClientError")
    (λ ex,
       match ex with
       | ClientError code =>
           if String.eqb code "NoSuchEntity" then
             Boto3.create_role omics_iam_name demo_trust_policy ;;;
             policy <- Boto3.create_policy (omics_iam_name +:+ "-policy")
                         "Policy for Amazon Omics demo" demo_policy ;;
             Boto3.attach_role policy omics_iam_name
           else
             print "Somthing went wrong, please retry and check your account settings and permissions"
       | _ => raise (AttributeError "response")
       end)
    (λ _, ret tt).

Definition get_role_arn (role_name : string) : M string :=
  try_except_else globals
    (Boto3.role_load role_name)
    (Attr (Attr (Name "botocore") "exeptions") "ClientError")
    (λ ex, print ("Couldn't get role named " +:+ role_name +:+ ".") ;;; raise ex)
    (λ arn, ret arn).

Definition get_ref_store_id (client : option string) : M (option nat) :=
  client <- match client with
            | Some c => ret c
            | None => Boto3.client None
            end ;;
  list_of_stores <- Boto3.list_reference_stores client 10 ;;
  match list_of_stores with
  | Some stores =>
      (* if there is a store present is the first one *)
      first <- lift (index stores 0) ;;
      ret (Some (store_id first))
  | None => ret None
  end.

(** The line that [print(response)] gives for a created store.  The
    response is a dict that also carries the response metadata, the ARN and
    the creation time of the store; none of these is kept here, and the
    line is made of the two members that are, [id] and [name]. *)
Definition repr_store (s : ReferenceStore) : string :=
  "{'id': '" +:+ pretty (store_id s) +:+ "', 'name': '" +:+ store_name s +:+ "'}".

(** The cell that creates the reference store unless one is found. *)
Definition check_reference_store (omics : string) : M unit :=
  print ("Checking for a reference store in region: " +:+ omics) ;;;
  found <- get_ref_store_id (Some omics) ;;
  match found with
  | None =>
      response <- Boto3.create_reference_store omics "myReferenceStore" ;;
      print (repr_store response)
  | Some _ => print "Congratulations, you have an existing reference store"
  end.

(** The cell that creates the sequence store; [ts] is the timestamp. *)
Definition create_sequence_store (omics : string) (ts : string) : M SequenceStore :=
  let sequence_store_name := "tutorial-seq-store-" +:+ ts in
  Boto3.create_sequence_store omics sequence_store_name.

Section Manifests.

Variable urlparse : string → ParseResult.
Variable ref_arn : string.   (* ref['arn'], stashed by an earlier cell *)

(** The body of the loop over the CRAM locators. *)
Definition cram_source (source_uri : string) : result ImportSource :=
  let source := urlparse source_uri in
  subject_id <-? index_from_end (split "/" (drop_first (path source))) 2 ;;
  basename <-? index_from_end (split "/" (drop_first (path source))) 1 ;;
  sample_id <-? index (split "." basename) 0 ;;
  Return {|
    subjectId := subject_id;
    sampleId := sample_id;
    sourceFileType := "CRAM";
    sourceFiles := {| source1 := source_uri; source2 := None |};
    referenceArn := ref_arn;
    generatedFrom := source_uri;
    description := subject_id +:+ "/" +:+ sample_id +:+ " from " +:+ netloc source;
    tags := [("SourceLocation", netloc source)]
  |}.

Definition cram_sources (uris : list string) : result (list ImportSource) :=
  fold_left
    (λ acc source_uri,
       cram_sources <-? acc ;;
       entry <-? cram_source source_uri ;;
       Return (cram_sources ++ [entry]))
    uris (Return []).

(** Sort, and pair the first half with the second half. *)
Definition source_uris (fastq : list string) : list (string * string) :=
  zip (take (length fastq / 2) (sorted fastq))
      (drop (length fastq / 2) (sorted fastq)).

(** The body of the loop over the paired FASTQ locators. *)
Definition fastq_source (reads : string * string) : result ImportSource :=
  let source := urlparse (fst reads) in
  subject_id <-? index (split "/" (drop_first (path source))) 1 ;;
  sample_id <-? index (split "/" (drop_first (path source))) 5 ;;
  Return {|
    subjectId := subject_id;
    sampleId := sample_id;
    sourceFileType := "FASTQ";
    sourceFiles := {| source1 := fst reads; source2 := Some (snd reads) |};
    referenceArn := ref_arn;
    generatedFrom := subject_id +:+ "/" +:+ sample_id +:+ " fastq";
    description := subject_id +:+ "/" +:+ sample_id +:+ " from " +:+ netloc source;
    tags := [("SourceLocation", netloc source)]
  |}.

Definition fastq_sources (fastq : list string) : result (list ImportSource) :=
  fold_left
    (λ acc reads,
       fastq_sources <-? acc ;;
       entry <-? fastq_source reads ;;
       Return (fastq_sources ++ [entry]))
    (source_uris fastq) (Return []).

End Manifests.

(** The two cells that submit the read set import: all sources go into
    one job. *)
Definition import_read_sets (omics omics_iam_name : string) (seqstore_id : nat)
    (fastq_sources cram_sources : list ImportSource) : M nat :=
  let import_sources := fastq_sources ++ cram_sources in
  roleArn <- get_role_arn omics_iam_name ;;
  Boto3.start_read_set_import_job omics roleArn seqstore_id import_sources.

(** The cell that waits for the reference import job; [waiter_wait] is
    the library's [waiter.wait] on that job. *)
Definition wait_reference_import (waiter_wait : M unit) (job_id : nat) : M unit :=
  print ("waiting for job " +:+ pretty job_id +:+ " to complete") ;;;
  try_except_else globals
    (waiter_wait ;;; print ("job " +:+ pretty job_id +:+ " complete"))
    (Attr (Attr (Name "botocore") "exceptions") "WaiterError")
    (λ e, print ("job " +:+ pretty job_id +:+ " FAILED:") ;;; print (str e))
    (λ _, ret tt).

(** The cell that downloads a part of the reference and of its index. *)
Definition download_reference_part (omics : string) (referenceStoreId id : nat)
  : M unit :=
  response <- Boto3.get_reference omics referenceStoreId id 1 "SOURCE" ;;
  write_file "reference.part.fa" (Boto3.read response) ;;;
  response <- Boto3.get_reference omics referenceStoreId id 1 "INDEX" ;;
  write_file "reference.part.fai" (Boto3.read response).


End Storage.

(** ** Notebook: Querying annotations and variants with Omics Analytics *)

Module Analytics.

Definition globals : namespace :=
  [ ("datetime", PyOther); ("json", PyOther); ("os", PyOther);
    ("time", PyOther); ("urllib", PyOther); ("boto3", PyOther);
    ("botocore",
      PyModule [("exceptions",
                  PyModule [("ClientError", PyClass ClientErrorClass);
                            ("WaiterError", PyClass WaiterErrorClass)])]) ].

Definition create_service_role (demo_trust_policy demo_policy : string)
    (omics_iam_name : string) : M unit :=
  try_except_else globals
    (Boto3.role_load omics_iam_name)
    (Attr (Attr (Name "botocore") "exceptions") "ClientError")
    (λ ex,
       match ex with
       | ClientError code =>
           if String.eqb code "NoSuchEntity" then
             Boto3.create_role omics_iam_name demo_trust_policy ;;;
             policy <- Boto3.create_policy (omics_iam_name +:+ "-policy")
                         "Policy for Amazon Omics demo" demo_policy ;;
             Boto3.attach_role policy omics_iam_name
           else
             print "Somthing went wrong, please retry and check your account settings and permissions"
       | _ => raise (AttributeError "response")
       end)
    (λ _, ret tt).

Definition get_role_arn (role_name : string) : M string :=
  try_except_else globals
    (Boto3.role_load role_name)
    (Name "ClientError")
    (λ ex, print ("Couldn't get role named " +:+ role_name +:+ ".") ;;; raise ex)
    (λ arn, ret arn).

(** [omics] is the notebook's global client, which the function uses for
    the reference listing whatever [client] is. *)
Definition get_reference_arn (omics : string) (ref_name : string)
    (client : option string) : M string :=
  client <- match client with
            | Some c => ret c
            | None => Boto3.client None
            end ;;
  ref_stores <- Boto3.list_reference_stores client 10 ;;
  (* if there is a store present, it is the first one *)
  let ref_store :=
    match ref_stores with
    | Some (first :: _) => Some first
    | _ => None
    end in
  match ref_store with
  | None =>
      raise (RuntimeError "You have not created a reference store, please got to the Amazon Omics Storage tutorial to learn how to create one. Do note continue with this notebook")
  | Some ref_store =>
      references <- Boto3.list_references omics (store_id ref_store) ;;
      match references with
      | None => raise TypeError
      | Some references =>
          let ref_arn :=
            fold_left
              (λ ref_arn ref,
                 if String.eqb (reference_name ref) ref_name
                 then Some (reference_arn ref) else ref_arn)
              references None in
          match ref_arn with
          | None =>
              raise (RuntimeError ("Could not find " +:+ ref_name +:+ ", please got to the Amazon Omics Storage tutorial to learn how to import one. Do note continue with this notebook"))
          | Some arn => ret arn
          end
      end
  end.

(** The cell that imports the VCFs: one job per locator. *)
Definition import_vcfs (omics var_store_name omics_iam_name : string)
    (vcf_list : list string) : M unit :=
  let N_TOTAL_JOBS := length vcf_list in
  print ("importing " +:+ pretty N_TOTAL_JOBS +:+ " items into " +:+ var_store_name +:+ " ...") ;;;
  for_each (enumerate vcf_list)
    (λ '(i, uri),
       roleArn <- get_role_arn omics_iam_name ;;
       jobId <- Boto3.start_variant_import_job omics var_store_name roleArn [uri] ;;
       print ("[job " +:+ pretty (i + 1) +:+ " of " +:+ pretty N_TOTAL_JOBS
              +:+ "] started import job " +:+ pretty jobId +:+ " for: " +:+ uri)).

(** The waiting part of the cell that waits for the variant store;
    [waiter_wait] is the library's [waiter.wait] on that store. *)
Definition wait_variant_store (waiter_wait : M unit) (name : string) : M unit :=
  try_except_else globals
    (waiter_wait ;;; print ("variant store " +:+ name +:+ " ready for use"))
    (Attr (Attr (Name "botocore") "exceptions") "WaiterError")
    (λ e, print ("variant store " +:+ name +:+ " FAILED:") ;;; print (str e))
    (λ _, ret tt).

(** One entry of [athena.list_work_groups()['WorkGroups']]. *)
Record WorkGroup : Type := {
  wg_name : string;                   (* 'Name' *)
  effective_engine_version : string;  (* ['EngineVersion']['EffectiveEngineVersion'] *)
}.

(** The loop of the cell that looks for an Athena workgroup, from the
    workgroups still to be looked at: it answers the workgroup it stopped
    at, if it stopped. *)
Fixpoint find_workgroup (athena_workgroups : list WorkGroup) : M (option WorkGroup) :=
  match athena_workgroups with
  | [] => ret None
  | wg :: rest =>
      print (effective_engine_version wg) ;;;
      if String.eqb (effective_engine_version wg) "Athena engine version 3" then
        print ("Workgroup '" +:+ wg_name wg +:+ "' found using Athena engine version 3") ;;;
        ret (Some wg)
      else find_workgroup rest
  end.

(** The cell that looks for an Athena workgroup of engine version 3 and
    creates one when the loop ends without a [break].  [create_work_group]
    is the call [athena.create_work_group(Name='omics', ...)]; the cell
    leaves [athena_workgroup] bound to a listed workgroup or to the answer
    of that call. *)
Definition select_workgroup {Response : Type} (create_work_group : M Response)
    (athena_workgroups : list WorkGroup) : M (WorkGroup + Response) :=
  found <- find_workgroup athena_workgroups ;;
  match found with
  | Some wg => ret (inl wg)
  | None =>
      print "No workgroups with Athena engine version 3 found. creating one" ;;;
      response <- create_work_group ;;
      ret (inr response)
  end.

(** One entry of [ram.list_resources(...)['resources']]. *)
Record SharedResource : Type := {
  resource_arn : string;        (* 'arn' *)
  resource_share_arn : string;  (* 'resourceShareArn' *)
}.

(** The cell that picks the shared resource of the variant store and shows
    it.  [resources] is [response.get('resources')], [var_store_id] is
    [var_store['id']], and [bound] is what [variantstore_resource] is bound
    to when the cell starts, if anything: the cell ends by evaluating that
    name. *)
Definition find_variantstore_resource (resources : option (list SharedResource))
    (var_store_id : string) (bound : option SharedResource) : M SharedResource :=
  bound <-
    match resources with
    | None | Some [] =>
        print "no shared resources found. verify that you have successfully created an Omics Analytics store" ;;;
        ret bound
    | Some resources =>
        let variantstore_resources :=
          List.filter (λ resource, contains var_store_id (resource_arn resource))
            resources in
        match variantstore_resources with
        | [] =>
            print ("no shared resources matching variant store id " +:+ var_store_id +:+ " found") ;;;
            ret bound
        | first :: _ => ret (Some first)
        end
    end ;;
  match bound with
  | Some variantstore_resource => ret variantstore_resource
  | None => raise (NameError "variantstore_resource")
  end.

End Analytics.

(** ** Notebook: Running WDL and Nextflow pipelines with Omics Workflows *)

Module Workflows.

Definition globals : namespace :=
  [ ("json", PyOther); ("datetime", PyOther); ("glob", PyOther);
    ("io", PyOther); ("os", PyOther); ("pprint", PyOther);
    ("dedent", PyOther); ("sleep", PyOther); ("urlparse", PyOther);
    ("ZipFile", PyOther); ("ZIP_DEFLATED", PyOther); ("boto3", PyOther);
    ("botocore",
      PyModule [("exceptions",
                  PyModule [("ClientError", PyClass ClientErrorClass);
                            ("WaiterError", PyClass WaiterErrorClass)])]) ].

(** The waiting part of the cell that starts a run.  The two waits are
    the library's [waiter.wait] for [run_running] and [run_completed],
    each given its [WaiterConfig] ([Delay], [MaxAttempts]). *)
Definition wait_run (wait_running wait_completed : nat → nat → M unit)
    (run_id : nat) : M unit :=
  try_except_else globals
    (wait_running 30 60 ;;;
     print ("run " +:+ pretty run_id +:+ " is running") ;;;
     wait_completed 60 60 ;;;
     print ("run " +:+ pretty run_id +:+ " completed"))
    (Attr (Attr (Name "botocore") "exceptions") "WaiterError")
    (λ e, print (str e))
    (λ _, ret tt).

(** One member of the zip archive: the name it is stored under and the
    file it is read from. *)
Record ZipEntry : Type := { arcname : string; zipped_file : string }.

Section CreateWorkflow.

Context {Parameters Workflow : Type}.

(** [glob.iglob(pattern, recursive=True)] and [os.path.isfile]. *)
Variable iglob : string → list string.
Variable isfile : string → bool.
(** What [zf.write(file, arcname=arcname)] raises for a file, if anything:
    the file has gone or cannot be read, or its modification time is
    before 1980. *)
Variable zf_write_error : string → option exn.
(** [omics.create_workflow], answering the new workflow's id;
    the [workflow_active] waiter; [omics.get_workflow]. *)
Variable omics_create_workflow :
  option string → option string → list ZipEntry → option string → Parameters → M nat.
Variable waiter_wait : nat → M unit.
Variable get_workflow : nat → M Workflow.

(** [zf.write(file, arcname=arcname)]: the archive with the new member,
    unless the write raises. *)
Definition zf_write (zf : list ZipEntry) (file arcname : string)
  : M (list ZipEntry) :=
  match zf_write_error file with
  | Some e => raise e
  | None => ret (zf ++ [{| arcname := arcname; zipped_file := file |}])
  end.

(** The loop that fills the archive. *)
Fixpoint add_files (workflow_root_dir : string) (found : list string)
    (zf : list ZipEntry) : M (list ZipEntry) :=
  match found with
  | [] => ret zf
  | file :: rest =>
      if isfile file then
        let arcname := replace (path_join workflow_root_dir "") "" file in
        print (".. adding: " +:+ file +:+ " -> " +:+ arcname) ;;;
        zf <- zf_write zf file arcname ;;
        add_files workflow_root_dir rest zf
      else add_files workflow_root_dir rest zf
  end.

Definition create_workflow (workflow_root_dir : string) (parameters : Parameters)
    (name description main : option string) : M Workflow :=
  print "creating zip file:" ;;;
  buffer <- add_files workflow_root_dir
              (iglob (path_join workflow_root_dir "**/*")) [] ;;
  workflow_id <- omics_create_workflow name description buffer main parameters ;;
  print ("workflow " +:+ pretty workflow_id +:+ " created, waiting for it to become ACTIVE") ;;;
  try_except_else globals
    (waiter_wait workflow_id ;;;
     print ("workflow " +:+ pretty workflow_id +:+ " ready for use"))
    (Attr (Attr (Name "botocore") "exceptions") "WaiterError")
    (λ e, print ("workflow " +:+ pretty workflow_id +:+ " FAILED:") ;;; print (str e))
    (λ _, ret tt) ;;;
  get_workflow workflow_id.

End CreateWorkflow.

End Workflows.

(** ** Waiting for a job

    The notebooks wait through the client library's waiters, whose polling
    loop is not part of the notebooks.  The loop is embedded here as the
    design describes it. *)

Module JobWaiter.

Inductive JobStatus : Type :=
| Submitted | InProgress | Completed | Failed | Cancelled.

Definition terminal (s : JobStatus) : bool :=
  match s with
  | Completed | Failed | Cancelled => true
  | Submitted | InProgress => false
  end.

(** A remote job as a waiter sees it: the answer to each status call in
    turn, how many status calls were made, whether its cancellation was
    requested, and the time that has passed. *)
Record Job : Type := mkJob {
  status_feed : nat → result JobStatus;
  polls : nat;
  cancel_requested : bool;
  clock : nat;
}.

Definition get_status (j : Job) : result JobStatus * Job :=
  (status_feed j (polls j),
   mkJob (status_feed j) (S (polls j)) (cancel_requested j) (clock j)).

Definition cancel_job (j : Job) : Job :=
  mkJob (status_feed j) (polls j) true (clock j).

Definition sleep (seconds : nat) (j : Job) : Job :=
  mkJob (status_feed j) (polls j) (cancel_requested j) (clock j + seconds).

Inductive WaitResult : Type :=
| Terminal (s : JobStatus)
| WaitTimeout
| WaitTransportError
| WaitCancelled.

(** Modelled from the spec: one poll of [JobWaiter.wait], which is not
    among the notebooks' cells; a failing status call is repeated within
    the retry budget before it is escalated. *)
Fixpoint poll (retry_budget : nat) (j : Job) : result JobStatus * Job :=
  match get_status j with
  | (Return s, j') => (Return s, j')
  | (Raise e, j') =>
      match retry_budget with
      | 0 => (Raise e, j')
      | S budget => poll budget j'
      end
  end.

(** Modelled from the spec: the polling loop of [JobWaiter.wait], which
    the notebooks call as the client library's [waiter.wait] and which is
    not among their cells.  It polls the job status every [poll_interval],
    returns the terminal state once one is reached, fails with
    [WaitTimeout] after [max_attempts] polls without a terminal state,
    with [WaitTransportError] when a poll fails beyond its retry budget,
    and with [WaitCancelled] when the cancellation signal ([cancelled], by
    the time it is looked at) is set.  It only reads the job. *)
Fixpoint wait (cancelled : nat → bool) (retry_budget : nat)
    (poll_interval max_attempts : nat) (j : Job) : WaitResult * Job :=
  match max_attempts with
  | 0 => (WaitTimeout, j)
  | S attempts_left =>
      if cancelled (clock j) then (WaitCancelled, j)
      else
        match poll retry_budget j with
        | (Raise _, j') => (WaitTransportError, j')
        | (Return s, j') =>
            if terminal s then (Terminal s, j')
            else wait cancelled retry_budget poll_interval attempts_left
                   (sleep poll_interval j')
        end
  end.

(** A job whose status calls answer the given statuses in turn, and the
    last of them from then on. *)
Definition job_with_statuses (first : JobStatus) (rest : list JobStatus) : Job :=
  mkJob (λ k, Return (nth k (first :: rest) (List.last rest first))) 0 false 0.

End JobWaiter.

(** ** Sample worlds *)

Module Sample.

Definition no_iam : Iam := mkIam ∅ [] [] [] [].

Definition no_omics : Omics := mkOmics [] [] [] [] [] false 100 1 [] [].

(** Nothing exists remotely, no call fails, empty lists are listed. *)
Definition fresh : World := mkWorld no_iam "us-east-1" (λ _, no_omics) ∅ [].

Definition set_iam (i : Iam) (w : World) : World := Boto3.with_iam i w.

Definition set_omics (st : Omics) (w : World) : World :=
  mkWorld (iam w) (default_region w) (λ _, st) (files w) (stdout w).

(** The next IAM call is refused. *)
Definition access_denied : World :=
  set_iam (mkIam ∅ [] [] [] [Some (ClientError "AccessDenied")]) fresh.

(** The service role exists. *)
Definition with_role : World :=
  set_iam (mkIam {["OmicsTutorialRole" := role_arn_of "OmicsTutorialRole"]} [] [] [] [])
    fresh.

(** One reference store with three references of the same name, listed
    two to a page. *)
Definition grch38 (id : nat) (arn : string) : Reference :=
  {| reference_store := 1; reference_id := id;
     reference_name := "GRCh38"; reference_arn := arn |}.

Definition my_reference_store : ReferenceStore :=
  {| store_id := 1; store_name := "myReferenceStore" |}.

Definition three_references : World :=
  set_omics
    (mkOmics [my_reference_store]
       [grch38 2 "arn:2"; grch38 3 "arn:3"; grch38 4 "arn:4"]
       [] [] [] false 2 5 [] [])
    fresh.

Definition descriptor (sample : string) : ImportSource :=
  {| subjectId := "NA12878"; sampleId := sample; sourceFileType := "CRAM";
     sourceFiles := {| source1 := "s3://bucket/" +:+ sample +:+ ".cram";
                       source2 := None |};
     referenceArn := "arn:2";
     generatedFrom := "s3://bucket/" +:+ sample +:+ ".cram";
     description := "NA12878/" +:+ sample +:+ " from bucket";
     tags := [("SourceLocation", "bucket")] |}.

(** A payload that is read to its end, and one whose transfer breaks
    off. *)
Definition whole (bytes : list byte) : StreamingBody :=
  {| stream_bytes := bytes; read_error := None |}.

Definition broken (bytes : list byte) : StreamingBody :=
  {| stream_bytes := bytes;
     read_error := Some (ResponseStreamingError "Connection broken") |}.

(** A stored reference whose source has parts of 5, 7 and 3 bytes and
    whose index has one part. *)
Definition hg38 : TransferObject :=
  {| obj_store := 1; obj_id := 2;
     obj_files := [("SOURCE", [whole (repeat x01 5); whole (repeat x02 7);
                               whole (repeat x03 3)]);
                   ("INDEX", [whole [x04]])] |}.

(** The same reference, with the transfer of its index breaking off. *)
Definition hg38_broken_index : TransferObject :=
  {| obj_store := 1; obj_id := 2;
     obj_files := [("SOURCE", [whole (repeat x01 5)]);
                   ("INDEX", [broken [x04]])] |}.

(** The service with the given objects, whose calls have the given
    outcomes. *)
Definition with_objects (objects : list TransferObject) (faults : fault_schedule)
  : World :=
  set_omics (mkOmics [my_reference_store] [] [] objects [] false 100 5 [] faults) fresh.





(** [urlparse] on locators of the shape [scheme://netloc/path], without
    query or fragment, which is the shape of every locator in the
    notebooks: the network location runs from the double slash to the next
    slash, the path from that slash to the end. *)
Fixpoint after_scheme (url : string) : string :=
  match url with
  | String "/" (String "/" rest) => rest
  | String _ url' => after_scheme url'
  | EmptyString => EmptyString
  end.

Fixpoint split_netloc (rest : string) : string * string :=
  match rest with
  | EmptyString => (EmptyString, EmptyString)
  | String c rest' =>
      if Ascii.eqb c "/" then (EmptyString, rest)
      else let '(n, p) := split_netloc rest' in (String c n, p)
  end.

Definition urlparse (url : string) : ParseResult :=
  let '(n, p) := split_netloc (after_scheme url) in
  {| netloc := n; path := p |}.

Definition fastq (read part : string) : string :=
  "s3://giab/data/NA12878/NIST_NA12878_HG001_HiSeq_300x/140407_D00360_0016_AH948VADXX/Project_RM8398/Sample_U0a/U0a_CGATGT_L001_R"
  +:+ read +:+ "_" +:+ part +:+ ".fastq.gz".

End Sample.

(** ** Notions the properties are stated with *)

Definition something_went_wrong : string :=
  "Somthing went wrong, please retry and check your account settings and permissions".

(** What the role-creation cell does once the role is known to be missing. *)
Definition create_role_and_policy (demo_trust_policy demo_policy : string)
    (omics_iam_name : string) : M unit :=
  Boto3.create_role omics_iam_name demo_trust_policy ;;;
  policy <- Boto3.create_policy (omics_iam_name +:+ "-policy")
              "Policy for Amazon Omics demo" demo_policy ;;
  Boto3.attach_role policy omics_iam_name.

(** The creation calls among the calls made on a client. *)
Definition is_create (c : ApiCall) : bool :=
  match c with
  | CreateReferenceStore _ | CreateSequenceStore _ => true
  | _ => false
  end.

Definition creates (cs : list ApiCall) : nat := length (List.filter is_create cs).

Definition ceil_div (L B : nat) : nat := (L + B - 1) / B.

(** The design's batching property: [jobs] are the consecutive chunks of at
    most [B] of [descriptors], [ceil(L/B)] of them. *)
Definition chunked_submission {A} (B : nat) (descriptors : list A)
    (jobs : list (list A)) : Prop :=
  length jobs = ceil_div (length descriptors) B ∧
  Forall (λ chunk, (length chunk ≤ B)%nat) jobs ∧
  concat jobs = descriptors.

Definition read_set_job_sources (j : ImportJob) : list ImportSource :=
  match j with
  | ReadSetImportJob _ _ _ sources => sources
  | VariantImportJob _ _ _ _ => []
  end.

Definition variant_job_items (j : ImportJob) : list string :=
  match j with
  | VariantImportJob _ _ _ items => items
  | ReadSetImportJob _ _ _ _ => []
  end.

(** The role exists and neither service has a failure scheduled. *)
Definition ready (omics omics_iam_name roleArn : string) (w : World) : Prop :=
  roles (iam w) !! omics_iam_name = Some roleArn ∧
  iam_faults (iam w) = [] ∧
  faults (omics_in w omics) = [].

(** The accumulating loops, as a traversal. *)
Fixpoint collect {A B} (f : A → result B) (l : list A) : result (list B) :=
  match l with
  | [] => Return []
  | x :: xs => entry <-? f x ;; entries <-? collect f xs ;; Return (entry :: entries)
  end.

(** The path segments the identifiers are read from. *)
Definition segments (urlparse : string → ParseResult) (uri : string) : list string :=
  split "/" (drop_first (path (urlparse uri))).

(** [c in s] for a character. *)
Fixpoint occurs (c : ascii) (s : string) : bool :=
  match s with
  | EmptyString => false
  | String d s' => Ascii.eqb d c || occurs c s'
  end.

(** The members [create_workflow] puts into the archive, for the paths the
    glob found. *)
Definition archive (isfile : string → bool) (workflow_root_dir : string)
    (found : list string) : list Workflows.ZipEntry :=
  map (λ file, {| Workflows.arcname := replace (path_join workflow_root_dir "") "" file;
                  Workflows.zipped_file := file |})
    (List.filter isfile found).

(** The world after the given lines have been printed. *)
Definition printed (lines : list string) (w : World) : World :=
  mkWorld (iam w) (default_region w) (omics_in w) (files w) (stdout w ++ lines).

(** The job after a wait: so many more status calls, and nothing else. *)
Definition polled (n : nat) (j j' : JobWaiter.Job) : Prop :=
  JobWaiter.polls j' = (JobWaiter.polls j + n)%nat ∧
  JobWaiter.cancel_requested j' = JobWaiter.cancel_requested j ∧
  JobWaiter.status_feed j' = JobWaiter.status_feed j.

(** The first [n] status calls from now on are answered, with a status
    that is not terminal. *)
Definition pending (n : nat) (j : JobWaiter.Job) : Prop :=
  ∀ k, (k < n)%nat →
       ∃ s, JobWaiter.status_feed j (JobWaiter.polls j + k) = Return s ∧
            JobWaiter.terminal s = false.

(** * Properties *)

(** ** Running cells *)

Lemma bind_run {A B} (m : M A) (k : A → M B) (w : World) :
  bind m k w = match m w with
               | (Return a, w') => k a w'
               | (Raise e, w') => (Raise e, w')
               end.
Proof. reflexivity. Qed.

Lemma bind_returns {A B} (m : M A) (k : A → M B) w a w' :
  m w = (Return a, w') → bind m k w = k a w'.
Proof. intros H. unfold bind. by rewrite H. Qed.

Lemma pair_fst_snd {A B} (p : A * B) a : fst p = a → p = (a, snd p).
Proof. destruct p; simpl; congruence. Qed.

(** ** The reference store lookup *)

(** C8. When the listing carries a reference-store list that is present but
    empty, [get_ref_store_id] raises [IndexError]; it returns [None] exactly
    when the listing response carries no reference-store list at all. *)
Theorem get_ref_store_id_empty_listing (client : option string) (w : World) :
  let listing :=
    fst (Boto3.list_reference_stores (default (default_region w) client) 10 w) in
  let answer := fst (Storage.get_ref_store_id client w) in
  (listing = Return (Some []) → answer = Raise IndexError) ∧
  (answer = Return None ↔ listing = Return None).
Proof.
  cbn zeta.
  assert (Hrun : Storage.get_ref_store_id client w =
            bind (Boto3.list_reference_stores (default (default_region w) client) 10)
              (λ l, match l with
                    | Some stores =>
                        bind (lift (index stores 0)) (λ s, ret (Some (store_id s)))
                    | None => ret None
                    end) w).
  { unfold Storage.get_ref_store_id. destruct client; reflexivity. }
  rewrite Hrun, bind_run.
  destruct (Boto3.list_reference_stores _ 10 w) as [[[[|s ss]|]|e] w1]; cbn;
    (split; [|split]); congruence.
Qed.

Lemma get_ref_store_id_empty_listing_witness :
  fst (Storage.get_ref_store_id (Some "us-east-1") Sample.fresh) = Raise IndexError.
Proof.
  apply (proj1 (get_ref_store_id_empty_listing (Some "us-east-1") Sample.fresh)).
  reflexivity.
Defined.

(** ** The service role *)

Lemma role_load_keeps_stdout (name : string) (w : World) :
  stdout (snd (Boto3.role_load name w)) = stdout w.
Proof.
  unfold Boto3.role_load, Boto3.invoke_iam.
  destruct (next_fault (iam_faults (iam w))); [reflexivity|].
  cbn. destruct (roles (iam w) !! name); reflexivity.
Qed.

(** C9. In both notebooks the [except] clause of [get_role_arn] names
    something that is not bound: whenever [role.load()] raises (a client
    error or anything else), the function raises the handler's own
    [AttributeError] (storage notebook) or [NameError] (analytics notebook);
    the diagnostic line is not printed and the error of [role.load()] is not
    the one raised. *)
Theorem get_role_arn_handler_escalates (role_name : string) (w : World) (e : exn) :
  fst (Boto3.role_load role_name w) = Raise e →
  Storage.get_role_arn role_name w
    = (Raise (AttributeError "exeptions"), snd (Boto3.role_load role_name w)) ∧
  Analytics.get_role_arn role_name w
    = (Raise (NameError "ClientError"), snd (Boto3.role_load role_name w)) ∧
  stdout (snd (Boto3.role_load role_name w)) = stdout w.
Proof.
  intros Hload. apply pair_fst_snd in Hload.
  unfold Storage.get_role_arn, Analytics.get_role_arn, try_except_else.
  rewrite Hload. cbn.
  repeat split. apply role_load_keeps_stdout.
Qed.

Lemma get_role_arn_handler_escalates_witness :
  fst (Storage.get_role_arn "OmicsTutorialRole" Sample.access_denied)
    = Raise (AttributeError "exeptions") ∧
  fst (Analytics.get_role_arn "OmicsTutorialRole" Sample.access_denied)
    = Raise (NameError "ClientError") ∧
  stdout (snd (Storage.get_role_arn "OmicsTutorialRole" Sample.access_denied)) = [].
Proof.
  destruct (get_role_arn_handler_escalates "OmicsTutorialRole" Sample.access_denied
              (ClientError "AccessDenied") eq_refl) as (Hs & Ha & Hout).
  rewrite Hs, Ha. repeat split.
Defined.

(** When the role loads, both versions return its ARN. *)
Lemma get_role_arn_loaded (role_name : string) (w w' : World) (arn : string) :
  Boto3.role_load role_name w = (Return arn, w') →
  Storage.get_role_arn role_name w = (Return arn, w') ∧
  Analytics.get_role_arn role_name w = (Return arn, w').
Proof.
  intros Hload.
  unfold Storage.get_role_arn, Analytics.get_role_arn, try_except_else.
  rewrite Hload. split; reflexivity.
Qed.

Lemma create_service_role_run (t p name : string) (w : World) :
  Storage.create_service_role t p name w =
    match Boto3.role_load name w with
    | (Return _, w1) => (Return tt, w1)
    | (Raise (ClientError code), w1) =>
        if String.eqb code "NoSuchEntity"
        then create_role_and_policy t p name w1
        else print something_went_wrong w1
    | (Raise e, w1) => (Raise e, w1)
    end.
Proof.
  unfold Storage.create_service_role, try_except_else.
  destruct (Boto3.role_load name w) as [[a|e] w1]; [reflexivity|].
  destruct e; try reflexivity.
  cbn. destruct (String.eqb code "NoSuchEntity"); reflexivity.
Qed.

Lemma create_service_role_same (t p name : string) (w : World) :
  Analytics.create_service_role t p name w = Storage.create_service_role t p name w.
Proof.
  unfold Storage.create_service_role, Analytics.create_service_role, try_except_else.
  destruct (Boto3.role_load name w) as [[a|e] w1]; reflexivity.
Qed.

(** C7, as stated, fails: with the IAM service refusing the call, the
    [AccessDenied] error of [role.load()] ends as one printed line and the
    role-creation cell returns normally. *)
Lemma create_service_role_swallows_access_denied :
  fst (Boto3.role_load "OmicsTutorialRole" Sample.access_denied)
    = Raise (ClientError "AccessDenied") ∧
  fst (Storage.create_service_role "" "" "OmicsTutorialRole" Sample.access_denied)
    = Return tt ∧
  stdout (snd (Storage.create_service_role "" "" "OmicsTutorialRole" Sample.access_denied))
    = [something_went_wrong].
Proof. repeat split. Qed.

(** C7, amended. In the role-creation cell of both notebooks, a client error
    of [role.load()] whose code is not [NoSuchEntity] is reduced to one
    printed line and the cell returns normally; every other failure is
    raised to the caller: an error of [role.load()] that is not a client
    error, and, once the role is found missing, whatever creating the role,
    the policy or the attachment raises.  A read set import submission that
    the service rejects is raised to the caller as well. *)
Theorem create_service_role_error_handling
    (t p name : string) (w : World) :
  Analytics.create_service_role t p name w = Storage.create_service_role t p name w ∧
  (∀ code, code ≠ "NoSuchEntity" →
     fst (Boto3.role_load name w) = Raise (ClientError code) →
     Storage.create_service_role t p name w
       = print something_went_wrong (snd (Boto3.role_load name w))) ∧
  (∀ e, class_of e ≠ ClientErrorClass →
     fst (Boto3.role_load name w) = Raise e →
     fst (Storage.create_service_role t p name w) = Raise e) ∧
  (fst (Boto3.role_load name w) = Raise (ClientError "NoSuchEntity") →
     Storage.create_service_role t p name w
       = create_role_and_policy t p name (snd (Boto3.role_load name w))) ∧
  (∀ omics seqstore fastq cram arn w1 e,
     Storage.get_role_arn name w = (Return arn, w1) →
     fst (Boto3.start_read_set_import_job omics arn seqstore (fastq ++ cram) w1)
       = Raise e →
     fst (Storage.import_read_sets omics name seqstore fastq cram w) = Raise e).
Proof.
  split; [apply create_service_role_same|].
  rewrite create_service_role_run.
  destruct (Boto3.role_load name w) as [[a|e0] w1] eqn:Hload; cbn [fst snd].
  - repeat split; try congruence; try discriminate.
    intros omics seqstore fastq cram arn w2 e Harn Hjob.
    unfold Storage.import_read_sets. rewrite (bind_returns _ _ _ _ _ Harn).
    exact Hjob.
  - repeat split.
    + intros code Hcode [= ->]. apply String.eqb_neq in Hcode. by rewrite Hcode.
    + intros e Hclass [= ->]. destruct e; cbn in Hclass; try reflexivity; congruence.
    + intros [= ->]. reflexivity.
    + intros omics seqstore fastq cram arn w2 e Harn Hjob.
      unfold Storage.import_read_sets. rewrite (bind_returns _ _ _ _ _ Harn).
      exact Hjob.
Qed.

Lemma create_service_role_error_handling_witness :
  Storage.create_service_role "" "" "OmicsTutorialRole" Sample.access_denied
    = print something_went_wrong
        (snd (Boto3.role_load "OmicsTutorialRole" Sample.access_denied)).
Proof.
  destruct (create_service_role_error_handling "" "" "OmicsTutorialRole"
              Sample.access_denied) as (_ & Hprinted & _).
  apply (Hprinted "AccessDenied"); [discriminate | reflexivity].
Defined.

(** ** The reference lookup by name *)

Lemma fold_last_match (ref_name : string) (references : list Reference) :
  fold_left
    (λ ref_arn ref,
       if String.eqb (reference_name ref) ref_name
       then Some (reference_arn ref) else ref_arn)
    references None
  = option_map reference_arn
      (list.last (filter (λ r, reference_name r = ref_name) references)).
Proof.
  induction references as [|x l IH] using rev_ind; [reflexivity|].
  rewrite fold_left_app, list.filter_app. cbn [fold_left].
  destruct (String.eqb (reference_name x) ref_name) eqn:Hx.
  - apply String.eqb_eq in Hx.
    rewrite list.filter_cons_True by exact Hx.
    rewrite list.filter_nil, list.last_snoc. reflexivity.
  - apply String.eqb_neq in Hx.
    rewrite list.filter_cons_False by exact Hx.
    rewrite list.filter_nil, app_nil_r. exact IH.
Qed.

Lemma get_reference_arn_run (omics ref_name : string) (client : option string)
    (w w1 : World) (stores : option (list ReferenceStore)) :
  Boto3.list_reference_stores (default (default_region w) client) 10 w
    = (Return stores, w1) →
  Analytics.get_reference_arn omics ref_name client w =
    match stores with
    | Some (s :: _) =>
        match Boto3.list_references omics (store_id s) w1 with
        | (Return (Some page), w2) =>
            match list.last (filter (λ r, reference_name r = ref_name) page) with
            | Some r => (Return (reference_arn r), w2)
            | None =>
                (Raise (RuntimeError ("Could not find " +:+ ref_name +:+ ", please got to the Amazon Omics Storage tutorial to learn how to import one. Do note continue with this notebook")), w2)
            end
        | (Return None, w2) => (Raise TypeError, w2)
        | (Raise e, w2) => (Raise e, w2)
        end
    | _ =>
        (Raise (RuntimeError "You have not created a reference store, please got to the Amazon Omics Storage tutorial to learn how to create one. Do note continue with this notebook"), w1)
    end.
Proof.
  intros Hstores.
  assert (Hrun : ∀ k : string → M string,
            bind (match client with
                  | Some c => ret c
                  | None => Boto3.client None
                  end) k w = k (default (default_region w) client) w).
  { intros k. destruct client; reflexivity. }
  unfold Analytics.get_reference_arn. rewrite Hrun.
  rewrite (bind_returns _ _ _ _ _ Hstores).
  destruct stores as [[|s rest]|]; try reflexivity.
  rewrite bind_run.
  destruct (Boto3.list_references omics (store_id s) w1) as [[[page|]|e] w2];
    try reflexivity.
  rewrite fold_last_match.
  destruct (list.last (filter (λ r, reference_name r = ref_name) page)); reflexivity.
Qed.

(** The page a reference listing answers is the first [page_size]
    references of the store. *)
Lemma list_references_page (omics : string) (id : nat) (w1 w2 : World)
    (page : list Reference) :
  Boto3.list_references omics id w1 = (Return (Some page), w2) →
  page = take (page_size (omics_in w1 omics))
           (filter (λ r, reference_store r = id) (all_references (omics_in w1 omics))).
Proof.
  unfold Boto3.list_references, Boto3.invoke.
  destruct (next_fault (faults (omics_in w1 omics))); [discriminate|].
  cbn. unfold serve_list_references, list_member. cbn.
  destruct (take _ _) as [|r l]; [|congruence].
  destruct (omits_empty_lists (omics_in w1 omics)); [discriminate|congruence].
Qed.

(** C10. With the store listing and, when a store is listed, the reference
    listing of its first store answered, [get_reference_arn] raises
    [RuntimeError] exactly when no reference store is listed or no reference
    on the page the listing answers has the requested name; otherwise it
    returns the ARN of the last reference of that page, in listing order,
    whose name is the requested one.  That page is the first page of the
    store's references: what lies beyond it is not looked at. *)
Theorem get_reference_arn_outcome (omics ref_name : string) (client : option string)
    (w w1 w2 : World) (stores : option (list ReferenceStore)) (page : list Reference) :
  Boto3.list_reference_stores (default (default_region w) client) 10 w
    = (Return stores, w1) →
  (∀ s rest, stores = Some (s :: rest) →
     Boto3.list_references omics (store_id s) w1 = (Return (Some page), w2)) →
  let out := fst (Analytics.get_reference_arn omics ref_name client w) in
  let no_store := stores = None ∨ stores = Some [] in
  ((∃ m, out = Raise (RuntimeError m))
     ↔ no_store ∨ ∀ r, r ∈ page → reference_name r ≠ ref_name) ∧
  (¬ no_store →
     ∀ r, list.last (filter (λ r, reference_name r = ref_name) page) = Some r →
       out = Return (reference_arn r)) ∧
  (∀ s rest, stores = Some (s :: rest) →
     page = take (page_size (omics_in w1 omics))
              (filter (λ r, reference_store r = store_id s)
                 (all_references (omics_in w1 omics)))).
Proof.
  intros Hstores Hpage. cbn zeta.
  split; [|split;
    [|intros s rest Hs; exact (list_references_page _ _ _ _ _ (Hpage s rest Hs))]];
    rewrite (get_reference_arn_run _ _ _ _ _ _ Hstores).
  - destruct stores as [[|s rest]|].
    + split; [intros _; left; by right | intros _; eauto].
    + rewrite (Hpage s rest eq_refl).
      destruct (list.last (filter (λ r, reference_name r = ref_name) page))
        as [r|] eqn:Hlast; cbn [fst].
      * split; [intros [m [=]]|].
        intros [[[=]|[=]]|Hnone]. exfalso.
        apply last_Some_elem_of, list_elem_of_filter in Hlast as [Hname Hin].
        exact (Hnone r Hin Hname).
      * split; [|intros _; eauto].
        intros _. right. intros r Hin Hname.
        apply last_None in Hlast.
        eapply (filter_nil_not_elem_of _ _ _ Hlast); [exact Hname|exact Hin].
    + split; [intros _; left; by left | intros _; eauto].
  - destruct stores as [[|s rest]|].
    + intros []. by right.
    + rewrite (Hpage s rest eq_refl). intros _ r ->. reflexivity.
    + intros []. by left.
Qed.

Lemma get_reference_arn_outcome_witness :
  fst (Analytics.get_reference_arn "us-west-2" "GRCh38" (Some "us-west-2")
         Sample.three_references)
    = Return "arn:3".
Proof.
  pose (w1 := snd (Boto3.list_reference_stores "us-west-2" 10 Sample.three_references)).
  pose (w2 := snd (Boto3.list_references "us-west-2" 1 w1)).
  refine (proj1 (proj2 (get_reference_arn_outcome "us-west-2" "GRCh38" (Some "us-west-2")
                          Sample.three_references w1 w2
                          (Some [Sample.my_reference_store])
                          [Sample.grch38 2 "arn:2"; Sample.grch38 3 "arn:3"]
                          eq_refl _)) _ (Sample.grch38 3 "arn:3") eq_refl).
  - intros s rest [= <- <-]. reflexivity.
  - intros [[=]|[=]].
Defined.

(** ** Reference and sequence stores *)

Lemma omics_in_with_omics (region : string) (st : Omics) (w : World) :
  omics_in (Boto3.with_omics region st w) region = st.
Proof. unfold Boto3.with_omics. cbn. apply fn_lookup_insert. Qed.

Lemma invoke_served {A} (region : string) (c : ApiCall)
    (serve : Omics → result A * Omics) (w : World) :
  next_fault (faults (omics_in w region)) = None →
  Boto3.invoke region c serve w =
    (fst (serve (received c (omics_in w region))),
     Boto3.with_omics region (snd (serve (received c (omics_in w region)))) w).
Proof.
  intros Hf. unfold Boto3.invoke. rewrite Hf.
  destruct (serve (received c (omics_in w region))); reflexivity.
Qed.

Lemma invoke_faulted {A} (region : string) (c : ApiCall)
    (serve : Omics → result A * Omics) (w : World) (e : exn) :
  next_fault (faults (omics_in w region)) = Some e →
  Boto3.invoke region c serve w =
    (Raise e, Boto3.with_omics region (received c (omics_in w region)) w).
Proof. intros Hf. unfold Boto3.invoke. by rewrite Hf. Qed.

Lemma get_ref_store_id_run (omics : string) (w : World) :
  faults (omics_in w omics) = [] →
  Storage.get_ref_store_id (Some omics) w =
    (match reference_stores (omics_in w omics) with
     | [] => if omits_empty_lists (omics_in w omics) then Return None
             else Raise IndexError
     | s :: _ => Return (Some (store_id s))
     end,
     Boto3.with_omics omics (received (ListReferenceStores 10) (omics_in w omics)) w).
Proof.
  intros Hf. unfold Storage.get_ref_store_id.
  rewrite (bind_returns _ _ w omics w eq_refl).
  unfold Boto3.list_reference_stores.
  rewrite bind_run, invoke_served by (by rewrite Hf).
  cbn [fst snd]. unfold serve_list_reference_stores, list_member. cbn.
  destruct (reference_stores (omics_in w omics)) as [|s rest]; cbn.
  - destruct (omits_empty_lists (omics_in w omics)); reflexivity.
  - reflexivity.
Qed.

Lemma check_reference_store_run (omics : string) (w : World) :
  faults (omics_in w omics) = [] →
  let st := omics_in w omics in
  let probed := received (ListReferenceStores 10) st in
  fst (Storage.check_reference_store omics w)
    = match reference_stores st with
      | [] => if omits_empty_lists st then Return tt else Raise IndexError
      | _ :: _ => Return tt
      end ∧
  omics_in (snd (Storage.check_reference_store omics w)) omics
    = match reference_stores st with
      | [] => if omits_empty_lists st
              then add_reference_store "myReferenceStore"
                     (received (CreateReferenceStore "myReferenceStore") probed)
              else probed
      | _ :: _ => probed
      end.
Proof.
  intros Hf. cbn zeta. unfold Storage.check_reference_store.
  rewrite bind_run. cbn [print].
  set (wp := mkWorld _ _ _ _ _).
  assert (Hwp : omics_in wp omics = omics_in w omics) by reflexivity.
  rewrite bind_run, get_ref_store_id_run by (by rewrite Hwp).
  rewrite Hwp.
  destruct (reference_stores (omics_in w omics)) as [|s rest] eqn:Hstores.
  - destruct (omits_empty_lists (omics_in w omics)) eqn:Homit.
    + unfold Boto3.create_reference_store.
      rewrite bind_run, invoke_served
        by (rewrite omics_in_with_omics; cbn; by rewrite Hf).
      cbn [fst snd print]. rewrite omics_in_with_omics.
      split; [reflexivity|]. cbn. apply fn_lookup_insert.
    + cbn [fst snd]. split; [reflexivity|]. apply omics_in_with_omics.
  - cbn [fst snd print]. split; [reflexivity|]. cbn. apply fn_lookup_insert.
Qed.

(** C4, as stated, fails for the sequence store: the cell that creates it
    never lists first, so running it twice issues two create calls and
    answers two different identifiers. *)
Lemma create_sequence_store_twice :
  fst (Storage.create_sequence_store "us-east-1" "20230101T000000" Sample.fresh)
    = Return {| seq_id := 1; seq_name := "tutorial-seq-store-20230101T000000" |} ∧
  fst (Storage.create_sequence_store "us-east-1" "20230101T000000"
         (snd (Storage.create_sequence_store "us-east-1" "20230101T000000" Sample.fresh)))
    = Return {| seq_id := 2; seq_name := "tutorial-seq-store-20230101T000000" |} ∧
  calls (omics_in
           (snd (Storage.create_sequence_store "us-east-1" "20230101T000000"
                   (snd (Storage.create_sequence_store "us-east-1" "20230101T000000"
                           Sample.fresh))))
           "us-east-1")
    = [CreateSequenceStore "tutorial-seq-store-20230101T000000";
       CreateSequenceStore "tutorial-seq-store-20230101T000000"].
Proof. repeat split. Qed.

Lemma check_reference_store_twice (omics : string) (w : World) :
  faults (omics_in w omics) = [] →
  (reference_stores (omics_in w omics) ≠ []
   ∨ omits_empty_lists (omics_in w omics) = true) →
  let w1 := snd (Storage.check_reference_store omics w) in
  let w2 := snd (Storage.check_reference_store omics w1) in
  fst (Storage.check_reference_store omics w) = Return tt ∧
  fst (Storage.check_reference_store omics w1) = Return tt ∧
  (∃ id, fst (Storage.get_ref_store_id (Some omics) w1) = Return (Some id) ∧
         fst (Storage.get_ref_store_id (Some omics) w2) = Return (Some id)) ∧
  (∃ first second,
     calls (omics_in w1 omics)
       = calls (omics_in w omics) ++ ListReferenceStores 10 :: first ∧
     calls (omics_in w2 omics)
       = calls (omics_in w1 omics) ++ ListReferenceStores 10 :: second ∧
     (creates (first ++ second) ≤ 1)%nat).
Proof.
  intros Hf Hprobe. cbn zeta.
  destruct (check_reference_store_run omics w Hf) as [Hr1 Hs1].
  cbn zeta in Hr1, Hs1.
  set (w1 := snd (Storage.check_reference_store omics w)) in *.
  set (st := omics_in w omics) in *.
  assert (Hw1 : faults (omics_in w1 omics) = [] ∧
                ∃ s rest, reference_stores (omics_in w1 omics) = s :: rest ∧
                  ∃ first, calls (omics_in w1 omics)
                             = calls st ++ ListReferenceStores 10 :: first ∧
                           (creates first ≤ 1)%nat).
  { rewrite Hs1. destruct (reference_stores st) as [|s rest] eqn:Hstores.
    - destruct Hprobe as [Hne|Homit]; [done|]. rewrite Homit. cbn.
      rewrite Hf, Hstores. split; [reflexivity|].
      eexists _, _. split; [reflexivity|].
      exists [CreateReferenceStore "myReferenceStore"].
      split; [by rewrite <- app_assoc | cbn; lia].
    - cbn. rewrite Hf, Hstores. split; [reflexivity|].
      eexists _, _. split; [reflexivity|].
      exists []. split; [reflexivity | cbn; lia]. }
  destruct Hw1 as (Hf1 & s & rest & Hstores1 & first & Hcalls1 & Hfirst).
  destruct (check_reference_store_run omics w1 Hf1) as [Hr2 Hs2].
  cbn zeta in Hr2, Hs2. rewrite Hstores1 in Hr2, Hs2.
  set (w2 := snd (Storage.check_reference_store omics w1)) in *.
  split.
  { rewrite Hr1. destruct (reference_stores st); [|reflexivity].
    destruct Hprobe as [Hne|Homit]; [done|]. by rewrite Homit. }
  split; [exact Hr2|].
  split.
  { exists (store_id s).
    rewrite !get_ref_store_id_run.
    - rewrite Hs2. cbn. by rewrite Hstores1.
    - rewrite Hs2. cbn. by rewrite Hf1.
    - exact Hf1. }
  exists first, []. split; [exact Hcalls1|].
  split; [by rewrite Hs2|]. by rewrite app_nil_r.
Qed.

Lemma create_sequence_store_run (omics ts : string) (w : World) :
  faults (omics_in w omics) = [] →
  Storage.create_sequence_store omics ts w =
    (Return {| seq_id := next_id (omics_in w omics);
               seq_name := "tutorial-seq-store-" +:+ ts |},
     Boto3.with_omics omics
       (add_sequence_store ("tutorial-seq-store-" +:+ ts)
          (received (CreateSequenceStore ("tutorial-seq-store-" +:+ ts))
             (omics_in w omics)))
       w).
Proof.
  intros Hf. unfold Storage.create_sequence_store, Boto3.create_sequence_store.
  cbn zeta. by rewrite invoke_served by (by rewrite Hf).
Qed.

(** C4, amended. With no call failing: for the reference store, when the
    store listing names a store or is left out of the response, the cell
    that checks for the store is idempotent: run twice, it returns normally
    both times, each run starts with the listing call, the two runs issue at
    most one create call between them, and after each run the lookup
    answers the same store identifier.  For the sequence store there is no
    listing: each run of its cell issues one create call and answers the
    identifier of a new store. *)
Theorem check_reference_store_idempotent (omics : string) (w : World) :
  faults (omics_in w omics) = [] →
  ((reference_stores (omics_in w omics) ≠ []
    ∨ omits_empty_lists (omics_in w omics) = true) →
   let w1 := snd (Storage.check_reference_store omics w) in
   let w2 := snd (Storage.check_reference_store omics w1) in
   fst (Storage.check_reference_store omics w) = Return tt ∧
   fst (Storage.check_reference_store omics w1) = Return tt ∧
   (∃ id, fst (Storage.get_ref_store_id (Some omics) w1) = Return (Some id) ∧
          fst (Storage.get_ref_store_id (Some omics) w2) = Return (Some id)) ∧
   (∃ first second,
      calls (omics_in w1 omics)
        = calls (omics_in w omics) ++ ListReferenceStores 10 :: first ∧
      calls (omics_in w2 omics)
        = calls (omics_in w1 omics) ++ ListReferenceStores 10 :: second ∧
      (creates (first ++ second) ≤ 1)%nat)) ∧
  (∀ ts,
     let name := "tutorial-seq-store-" +:+ ts in
     let w1 := snd (Storage.create_sequence_store omics ts w) in
     let w2 := snd (Storage.create_sequence_store omics ts w1) in
     fst (Storage.create_sequence_store omics ts w)
       = Return {| seq_id := next_id (omics_in w omics); seq_name := name |} ∧
     fst (Storage.create_sequence_store omics ts w1)
       = Return {| seq_id := S (next_id (omics_in w omics)); seq_name := name |} ∧
     calls (omics_in w2 omics)
       = calls (omics_in w omics) ++ [CreateSequenceStore name; CreateSequenceStore name]).
Proof.
  intros Hf. split; [apply (check_reference_store_twice omics w Hf)|].
  intros ts. cbn zeta.
  rewrite (create_sequence_store_run omics ts w Hf). cbn [fst snd].
  set (w1 := Boto3.with_omics omics _ w).
  assert (Hst1 : omics_in w1 omics
                 = add_sequence_store ("tutorial-seq-store-" +:+ ts)
                     (received (CreateSequenceStore ("tutorial-seq-store-" +:+ ts))
                        (omics_in w omics)))
    by apply omics_in_with_omics.
  rewrite (create_sequence_store_run omics ts w1)
    by (rewrite Hst1; cbn; by rewrite Hf).
  cbn [fst snd]. rewrite omics_in_with_omics, Hst1. cbn.
  split; [reflexivity|]. split; [reflexivity|]. by rewrite <- app_assoc.
Qed.

Lemma check_reference_store_idempotent_witness :
  fst (Storage.check_reference_store "us-west-2" Sample.three_references) = Return tt ∧
  fst (Storage.check_reference_store "us-west-2"
         (snd (Storage.check_reference_store "us-west-2" Sample.three_references)))
    = Return tt.
Proof.
  destruct (check_reference_store_idempotent "us-west-2" Sample.three_references
              eq_refl) as [Hreference _].
  destruct Hreference as (H1 & H2 & _).
  - left. discriminate.
  - split; [exact H1 | exact H2].
Defined.

(** ** Submitting import jobs *)

Lemma role_load_ready (omics name arn : string) (w : World) :
  ready omics name arn w →
  ∃ w1, Boto3.role_load name w = (Return arn, w1) ∧
        ready omics name arn w1 ∧
        omics_in w1 = omics_in w.
Proof.
  intros (Hrole & Hif & Hf).
  unfold Boto3.role_load, Boto3.invoke_iam. rewrite Hif. cbn. rewrite Hrole.
  eexists. split; [reflexivity|]. split; [|reflexivity].
  split; [exact Hrole|]. split; [reflexivity|exact Hf].
Qed.

Lemma start_job_ready (omics name arn : string) (w : World)
    (c : ApiCall) (j : nat → ImportJob) :
  ready omics name arn w →
  ∃ w1, Boto3.invoke omics c
          (λ st, (Return (next_id st), add_import_job (j (next_id st)) st)) w
        = (Return (next_id (omics_in w omics)), w1) ∧
        ready omics name arn w1 ∧
        import_jobs (omics_in w1 omics)
          = import_jobs (omics_in w omics) ++ [j (next_id (omics_in w omics))] ∧
        next_id (omics_in w1 omics) = S (next_id (omics_in w omics)).
Proof.
  intros (Hrole & Hif & Hf).
  rewrite invoke_served by (by rewrite Hf). cbn [fst snd].
  eexists. split; [reflexivity|].
  rewrite omics_in_with_omics. cbn.
  split; [|split; reflexivity].
  unfold ready. rewrite omics_in_with_omics. cbn. rewrite Hf.
  repeat split; assumption.
Qed.

Lemma print_ready (omics name arn line : string) (w : World) :
  ready omics name arn w →
  ∃ w1, print line w = (Return tt, w1) ∧ ready omics name arn w1 ∧
        omics_in w1 = omics_in w.
Proof. intros H. eexists. split; [reflexivity|]. split; [exact H|reflexivity]. Qed.

Lemma import_read_sets_run (omics name arn : string) (seqstore : nat)
    (fastq cram : list ImportSource) (w : World) :
  ready omics name arn w →
  Boto3.valid_sources (fastq ++ cram) = true →
  ∃ w1,
    Storage.import_read_sets omics name seqstore fastq cram w
      = (Return (next_id (omics_in w omics)), w1) ∧
    import_jobs (omics_in w1 omics)
      = import_jobs (omics_in w omics)
        ++ [ReadSetImportJob (next_id (omics_in w omics)) seqstore arn (fastq ++ cram)].
Proof.
  intros Hready Hvalid.
  destruct (role_load_ready _ _ _ _ Hready) as (w1 & Hload & Hready1 & Hsame).
  destruct (get_role_arn_loaded _ _ _ _ Hload) as [Harn _].
  unfold Storage.import_read_sets. rewrite (bind_returns _ _ _ _ _ Harn).
  unfold Boto3.start_read_set_import_job. rewrite Hvalid.
  destruct (start_job_ready omics name arn w1
              (StartReadSetImportJob arn seqstore (fastq ++ cram))
              (λ id, ReadSetImportJob id seqstore arn (fastq ++ cram)) Hready1)
    as (w2 & Hrun & _ & Hjobs & _).
  rewrite Hsame in Hrun, Hjobs.
  exists w2. split; [exact Hrun | exact Hjobs].
Qed.

Lemma import_read_sets_invalid (omics name arn : string) (seqstore : nat)
    (fastq cram : list ImportSource) (w : World) :
  ready omics name arn w →
  Boto3.valid_sources (fastq ++ cram) = false →
  fst (Storage.import_read_sets omics name seqstore fastq cram w)
    = Raise ParamValidationError ∧
  omics_in (snd (Storage.import_read_sets omics name seqstore fastq cram w))
    = omics_in w.
Proof.
  intros Hready Hinvalid.
  destruct (role_load_ready _ _ _ _ Hready) as (w1 & Hload & _ & Hsame).
  destruct (get_role_arn_loaded _ _ _ _ Hload) as [Harn _].
  unfold Storage.import_read_sets. rewrite (bind_returns _ _ _ _ _ Harn).
  unfold Boto3.start_read_set_import_job. rewrite Hinvalid.
  split; [reflexivity|exact Hsame].
Qed.

Lemma import_vcfs_loop (omics dest name arn : string) (total : nat)
    (l : list (nat * string)) (w : World) :
  ready omics name arn w →
  ∃ w1 new,
    for_each l
      (λ '(i, uri),
         roleArn <- Analytics.get_role_arn name ;;
         jobId <- Boto3.start_variant_import_job omics dest roleArn [uri] ;;
         print ("[job " +:+ pretty (i + 1) +:+ " of " +:+ pretty total
                +:+ "] started import job " +:+ pretty jobId +:+ " for: " +:+ uri)) w
      = (Return tt, w1) ∧
    ready omics name arn w1 ∧
    import_jobs (omics_in w1 omics) = import_jobs (omics_in w omics) ++ new ∧
    map variant_job_items new = map (λ p, [snd p]) l ∧
    Forall (λ j, read_set_job_sources j = []) new.
Proof.
  revert w. induction l as [|[i uri] l IH]; intros w Hready.
  - exists w, []. cbn. rewrite app_nil_r.
    split; [reflexivity|]. split; [exact Hready|].
    split; [reflexivity|]. split; [reflexivity|constructor].
  - destruct (role_load_ready _ _ _ _ Hready) as (w1 & Hload & Hready1 & Hsame1).
    destruct (get_role_arn_loaded _ _ _ _ Hload) as [_ Harn].
    destruct (start_job_ready omics name arn w1
                (StartVariantImportJob dest arn [uri])
                (λ id, VariantImportJob id dest arn [uri]) Hready1)
      as (w2 & Hrun & Hready2 & Hjobs & _).
    destruct (print_ready omics name arn
                ("[job " +:+ pretty (i + 1) +:+ " of " +:+ pretty total
                 +:+ "] started import job " +:+ pretty (next_id (omics_in w1 omics))
                 +:+ " for: " +:+ uri) w2 Hready2)
      as (w3 & Hprint & Hready3 & Hsame3).
    destruct (IH w3 Hready3) as (w4 & new & Hloop & Hready4 & Hjobs4 & Hitems & Hrs).
    exists w4, (VariantImportJob (next_id (omics_in w1 omics)) dest arn [uri] :: new).
    split.
    { cbn [for_each]. rewrite bind_run.
      rewrite (bind_returns _ _ _ _ _ Harn).
      unfold Boto3.start_variant_import_job.
      rewrite (bind_returns _ _ _ _ _ Hrun), Hprint. exact Hloop. }
    split; [exact Hready4|].
    split.
    { rewrite Hjobs4, Hsame3, Hjobs, Hsame1, <- app_assoc. reflexivity. }
    split; [cbn; by rewrite Hitems|].
    constructor; [reflexivity|exact Hrs].
Qed.

Lemma enumerate_snd {A} (l : list A) (k : nat) :
  map snd (combine (seq k (length l)) l) = l.
Proof.
  revert k. induction l as [|x l IH]; intros k; [reflexivity|].
  cbn. by rewrite IH.
Qed.

Lemma chunks_of_one {A} (l : list A) :
  chunked_submission 1 l (map (λ x, [x]) l).
Proof.
  unfold chunked_submission, ceil_div. rewrite length_map.
  replace (length l + 1 - 1)%nat with (length l) by lia.
  rewrite Nat.div_1_r. split; [reflexivity|]. split.
  - apply Forall_forall. intros c Hc. apply in_map_iff in Hc as (x & <- & _).
    reflexivity.
  - induction l as [|x l IH]; [reflexivity|]. cbn. by rewrite IH.
Qed.

Lemma one_chunk {A} (B : nat) (l : list A) :
  chunked_submission B l [l] ↔ (0 < length l ≤ B)%nat.
Proof.
  unfold chunked_submission, ceil_div. cbn [length concat]. rewrite app_nil_r.
  split.
  - intros (Hn & Hall & _). apply Forall_inv in Hall.
    split; [|exact Hall].
    destruct (length l) as [|n] eqn:Hl; [|lia].
    assert (Hzero : ((0 + B - 1) / B = 0)%nat).
    { destruct B; [reflexivity|]. apply Nat.div_small. lia. }
    rewrite Hzero in Hn. discriminate.
  - intros [Hpos Hle]. split; [|split; [by constructor|reflexivity]].
    apply Nat.div_unique with (r := (length l - 1)%nat); lia.
Qed.

(** C1, as stated, fails: three descriptors and a maximum batch size of 2
    call for two jobs of at most two descriptors, yet the read set import
    submits one job holding all three; and two locators with that batch size
    call for one job, yet the variant import submits two. *)
Lemma import_read_sets_one_job_for_three :
  map read_set_job_sources
    (import_jobs
       (omics_in
          (snd (Storage.import_read_sets "us-east-1" "OmicsTutorialRole" 7
                  [Sample.descriptor "a"; Sample.descriptor "b"]
                  [Sample.descriptor "c"] Sample.with_role))
          "us-east-1"))
    = [[Sample.descriptor "a"; Sample.descriptor "b"; Sample.descriptor "c"]] ∧
  ¬ chunked_submission 2
      [Sample.descriptor "a"; Sample.descriptor "b"; Sample.descriptor "c"]
      [[Sample.descriptor "a"; Sample.descriptor "b"; Sample.descriptor "c"]] ∧
  map variant_job_items
    (import_jobs
       (omics_in
          (snd (Analytics.import_vcfs "us-west-2" "tutorial_variants" "OmicsTutorialRole"
                  ["s3://bucket/a.vcf.gz"; "s3://bucket/b.vcf.gz"] Sample.with_role))
          "us-west-2"))
    = [["s3://bucket/a.vcf.gz"]; ["s3://bucket/b.vcf.gz"]] ∧
  ¬ chunked_submission 2 ["s3://bucket/a.vcf.gz"; "s3://bucket/b.vcf.gz"]
      [["s3://bucket/a.vcf.gz"]; ["s3://bucket/b.vcf.gz"]].
Proof.
  split; [reflexivity|]. split; [intros (Hn & _); discriminate Hn|].
  split; [reflexivity|]. intros (Hn & _); discriminate Hn.
Qed.

(** C1, amended. With the role in place and no call failing, the read set
    import submits the whole list of import sources as exactly one job, in
    input order, whatever its length, as long as the list passes the
    client's check of the arguments: this is the batching property for a
    maximum batch size [B] exactly when the list is not empty and no longer
    than [B].  A list that does not pass the check, as the empty list, is
    not submitted at all: the call raises [ParamValidationError] and the
    service receives nothing.  The variant import submits one job per
    locator, in input order: the batching property for a maximum batch size
    of 1. *)
Theorem import_jobs_as_submitted (omics name arn : string) (w : World) :
  ready omics name arn w →
  (∀ seqstore fastq cram,
     let run := Storage.import_read_sets omics name seqstore fastq cram w in
     (Boto3.valid_sources (fastq ++ cram) = true →
      ∃ id,
        import_jobs (omics_in (snd run) omics)
        = import_jobs (omics_in w omics)
          ++ [ReadSetImportJob id seqstore arn (fastq ++ cram)]) ∧
     (Boto3.valid_sources (fastq ++ cram) = false →
      fst run = Raise ParamValidationError ∧ omics_in (snd run) = omics_in w) ∧
     ∀ B, chunked_submission B (fastq ++ cram) [fastq ++ cram]
          ↔ (0 < length (fastq ++ cram) ≤ B)%nat) ∧
  (∀ seqstore,
     fst (Storage.import_read_sets omics name seqstore [] [] w)
       = Raise ParamValidationError ∧
     omics_in (snd (Storage.import_read_sets omics name seqstore [] [] w))
       = omics_in w) ∧
  (∀ dest vcf_list,
     fst (Analytics.import_vcfs omics dest name vcf_list w) = Return tt ∧
     ∃ new,
       import_jobs (omics_in (snd (Analytics.import_vcfs omics dest name vcf_list w)) omics)
         = import_jobs (omics_in w omics) ++ new ∧
       map variant_job_items new = map (λ uri, [uri]) vcf_list ∧
       chunked_submission 1 vcf_list (map variant_job_items new)).
Proof.
  intros Hready. split; [|split].
  - intros seqstore fastq cram. cbn zeta. split; [|split].
    + intros Hvalid.
      destruct (import_read_sets_run omics name arn seqstore fastq cram w Hready Hvalid)
        as (w1 & Hrun & Hjobs).
      rewrite Hrun. eauto.
    + apply import_read_sets_invalid with (arn := arn). exact Hready.
    + intros B. apply one_chunk.
  - intros seqstore.
    apply import_read_sets_invalid with (arn := arn); [exact Hready|reflexivity].
  - intros dest vcf_list.
    destruct (print_ready omics name arn
                ("importing " +:+ pretty (length vcf_list) +:+ " items into "
                 +:+ dest +:+ " ...") w Hready)
      as (w1 & Hprint & Hready1 & Hsame).
    destruct (import_vcfs_loop omics dest name arn (length vcf_list)
                (enumerate vcf_list) w1 Hready1)
      as (w2 & new & Hloop & _ & Hjobs & Hitems & _).
    assert (Hrun : Analytics.import_vcfs omics dest name vcf_list w = (Return tt, w2)).
    { unfold Analytics.import_vcfs. cbn zeta.
      rewrite (bind_returns _ _ _ _ _ Hprint). exact Hloop. }
    assert (Hnew : map variant_job_items new = map (λ uri, [uri]) vcf_list).
    { rewrite Hitems. unfold enumerate.
      rewrite <- (enumerate_snd vcf_list 0) at 3. by rewrite map_map. }
    rewrite Hrun. split; [reflexivity|].
    exists new. rewrite Hsame in Hjobs. split; [exact Hjobs|].
    split; [exact Hnew|]. rewrite Hnew. apply chunks_of_one.
Qed.

Lemma import_jobs_as_submitted_witness :
  (∃ id,
     import_jobs
       (omics_in
          (snd (Storage.import_read_sets "us-east-1" "OmicsTutorialRole" 7
                  [Sample.descriptor "a"; Sample.descriptor "b"]
                  [Sample.descriptor "c"] Sample.with_role))
          "us-east-1")
     = [ReadSetImportJob id 7 (role_arn_of "OmicsTutorialRole")
          [Sample.descriptor "a"; Sample.descriptor "b"; Sample.descriptor "c"]]) ∧
  fst (Storage.import_read_sets "us-east-1" "OmicsTutorialRole" 7 [] [] Sample.with_role)
    = Raise ParamValidationError.
Proof.
  assert (Hready : ready "us-east-1" "OmicsTutorialRole"
                     (role_arn_of "OmicsTutorialRole") Sample.with_role)
    by (split; [reflexivity|split; reflexivity]).
  split.
  - exact (proj1 (proj1 (import_jobs_as_submitted "us-east-1" "OmicsTutorialRole"
                           (role_arn_of "OmicsTutorialRole") Sample.with_role Hready)
                    7 [Sample.descriptor "a"; Sample.descriptor "b"]
                    [Sample.descriptor "c"]) eq_refl).
  - exact (proj1 (proj1 (proj2 (import_jobs_as_submitted "us-east-1" "OmicsTutorialRole"
                                  (role_arn_of "OmicsTutorialRole") Sample.with_role
                                  Hready)) 7)).
Defined.

(** ** Downloading parts *)

Lemma write_file_run (name : string) (payload : StreamingBody) (w : World) :
  write_file name (Boto3.read payload) w =
    match read_error payload with
    | None =>
        (Return tt,
         mkWorld (iam w) (default_region w) (omics_in w)
           (<[name := stream_bytes payload]> (files w)) (stdout w))
    | Some e =>
        (Raise e,
         mkWorld (iam w) (default_region w) (omics_in w)
           (<[name := []]> (files w)) (stdout w))
    end.
Proof.
  unfold write_file, Boto3.read, lift, bind, open_wb, file_write.
  destruct (read_error payload); [reflexivity|].
  cbn [files iam default_region omics_in stdout].
  rewrite lookup_insert_eq. cbn [default from_option id app].
  by rewrite insert_insert_eq.
Qed.










(** ** Building the import manifests *)

Example urlparse_cram :
  Sample.urlparse "s3://1000genomes/1000G_2504_high_coverage/additional_698_related/data/ERR3988761/HG00405.final.cram"
  = {| netloc := "1000genomes";
       path := "/1000G_2504_high_coverage/additional_698_related/data/ERR3988761/HG00405.final.cram" |}.
Proof. reflexivity. Qed.

Example cram_source_hg00405 :
  Storage.cram_source Sample.urlparse "arn:2"
    "s3://1000genomes/1000G_2504_high_coverage/additional_698_related/data/ERR3988761/HG00405.final.cram"
  = Return {|
      subjectId := "ERR3988761";
      sampleId := "HG00405";
      sourceFileType := "CRAM";
      sourceFiles :=
        {| source1 := "s3://1000genomes/1000G_2504_high_coverage/additional_698_related/data/ERR3988761/HG00405.final.cram";
           source2 := None |};
      referenceArn := "arn:2";
      generatedFrom := "s3://1000genomes/1000G_2504_high_coverage/additional_698_related/data/ERR3988761/HG00405.final.cram";
      description := "ERR3988761/HG00405 from 1000genomes";
      tags := [("SourceLocation", "1000genomes")]
    |}.
Proof. reflexivity. Qed.

Example source_uris_of_notebook :
  Storage.source_uris
    [Sample.fastq "1" "001"; Sample.fastq "1" "002"; Sample.fastq "1" "003";
     Sample.fastq "1" "004"; Sample.fastq "2" "001"; Sample.fastq "2" "002";
     Sample.fastq "2" "003"; Sample.fastq "2" "004"]
  = [(Sample.fastq "1" "001", Sample.fastq "2" "001");
     (Sample.fastq "1" "002", Sample.fastq "2" "002");
     (Sample.fastq "1" "003", Sample.fastq "2" "003");
     (Sample.fastq "1" "004", Sample.fastq "2" "004")].
Proof. vm_compute. reflexivity. Qed.

Lemma fold_raise {A B} (f : A → result B) (l : list A) (e : exn) :
  fold_left
    (λ acc x, entries <-? acc ;; entry <-? f x ;; Return (entries ++ [entry]))
    l (Raise e) = Raise e.
Proof. induction l as [|x l IH]; [reflexivity|exact IH]. Qed.

Lemma fold_collect {A B} (f : A → result B) (l : list A) (done : list B) :
  fold_left
    (λ acc x, entries <-? acc ;; entry <-? f x ;; Return (entries ++ [entry]))
    l (Return done)
  = (entries <-? collect f l ;; Return (done ++ entries)).
Proof.
  revert done. induction l as [|x l IH]; intros done; cbn.
  - by rewrite app_nil_r.
  - destruct (f x) as [entry|e]; cbn.
    + rewrite IH. destruct (collect f l); cbn; [|reflexivity].
      by rewrite <- app_assoc.
    + apply fold_raise.
Qed.

Lemma cram_sources_collect urlparse ref_arn (uris : list string) :
  Storage.cram_sources urlparse ref_arn uris
  = collect (Storage.cram_source urlparse ref_arn) uris.
Proof.
  unfold Storage.cram_sources.
  rewrite (fold_collect (Storage.cram_source urlparse ref_arn)).
  destruct (collect _ uris); reflexivity.
Qed.

Lemma fastq_sources_collect urlparse ref_arn (fastq : list string) :
  Storage.fastq_sources urlparse ref_arn fastq
  = collect (Storage.fastq_source urlparse ref_arn) (Storage.source_uris fastq).
Proof.
  unfold Storage.fastq_sources.
  rewrite (fold_collect (Storage.fastq_source urlparse ref_arn)).
  destruct (collect _ _); reflexivity.
Qed.

Lemma split_cons (sep : ascii) (s : string) :
  ∃ w ws, split sep s = w :: ws.
Proof.
  induction s as [|c s (w & ws & IH)]; cbn; [eauto|].
  destruct (Ascii.eqb c sep); [eauto|]. rewrite IH. eauto.
Qed.

Lemma index_from_end_run {A} (l : list A) (k : nat) :
  index_from_end l k =
    if (k <=? length l)%nat
    then match l !! (length l - k)%nat with
         | Some x => Return x
         | None => Raise IndexError
         end
    else Raise IndexError.
Proof. reflexivity. Qed.

Lemma cram_source_run urlparse ref_arn (uri : string) :
  let segs := segments urlparse uri in
  ((length segs < 2)%nat → Storage.cram_source urlparse ref_arn uri = Raise IndexError) ∧
  ((2 ≤ length segs)%nat →
     ∃ d, Storage.cram_source urlparse ref_arn uri = Return d ∧
          segs !! (length segs - 2)%nat = Some (subjectId d) ∧
          (segs !! (length segs - 1)%nat) ≫= (λ b, head (split "." b))
            = Some (sampleId d)).
Proof.
  cbn zeta. unfold Storage.cram_source, segments.
  set (segs := split "/" (drop_first (path (urlparse uri)))).
  rewrite !index_from_end_run. split.
  - intros Hshort. apply Nat.leb_gt in Hshort. by rewrite Hshort.
  - intros Hlong.
    assert (H2 : (2 <=? length segs)%nat = true) by (apply Nat.leb_le; lia).
    assert (H1 : (1 <=? length segs)%nat = true) by (apply Nat.leb_le; lia).
    rewrite H2, H1.
    destruct (segs !! (length segs - 2)%nat) as [subject|] eqn:Hsubject;
      [|apply lookup_ge_None in Hsubject; lia].
    destruct (segs !! (length segs - 1)%nat) as [base|] eqn:Hbase;
      [|apply lookup_ge_None in Hbase; lia].
    cbn. destruct (split_cons "." base) as (sample & rest & Hsplit).
    rewrite Hsplit. cbn. eexists. split; [reflexivity|]. split; reflexivity.
Qed.

(** C6. For every CRAM locator the subject and the sample identifiers of its
    descriptor are read from fixed places of the locator's path: the subject
    is the last path segment but one, the sample is the last segment up to
    its first dot.  A locator whose path has fewer than the two segments
    this takes makes the builder fail (with the [IndexError] of the segment
    lookup), and so does any list of locators that holds such a one; a list
    whose paths all have two segments or more yields one descriptor per
    locator, in order. *)
Theorem cram_sources_from_segments (urlparse : string → ParseResult)
    (ref_arn : string) :
  (∀ uri,
     let segs := segments urlparse uri in
     ((length segs < 2)%nat →
        Storage.cram_source urlparse ref_arn uri = Raise IndexError) ∧
     ((2 ≤ length segs)%nat →
        ∃ d, Storage.cram_source urlparse ref_arn uri = Return d ∧
             segs !! (length segs - 2)%nat = Some (subjectId d) ∧
             (segs !! (length segs - 1)%nat) ≫= (λ b, head (split "." b))
               = Some (sampleId d))) ∧
  (∀ uris,
     Exists (λ uri, (length (segments urlparse uri) < 2)%nat) uris →
     Storage.cram_sources urlparse ref_arn uris = Raise IndexError) ∧
  (∀ uris,
     Forall (λ uri, (2 ≤ length (segments urlparse uri))%nat) uris →
     ∃ ds, Storage.cram_sources urlparse ref_arn uris = Return ds ∧
           Forall2 (λ uri d, Storage.cram_source urlparse ref_arn uri = Return d)
             uris ds).
Proof.
  split; [intros uri; apply cram_source_run|]. split.
  - intros uris Hshort. rewrite cram_sources_collect.
    induction uris as [|uri uris IH]; [inversion Hshort|]. cbn.
    destruct (Nat.lt_ge_cases (length (segments urlparse uri)) 2) as [Hlt|Hge].
    + by rewrite (proj1 (cram_source_run urlparse ref_arn uri) Hlt).
    + destruct (proj2 (cram_source_run urlparse ref_arn uri) Hge) as (d & -> & _).
      cbn. rewrite IH; [reflexivity|].
      inversion Hshort; subst; [lia|assumption].
  - intros uris Hlong. rewrite cram_sources_collect.
    induction Hlong as [|uri uris Hge _ (ds & Hds & Hall)]; [by exists []|].
    destruct (proj2 (cram_source_run urlparse ref_arn uri) Hge) as (d & Hd & _).
    exists (d :: ds). cbn. rewrite Hd, Hds. split; [reflexivity|].
    by constructor.
Qed.

Lemma cram_sources_from_segments_witness :
  Storage.cram_source Sample.urlparse "arn:2" "s3://bucket/HG00405.final.cram"
    = Raise IndexError ∧
  ∃ d, Storage.cram_source Sample.urlparse "arn:2" "s3://bucket/ERR3988761/HG00405.final.cram"
         = Return d
       ∧ subjectId d = "ERR3988761" ∧ sampleId d = "HG00405".
Proof.
  split.
  - apply (proj1 (proj1 (cram_sources_from_segments Sample.urlparse "arn:2")
                    "s3://bucket/HG00405.final.cram")).
    vm_compute. lia.
  - destruct (proj2 (proj1 (cram_sources_from_segments Sample.urlparse "arn:2")
                       "s3://bucket/ERR3988761/HG00405.final.cram"))
      as (d & Hd & Hsubject & Hsample); [vm_compute; lia|].
    exists d. split; [exact Hd|].
    vm_compute in Hd. injection Hd as <-. split; reflexivity.
Defined.

Lemma collect_raises {A B} (f : A → result B) (l : list A) (e : exn) :
  collect f l = Raise e → Exists (λ x, f x = Raise e) l.
Proof.
  induction l as [|x l IH]; cbn; [discriminate|].
  destruct (f x) as [entry|e'] eqn:Hx; cbn.
  - destruct (collect f l) as [entries|e'']; cbn; [discriminate|].
    intros [= ->]. apply Exists_cons_tl. by apply IH.
  - intros [= ->]. by apply Exists_cons_hd.
Qed.

Lemma collect_returns {A B} (f : A → result B) (l : list A) :
  Forall (λ x, ∃ entry, f x = Return entry) l →
  ∃ entries, collect f l = Return entries ∧ length entries = length l.
Proof.
  induction 1 as [|x l [entry Hx] _ (entries & Hl & Hlen)]; [by exists []|].
  exists (entry :: entries). cbn. rewrite Hx, Hl. cbn. by rewrite Hlen.
Qed.

Lemma fastq_source_run urlparse ref_arn (reads : string * string) :
  let segs := segments urlparse (fst reads) in
  ((length segs < 6)%nat →
     Storage.fastq_source urlparse ref_arn reads = Raise IndexError) ∧
  ((6 ≤ length segs)%nat →
     ∃ d, Storage.fastq_source urlparse ref_arn reads = Return d ∧
          sourceFiles d = {| source1 := fst reads; source2 := Some (snd reads) |}).
Proof.
  cbn zeta. unfold Storage.fastq_source, segments, index.
  set (segs := split "/" (drop_first (path (urlparse (fst reads))))).
  split.
  - intros Hshort.
    assert (H5 : segs !! 5%nat = None) by (apply lookup_ge_None; lia).
    rewrite H5. by destruct (segs !! 1%nat).
  - intros Hlong.
    destruct (segs !! 1%nat) as [subject|] eqn:H1;
      [|apply lookup_ge_None in H1; lia].
    destruct (segs !! 5%nat) as [sample|] eqn:H5;
      [|apply lookup_ge_None in H5; lia].
    cbn. eexists. split; reflexivity.
Qed.

Lemma sorted_length (l : list string) : length (sorted l) = length l.
Proof. unfold sorted. apply Permutation_length, merge_sort_Permutation. Qed.

Lemma combine_halves {A B} (a : list A) (b : list B) :
  length a = length b →
  map fst (combine a b) = a ∧ map snd (combine a b) = b.
Proof.
  revert b. induction a as [|x a IH]; intros [|y b] Hlen; try discriminate;
    [by split|].
  cbn. destruct (IH b) as [-> ->]; [by injection Hlen|]. by split.
Qed.

(** C5, as stated, fails: three paired-file locators are turned into one
    descriptor with no failure; the first two in sorted order (both reads
    1) make the pair and the third is left out. *)
Lemma fastq_sources_of_three :
  Storage.source_uris
    [Sample.fastq "1" "001"; Sample.fastq "2" "001"; Sample.fastq "1" "002"]
    = [(Sample.fastq "1" "001", Sample.fastq "1" "002")] ∧
  Storage.fastq_sources Sample.urlparse "arn:2"
    [Sample.fastq "1" "001"; Sample.fastq "2" "001"; Sample.fastq "1" "002"]
    = Return [{|
        subjectId := "NA12878";
        sampleId := "Sample_U0a";
        sourceFileType := "FASTQ";
        sourceFiles := {| source1 := Sample.fastq "1" "001";
                          source2 := Some (Sample.fastq "1" "002") |};
        referenceArn := "arn:2";
        generatedFrom := "NA12878/Sample_U0a fastq";
        description := "NA12878/Sample_U0a from giab";
        tags := [("SourceLocation", "giab")]
      |}].
Proof. split; vm_compute; reflexivity. Qed.

(** C5, amended. An odd number [2k+1] of paired-file locators does not make
    the builder fail: the locators are sorted, the first [k] are paired in
    order with the next [k], and the last one in sorted order is left out.
    The builder returns [k] descriptors when the path of the first locator
    of each pair has the six segments the identifiers are read from, and its
    only failure is the [IndexError] of a path that has fewer. *)
Theorem fastq_sources_odd (urlparse : string → ParseResult) (ref_arn : string)
    (fastq : list string) (k : nat) :
  length fastq = (2 * k + 1)%nat →
  let pairs := Storage.source_uris fastq in
  pairs = zip (take k (sorted fastq)) (take k (drop k (sorted fastq))) ∧
  length pairs = k ∧
  map fst pairs ++ map snd pairs = take (2 * k) (sorted fastq) ∧
  (Forall (λ reads, (6 ≤ length (segments urlparse (fst reads)))%nat) pairs →
     ∃ ds, Storage.fastq_sources urlparse ref_arn fastq = Return ds ∧ length ds = k) ∧
  (∀ e, Storage.fastq_sources urlparse ref_arn fastq = Raise e →
     e = IndexError ∧
     Exists (λ reads, (length (segments urlparse (fst reads)) < 6)%nat) pairs).
Proof.
  intros Hodd. cbn zeta.
  assert (Hhalf : (length fastq / 2 = k)%nat).
  { rewrite Hodd. symmetry. apply Nat.div_unique with (r := 1%nat); lia. }
  assert (Hs : length (sorted fastq) = (2 * k + 1)%nat)
    by (by rewrite sorted_length).
  assert (Hpairs : Storage.source_uris fastq
                   = zip (take k (sorted fastq)) (take k (drop k (sorted fastq)))).
  { unfold Storage.source_uris, zip. rewrite Hhalf.
    rewrite combine_firstn_l at 1.
    replace (length (take k (sorted fastq))) with k
      by (rewrite length_take; lia).
    reflexivity. }
  assert (Hlen : length (Storage.source_uris fastq) = k).
  { rewrite Hpairs. unfold zip.
    rewrite length_combine, !length_take, length_drop. lia. }
  split; [exact Hpairs|]. split; [exact Hlen|]. split; [|split].
  - rewrite Hpairs. unfold zip.
    destruct (combine_halves (take k (sorted fastq)) (take k (drop k (sorted fastq))))
      as [-> ->].
    { rewrite !length_take, length_drop. lia. }
    rewrite take_take_drop. f_equal. lia.
  - intros Hlong. rewrite fastq_sources_collect.
    destruct (collect_returns (Storage.fastq_source urlparse ref_arn)
                (Storage.source_uris fastq)) as (ds & Hds & Hk).
    { eapply Forall_impl; [|exact Hlong]. intros reads H6. cbn beta in H6.
      destruct (proj2 (fastq_source_run urlparse ref_arn reads) H6) as (d & Hd & _).
      by exists d. }
    exists ds. split; [exact Hds|]. by rewrite Hk.
  - intros e Hraise. rewrite fastq_sources_collect in Hraise.
    apply collect_raises in Hraise.
    apply Exists_exists in Hraise as (reads & Hin & Hreads).
    destruct (Nat.lt_ge_cases (length (segments urlparse (fst reads))) 6) as [Hlt|Hge].
    + rewrite (proj1 (fastq_source_run urlparse ref_arn reads) Hlt) in Hreads.
      split; [congruence|]. apply Exists_exists. eauto.
    + destruct (proj2 (fastq_source_run urlparse ref_arn reads) Hge) as (d & Hd & _).
      congruence.
Qed.

Lemma fastq_sources_odd_witness :
  length (Storage.source_uris
            [Sample.fastq "1" "001"; Sample.fastq "2" "001"; Sample.fastq "1" "002"])
    = 1%nat.
Proof.
  refine (proj1 (proj2 (fastq_sources_odd Sample.urlparse "arn:2"
                          [Sample.fastq "1" "001"; Sample.fastq "2" "001";
                           Sample.fastq "1" "002"] 1 _))).
  reflexivity.
Defined.

(** ** Waiting for a job *)

Section Waiting.

Import JobWaiter.

Variable cancelled : nat → bool.
Variables retry_budget poll_interval : nat.
Hypothesis never_cancelled : ∀ t, cancelled t = false.

Lemma poll_answered (j : Job) (s : JobStatus) :
  status_feed j (polls j) = Return s →
  poll retry_budget j = (Return s, snd (get_status j)).
Proof. intros Hs. destruct retry_budget; cbn; by rewrite Hs. Qed.

Lemma wait_step (attempts_left : nat) (j : Job) (s : JobStatus) :
  status_feed j (polls j) = Return s →
  wait cancelled retry_budget poll_interval (S attempts_left) j =
    if terminal s then (Terminal s, snd (get_status j))
    else wait cancelled retry_budget poll_interval attempts_left
           (sleep poll_interval (snd (get_status j))).
Proof.
  intros Hs. cbn [wait]. by rewrite never_cancelled, (poll_answered j s Hs).
Qed.

Lemma pending_next (n : nat) (j : Job) :
  pending (S n) j → pending n (sleep poll_interval (snd (get_status j))).
Proof.
  intros Hpending k Hk. destruct (Hpending (S k)) as (s & Hs & Hterminal); [lia|].
  exists s. split; [|exact Hterminal]. cbn. rewrite <- Hs. f_equal. lia.
Qed.

Lemma pending_now (n : nat) (j : Job) :
  pending (S n) j → ∃ s, status_feed j (polls j) = Return s ∧ terminal s = false.
Proof.
  intros Hpending. destruct (Hpending 0%nat) as (s & Hs & Hterminal); [lia|].
  exists s. split; [|exact Hterminal]. rewrite <- Hs. f_equal. lia.
Qed.

Lemma wait_pending (max_attempts : nat) (j : Job) :
  pending max_attempts j →
  ∃ j', wait cancelled retry_budget poll_interval max_attempts j = (WaitTimeout, j') ∧
        polled max_attempts j j'.
Proof.
  revert j. induction max_attempts as [|n IH]; intros j Hpending.
  - exists j. split; [reflexivity|]. split; [cbn; lia|by split].
  - destruct (pending_now n j Hpending) as (s & Hs & Hterminal).
    rewrite (wait_step n j s Hs), Hterminal.
    destruct (IH _ (pending_next n j Hpending)) as (j' & Hrun & Hp & Hc & Hf).
    exists j'. split; [exact Hrun|]. cbn in Hp, Hc, Hf.
    split; [lia|by split].
Qed.

Lemma wait_reaches (n attempts_left : nat) (j : Job) (s : JobStatus) :
  pending n j →
  status_feed j (polls j + n) = Return s →
  terminal s = true →
  ∃ j', wait cancelled retry_budget poll_interval (n + S attempts_left) j
          = (Terminal s, j') ∧
        polled (S n) j j'.
Proof.
  revert j. induction n as [|n IH]; intros j Hpending Hs Hterminal.
  - rewrite Nat.add_0_r in Hs. cbn [Nat.add].
    rewrite (wait_step attempts_left j s Hs), Hterminal.
    eexists. split; [reflexivity|]. split; [cbn; lia|by split].
  - destruct (pending_now n j Hpending) as (s0 & Hs0 & Hterminal0).
    cbn [Nat.add]. rewrite (wait_step _ j s0 Hs0), Hterminal0.
    destruct (IH (sleep poll_interval (snd (get_status j)))
                (pending_next n j Hpending)) as (j' & Hrun & Hp & Hc & Hf).
    { cbn. rewrite <- Hs. f_equal. lia. }
    { exact Hterminal. }
    exists j'. split; [exact Hrun|]. cbn in Hp, Hc, Hf.
    split; [lia|by split].
Qed.

End Waiting.

(** C3. With no cancellation, [wait] follows the statuses that the status
    calls answer: it returns the first terminal status, having made just the
    status calls up to it, when that status comes within [max_attempts]
    calls; and it ends with [WaitTimeout], never with Completed, after
    exactly [max_attempts] status calls when none of these is answered with
    a terminal status, whichever of Submitted and InProgress they are
    answered with.  So a job whose status calls answer Submitted,
    InProgress, InProgress, Completed in turn makes [wait] return Completed
    after four status calls when [max_attempts] is at least 4, and end with
    [WaitTimeout] after [max_attempts] status calls when it is less.  In
    each case nothing is asked of the job but its status: its cancellation
    is not requested and its statuses are what they were. *)
Theorem wait_completed_or_timeout (cancelled : nat → bool)
    (retry_budget poll_interval max_attempts : nat) (j : JobWaiter.Job) :
  (∀ t, cancelled t = false) →
  let end_of_wait := JobWaiter.wait cancelled retry_budget poll_interval max_attempts j in
  let untouched :=
    JobWaiter.cancel_requested (snd end_of_wait) = JobWaiter.cancel_requested j ∧
    JobWaiter.status_feed (snd end_of_wait) = JobWaiter.status_feed j in
  (JobWaiter.status_feed j (JobWaiter.polls j) = Return JobWaiter.Submitted →
   JobWaiter.status_feed j (JobWaiter.polls j + 1) = Return JobWaiter.InProgress →
   JobWaiter.status_feed j (JobWaiter.polls j + 2) = Return JobWaiter.InProgress →
   JobWaiter.status_feed j (JobWaiter.polls j + 3) = Return JobWaiter.Completed →
   ((4 ≤ max_attempts)%nat →
    fst end_of_wait = JobWaiter.Terminal JobWaiter.Completed ∧
    JobWaiter.polls (snd end_of_wait) = (JobWaiter.polls j + 4)%nat ∧
    untouched) ∧
   ((max_attempts < 4)%nat →
    fst end_of_wait = JobWaiter.WaitTimeout ∧
    JobWaiter.polls (snd end_of_wait) = (JobWaiter.polls j + max_attempts)%nat ∧
    untouched)) ∧
  (∀ n s,
     (∀ k, (k < n)%nat →
           ∃ s', JobWaiter.status_feed j (JobWaiter.polls j + k) = Return s' ∧
                 JobWaiter.terminal s' = false) →
     (n < max_attempts)%nat →
     JobWaiter.status_feed j (JobWaiter.polls j + n) = Return s →
     JobWaiter.terminal s = true →
     fst end_of_wait = JobWaiter.Terminal s ∧
     JobWaiter.polls (snd end_of_wait) = (JobWaiter.polls j + S n)%nat ∧
     untouched) ∧
  ((∀ k, (k < max_attempts)%nat →
         ∃ s', JobWaiter.status_feed j (JobWaiter.polls j + k) = Return s' ∧
               JobWaiter.terminal s' = false) →
   fst end_of_wait = JobWaiter.WaitTimeout ∧
   fst end_of_wait ≠ JobWaiter.Terminal JobWaiter.Completed ∧
   JobWaiter.polls (snd end_of_wait) = (JobWaiter.polls j + max_attempts)%nat ∧
   untouched).
Proof.
  intros Hnever. cbn zeta.
  assert (Hreaches : ∀ n s,
            pending n j → (n < max_attempts)%nat →
            JobWaiter.status_feed j (JobWaiter.polls j + n) = Return s →
            JobWaiter.terminal s = true →
            fst (JobWaiter.wait cancelled retry_budget poll_interval max_attempts j)
              = JobWaiter.Terminal s ∧
            polled (S n) j
              (snd (JobWaiter.wait cancelled retry_budget poll_interval max_attempts j))).
  { intros n s Hpending Hn Hs Hterminal.
    destruct (wait_reaches cancelled retry_budget poll_interval Hnever
                n (max_attempts - S n) j s Hpending Hs Hterminal) as (j' & Hrun & Hpolled).
    replace (n + S (max_attempts - S n))%nat with max_attempts in Hrun by lia.
    by rewrite Hrun. }
  assert (Htimeout :
            pending max_attempts j →
            fst (JobWaiter.wait cancelled retry_budget poll_interval max_attempts j)
              = JobWaiter.WaitTimeout ∧
            polled max_attempts j
              (snd (JobWaiter.wait cancelled retry_budget poll_interval max_attempts j))).
  { intros Hpending.
    destruct (wait_pending cancelled retry_budget poll_interval Hnever
                max_attempts j Hpending) as (j' & Hrun & Hpolled).
    by rewrite Hrun. }
  split; [|split].
  - intros H0 H1 H2 H3.
    assert (Hthree : pending 3 j).
    { intros k Hk. destruct k as [|[|[|k]]]; [| | |lia].
      - exists JobWaiter.Submitted. by rewrite Nat.add_0_r.
      - by exists JobWaiter.InProgress.
      - by exists JobWaiter.InProgress. }
    split.
    + intros Hmax.
      destruct (Hreaches 3%nat JobWaiter.Completed Hthree) as (Hend & Hp & Hc & Hf);
        [lia|exact H3|reflexivity|].
      by repeat split.
    + intros Hmax.
      destruct Htimeout as (Hend & Hp & Hc & Hf).
      { intros k Hk. apply Hthree. lia. }
      by repeat split.
  - intros n s Hpending Hn Hs Hterminal.
    destruct (Hreaches n s Hpending Hn Hs Hterminal) as (Hend & Hp & Hc & Hf).
    by repeat split.
  - intros Hpending.
    destruct (Htimeout Hpending) as (Hend & Hp & Hc & Hf).
    rewrite Hend. by repeat split.
Qed.

Lemma wait_completed_or_timeout_witness :
  fst (JobWaiter.wait (λ _, false) 2 30 60
         (JobWaiter.job_with_statuses JobWaiter.Submitted
            [JobWaiter.InProgress; JobWaiter.InProgress; JobWaiter.Completed]))
    = JobWaiter.Terminal JobWaiter.Completed ∧
  fst (JobWaiter.wait (λ _, false) 2 30 3
         (JobWaiter.job_with_statuses JobWaiter.Submitted
            [JobWaiter.InProgress; JobWaiter.InProgress; JobWaiter.Completed]))
    = JobWaiter.WaitTimeout.
Proof.
  split.
  - refine (proj1 (proj1 (proj1 (wait_completed_or_timeout (λ _, false) 2 30 60
                                   (JobWaiter.job_with_statuses JobWaiter.Submitted
                                      [JobWaiter.InProgress; JobWaiter.InProgress;
                                       JobWaiter.Completed])
                                   (λ _, eq_refl))
                            eq_refl eq_refl eq_refl eq_refl) _)).
    lia.
  - refine (proj1 (proj2 (proj1 (wait_completed_or_timeout (λ _, false) 2 30 3
                                   (JobWaiter.job_with_statuses JobWaiter.Submitted
                                      [JobWaiter.InProgress; JobWaiter.InProgress;
                                       JobWaiter.Completed])
                                   (λ _, eq_refl))
                            eq_refl eq_refl eq_refl eq_refl) _)).
    lia.
Defined.

(** The cells around the library's waiters: a [WaiterError] (a failed job
    or the attempts running out alike) is caught and printed and the cell
    returns normally; the line that reports completion is printed only when
    the waiter returned. *)
Lemma wait_reference_import_run (waiter_wait : M unit) (job_id : nat) (w : World) :
  Storage.wait_reference_import waiter_wait job_id w =
    match waiter_wait
            (snd (print ("waiting for job " +:+ pretty job_id +:+ " to complete") w)) with
    | (Return _, w1) => print ("job " +:+ pretty job_id +:+ " complete") w1
    | (Raise (WaiterError message), w1) =>
        (print ("job " +:+ pretty job_id +:+ " FAILED:") ;;; print message) w1
    | (Raise e, w1) => (Raise e, w1)
    end.
Proof.
  unfold Storage.wait_reference_import, try_except_else, bind.
  cbn [print snd].
  destruct (waiter_wait _) as [[[]|e] w1]; [reflexivity|].
  destruct e; reflexivity.
Qed.

Lemma wait_run_first_wait_fails (wait_running wait_completed : nat → nat → M unit)
    (run_id : nat) (w w1 : World) (message : string) :
  wait_running 30 60 w = (Raise (WaiterError message), w1) →
  Workflows.wait_run wait_running wait_completed run_id w = print message w1.
Proof.
  intros Hwait. unfold Workflows.wait_run, try_except_else, bind.
  rewrite Hwait. reflexivity.
Qed.

(** * Further properties of the cells *)

(** ** The service role, from creation to use *)

Lemma invoke_iam_served {A} (c : IamCall) (serve : Iam → result A * Iam) (w : World) :
  next_fault (iam_faults (iam w)) = None →
  Boto3.invoke_iam c serve w =
    (fst (serve (mkIam (roles (iam w)) (policies (iam w)) (attachments (iam w))
                   (iam_calls (iam w) ++ [c]) (tail (iam_faults (iam w))))),
     Boto3.with_iam
       (snd (serve (mkIam (roles (iam w)) (policies (iam w)) (attachments (iam w))
                      (iam_calls (iam w) ++ [c]) (tail (iam_faults (iam w))))))
       w).
Proof.
  intros Hf. unfold Boto3.invoke_iam. cbn zeta. rewrite Hf.
  destruct (serve _); reflexivity.
Qed.

Lemma invoke_iam_faulted {A} (c : IamCall) (serve : Iam → result A * Iam) (w : World)
    (e : exn) :
  next_fault (iam_faults (iam w)) = Some e →
  Boto3.invoke_iam c serve w =
    (Raise e,
     Boto3.with_iam
       (mkIam (roles (iam w)) (policies (iam w)) (attachments (iam w))
          (iam_calls (iam w) ++ [c]) (tail (iam_faults (iam w))))
       w).
Proof. intros Hf. unfold Boto3.invoke_iam. cbn zeta. by rewrite Hf. Qed.

Lemma role_load_missing (name : string) (w : World) :
  roles (iam w) !! name = None →
  next_fault (iam_faults (iam w)) = None →
  Boto3.role_load name w =
    (Raise (ClientError "NoSuchEntity"),
     Boto3.with_iam
       (mkIam (roles (iam w)) (policies (iam w)) (attachments (iam w))
          (iam_calls (iam w) ++ [GetRole name]) (tail (iam_faults (iam w))))
       w).
Proof.
  intros Hrole Hf. unfold Boto3.role_load.
  rewrite invoke_iam_served by exact Hf. cbn. by rewrite Hrole.
Qed.

Lemma role_load_present (name arn : string) (w : World) :
  roles (iam w) !! name = Some arn →
  next_fault (iam_faults (iam w)) = None →
  Boto3.role_load name w =
    (Return arn,
     Boto3.with_iam
       (mkIam (roles (iam w)) (policies (iam w)) (attachments (iam w))
          (iam_calls (iam w) ++ [GetRole name]) (tail (iam_faults (iam w))))
       w).
Proof.
  intros Hrole Hf. unfold Boto3.role_load.
  rewrite invoke_iam_served by exact Hf. cbn. by rewrite Hrole.
Qed.

(** X1. On an account where the role does not exist, the policy name is
    free and no call fails, the role-creation cell creates the role, the
    policy and the attachment with four calls, in that order, and prints
    nothing; [get_role_arn] of either notebook then returns the ARN of the
    new role. *)
Theorem create_service_role_then_get_role_arn (t p name : string) (w : World) :
  roles (iam w) !! name = None →
  iam_faults (iam w) = [] →
  (name +:+ "-policy") ∉ policies (iam w) →
  let w1 := snd (Storage.create_service_role t p name w) in
  fst (Storage.create_service_role t p name w) = Return tt ∧
  stdout w1 = stdout w ∧
  iam_calls (iam w1)
    = iam_calls (iam w)
      ++ [GetRole name; CreateRole name t;
          CreatePolicy (name +:+ "-policy") "Policy for Amazon Omics demo" p;
          AttachRolePolicy (name +:+ "-policy") name] ∧
  policies (iam w1) = policies (iam w) ++ [name +:+ "-policy"] ∧
  attachments (iam w1) = attachments (iam w) ++ [(name +:+ "-policy", name)] ∧
  fst (Storage.get_role_arn name w1) = Return (role_arn_of name) ∧
  fst (Analytics.get_role_arn name w1) = Return (role_arn_of name).
Proof.
  intros Hrole Hf Hpolicy. cbn zeta.
  rewrite create_service_role_run, role_load_missing by (by rewrite ?Hf).
  cbn [String.eqb Ascii.eqb Bool.eqb]. cbn match.
  unfold create_role_and_policy, Boto3.create_role, Boto3.create_policy,
    Boto3.attach_role.
  rewrite bind_run, invoke_iam_served by (cbn; by rewrite Hf).
  cbn [iam Boto3.with_iam roles policies attachments iam_calls iam_faults fst snd].
  rewrite Hrole, Hf. cbn [fst snd tail].
  rewrite bind_run, invoke_iam_served by reflexivity.
  cbn [iam Boto3.with_iam roles policies attachments iam_calls iam_faults fst snd tail].
  rewrite bool_decide_eq_false_2 by exact Hpolicy. cbn [fst snd].
  rewrite invoke_iam_served by reflexivity.
  cbn [iam Boto3.with_iam roles policies attachments iam_calls iam_faults fst snd tail].
  rewrite lookup_insert_eq. cbn [fst snd iam stdout Boto3.with_iam iam_calls policies attachments].
  split; [reflexivity|]. split; [reflexivity|].
  split; [by rewrite <- !app_assoc|]. split; [reflexivity|]. split; [reflexivity|].
  set (w1 := Boto3.with_iam _ _).
  destruct (get_role_arn_loaded name w1
              (Boto3.with_iam
                 (mkIam (roles (iam w1)) (policies (iam w1)) (attachments (iam w1))
                    (iam_calls (iam w1) ++ [GetRole name]) (tail (iam_faults (iam w1))))
                 w1)
              (role_arn_of name)) as [Hs Ha].
  { apply role_load_present; [apply lookup_insert_eq|reflexivity]. }
  by rewrite Hs, Ha.
Qed.

Lemma create_service_role_then_get_role_arn_witness :
  fst (Storage.get_role_arn "OmicsTutorialRole"
         (snd (Storage.create_service_role "" "" "OmicsTutorialRole" Sample.fresh)))
    = Return (role_arn_of "OmicsTutorialRole").
Proof.
  refine (proj1 (proj2 (proj2 (proj2 (proj2 (proj2
            (create_service_role_then_get_role_arn "" "" "OmicsTutorialRole"
               Sample.fresh _ _ _))))))).
  - reflexivity.
  - reflexivity.
  - intros H. by apply elem_of_nil in H.
Defined.

(** X2. When the role exists and the call is served, the role-creation cell
    does nothing but load it: one [GetRole] call, nothing created or
    attached, nothing printed.  The cell can be run again at no cost. *)
Theorem create_service_role_existing (t p name arn : string) (w : World) :
  roles (iam w) !! name = Some arn →
  next_fault (iam_faults (iam w)) = None →
  let w1 := snd (Storage.create_service_role t p name w) in
  fst (Storage.create_service_role t p name w) = Return tt ∧
  roles (iam w1) = roles (iam w) ∧
  policies (iam w1) = policies (iam w) ∧
  attachments (iam w1) = attachments (iam w) ∧
  iam_calls (iam w1) = iam_calls (iam w) ++ [GetRole name] ∧
  stdout w1 = stdout w.
Proof.
  intros Hrole Hf. cbn zeta.
  rewrite create_service_role_run, (role_load_present name arn w Hrole Hf).
  repeat split.
Qed.

Lemma create_service_role_existing_witness :
  iam_calls (iam (snd (Storage.create_service_role "" "" "OmicsTutorialRole"
                         Sample.with_role)))
    = [GetRole "OmicsTutorialRole"].
Proof.
  refine (proj1 (proj2 (proj2 (proj2 (proj2
            (create_service_role_existing "" "" "OmicsTutorialRole"
               (role_arn_of "OmicsTutorialRole") Sample.with_role _ _)))))).
  - reflexivity.
  - reflexivity.
Defined.

(** X3. When the role is missing and creating the policy fails (the role
    having been created), the cell raises that error and leaves a role with
    no policy attached; run again, the cell finds the role, returns normally
    and attaches nothing: the role stays without its policy. *)
Theorem create_service_role_not_repaired (t p name : string) (w : World) (e : exn) :
  roles (iam w) !! name = None →
  iam_faults (iam w) = [None; None; Some e] →
  let w1 := snd (Storage.create_service_role t p name w) in
  let w2 := snd (Storage.create_service_role t p name w1) in
  fst (Storage.create_service_role t p name w) = Raise e ∧
  roles (iam w1) !! name = Some (role_arn_of name) ∧
  attachments (iam w1) = attachments (iam w) ∧
  fst (Storage.create_service_role t p name w1) = Return tt ∧
  attachments (iam w2) = attachments (iam w) ∧
  policies (iam w2) = policies (iam w).
Proof.
  intros Hrole Hf. cbn zeta.
  rewrite create_service_role_run, role_load_missing by (by rewrite ?Hf).
  cbn [String.eqb Ascii.eqb Bool.eqb]. cbn match.
  unfold create_role_and_policy, Boto3.create_role, Boto3.create_policy.
  rewrite bind_run, invoke_iam_served by (cbn; by rewrite Hf).
  cbn [iam Boto3.with_iam roles policies attachments iam_calls iam_faults fst snd].
  rewrite Hrole, Hf. cbn [fst snd tail].
  rewrite bind_run, (invoke_iam_faulted _ _ _ e) by reflexivity.
  cbn [iam Boto3.with_iam roles policies attachments iam_calls iam_faults fst snd tail].
  set (w1 := Boto3.with_iam _ (Boto3.with_iam _ (Boto3.with_iam _ w))).
  assert (Hrole1 : roles (iam w1) !! name = Some (role_arn_of name))
    by apply lookup_insert_eq.
  destruct (create_service_role_existing t p name (role_arn_of name) w1 Hrole1 eq_refl)
    as (Hrun & _ & Hpolicies & Hattachments & _).
  cbn zeta in Hrun, Hpolicies, Hattachments.
  rewrite Hrun, Hattachments, Hpolicies. repeat split. apply lookup_insert_eq.
Qed.

Lemma create_service_role_not_repaired_witness :
  fst (Storage.create_service_role "" "" "OmicsTutorialRole"
         (Sample.set_iam
            (mkIam ∅ [] [] [] [None; None; Some (ClientError "LimitExceeded")])
            Sample.fresh))
    = Raise (ClientError "LimitExceeded").
Proof.
  refine (proj1 (create_service_role_not_repaired "" "" "OmicsTutorialRole"
                   (Sample.set_iam
                      (mkIam ∅ [] [] [] [None; None; Some (ClientError "LimitExceeded")])
                      Sample.fresh)
                   (ClientError "LimitExceeded") _ _)).
  - reflexivity.
  - reflexivity.
Defined.

(** ** The reference store, when none is listed *)

Lemma creates_app (cs ds : list ApiCall) :
  creates (cs ++ ds) = (creates cs + creates ds)%nat.
Proof. unfold creates. by rewrite List.filter_app, length_app. Qed.

Lemma check_reference_store_empty_listing (omics : string) (w : World) :
  faults (omics_in w omics) = [] →
  reference_stores (omics_in w omics) = [] →
  omits_empty_lists (omics_in w omics) = false →
  fst (Storage.check_reference_store omics w) = Raise IndexError ∧
  omics_in (snd (Storage.check_reference_store omics w)) omics
    = received (ListReferenceStores 10) (omics_in w omics).
Proof.
  intros Hf Hs Ho.
  destruct (check_reference_store_run omics w Hf) as [Hr Hst].
  cbn zeta in Hr, Hst. by rewrite Hs, Ho in Hr, Hst.
Qed.

(** X4. When no reference store exists and the listing carries the empty
    list, the cell that should create the store raises [IndexError] after
    its listing call and creates nothing, however often it is run: after
    [n] runs the service has received [n] more calls, none of them a create
    call, and still has no store. *)
Theorem check_reference_store_never_creates (omics : string) (w : World) (n : nat) :
  faults (omics_in w omics) = [] →
  reference_stores (omics_in w omics) = [] →
  omits_empty_lists (omics_in w omics) = false →
  let wn := Nat.iter n (λ w', snd (Storage.check_reference_store omics w')) w in
  fst (Storage.check_reference_store omics wn) = Raise IndexError ∧
  reference_stores (omics_in wn omics) = [] ∧
  creates (calls (omics_in wn omics)) = creates (calls (omics_in w omics)) ∧
  length (calls (omics_in wn omics)) = (length (calls (omics_in w omics)) + n)%nat.
Proof.
  intros Hf Hstores Homit. cbn zeta.
  assert (Hinv : faults (omics_in (Nat.iter n (λ w', snd (Storage.check_reference_store omics w')) w) omics) = [] ∧
                 reference_stores (omics_in (Nat.iter n (λ w', snd (Storage.check_reference_store omics w')) w) omics) = [] ∧
                 omits_empty_lists (omics_in (Nat.iter n (λ w', snd (Storage.check_reference_store omics w')) w) omics) = false ∧
                 creates (calls (omics_in (Nat.iter n (λ w', snd (Storage.check_reference_store omics w')) w) omics))
                   = creates (calls (omics_in w omics)) ∧
                 length (calls (omics_in (Nat.iter n (λ w', snd (Storage.check_reference_store omics w')) w) omics))
                   = (length (calls (omics_in w omics)) + n)%nat).
  { induction n as [|n (IHf & IHs & IHo & IHc & IHl)].
    - cbn. repeat split; try assumption. lia.
    - rewrite Nat.iter_succ.
      destruct (check_reference_store_empty_listing omics _ IHf IHs IHo) as [_ ->].
      cbn [faults reference_stores omits_empty_lists calls received].
      rewrite IHf, creates_app, length_app, IHc, IHl. cbn.
      repeat split; try assumption; lia. }
  destruct Hinv as (Hfn & Hsn & Hon & Hcn & Hln).
  split; [apply (check_reference_store_empty_listing omics _ Hfn Hsn Hon)|].
  repeat split; assumption.
Qed.

Lemma check_reference_store_never_creates_witness :
  fst (Storage.check_reference_store "us-east-1"
         (snd (Storage.check_reference_store "us-east-1" Sample.fresh)))
    = Raise IndexError.
Proof.
  exact (proj1 (check_reference_store_never_creates "us-east-1" Sample.fresh 1
                  eq_refl eq_refl eq_refl)).
Defined.

(** X5. [get_ref_store_id] only looks: whatever it returns or raises, the
    client it used has received exactly one more call,
    [list_reference_stores] with [maxResults=10], and nothing else of that
    service changed; other regions, the IAM service, the files and the
    printed output are as before. *)
Theorem get_ref_store_id_only_lists (client : option string) (w : World) :
  let region := default (default_region w) client in
  let w1 := snd (Storage.get_ref_store_id client w) in
  omics_in w1 region = received (ListReferenceStores 10) (omics_in w region) ∧
  (∀ other, other ≠ region → omics_in w1 other = omics_in w other) ∧
  iam w1 = iam w ∧ files w1 = files w ∧ stdout w1 = stdout w ∧
  default_region w1 = default_region w.
Proof.
  cbn zeta.
  assert (Hrun : Storage.get_ref_store_id client w =
            bind (Boto3.list_reference_stores (default (default_region w) client) 10)
              (λ l, match l with
                    | Some stores =>
                        bind (lift (index stores 0)) (λ s, ret (Some (store_id s)))
                    | None => ret None
                    end) w).
  { unfold Storage.get_ref_store_id. destruct client; reflexivity. }
  rewrite Hrun, bind_run. unfold Boto3.list_reference_stores, Boto3.invoke.
  set (region := default (default_region w) client).
  assert (Hframe : ∀ st,
            omics_in (Boto3.with_omics region st w) region = st ∧
            (∀ other, other ≠ region →
               omics_in (Boto3.with_omics region st w) other = omics_in w other)).
  { intros st. split; [apply omics_in_with_omics|].
    intros other Hne. cbn. by apply fn_lookup_insert_ne. }
  destruct (next_fault (faults (omics_in w region))).
  - cbn [snd]. destruct (Hframe (received (ListReferenceStores 10) (omics_in w region)))
      as [H1 H2]. repeat split; assumption.
  - cbn. set (st := received _ _).
    destruct (Hframe st) as [H1 H2].
    destruct (serve_list_reference_stores 10 st) as [[|s ss]|]; cbn;
      repeat split; assumption.
Qed.

(** ** Import submissions that do not go through *)

Lemma role_load_outcome (name : string) (w : World) :
  fst (Boto3.role_load name w)
    = match next_fault (iam_faults (iam w)) with
      | Some e => Raise e
      | None => match roles (iam w) !! name with
                | Some arn => Return arn
                | None => Raise (ClientError "NoSuchEntity")
                end
      end ∧
  omics_in (snd (Boto3.role_load name w)) = omics_in w.
Proof.
  unfold Boto3.role_load, Boto3.invoke_iam. cbn zeta.
  destruct (next_fault (iam_faults (iam w))); [by split|].
  cbn. destruct (roles (iam w) !! name); by split.
Qed.

(** X6. When the role cannot be loaded, the read set import submits
    nothing: the call to [get_role_arn] that computes the [roleArn] argument
    raises (the [AttributeError] of its handler), and the Omics service
    receives no call at all. *)
Theorem import_read_sets_without_role (omics name : string) (seqstore : nat)
    (fastq cram : list ImportSource) (w : World) (e : exn) :
  fst (Boto3.role_load name w) = Raise e →
  fst (Storage.import_read_sets omics name seqstore fastq cram w)
    = Raise (AttributeError "exeptions") ∧
  omics_in (snd (Storage.import_read_sets omics name seqstore fastq cram w))
    = omics_in w.
Proof.
  intros Hload.
  destruct (role_load_outcome name w) as [_ Hsame].
  apply pair_fst_snd in Hload.
  unfold Storage.import_read_sets, Storage.get_role_arn, try_except_else, bind.
  rewrite Hload. cbn. split; [reflexivity|exact Hsame].
Qed.

Lemma import_read_sets_without_role_witness :
  omics_in (snd (Storage.import_read_sets "us-east-1" "OmicsTutorialRole" 7
                   [Sample.descriptor "a"] [] Sample.fresh))
    = omics_in Sample.fresh.
Proof.
  exact (proj2 (import_read_sets_without_role "us-east-1" "OmicsTutorialRole" 7
                  [Sample.descriptor "a"] [] Sample.fresh
                  (ClientError "NoSuchEntity") eq_refl)).
Defined.

(** X7. When the role cannot be loaded, the variant import submits nothing
    either; it raises (the [NameError] of the handler of [get_role_arn]) as
    soon as there is a first locator, and returns normally, having printed
    its heading, when the list of locators is empty. *)
Theorem import_vcfs_without_role (omics dest name : string) (w : World) (e : exn) :
  fst (Boto3.role_load name w) = Raise e →
  (fst (Analytics.import_vcfs omics dest name [] w) = Return tt ∧
   stdout (snd (Analytics.import_vcfs omics dest name [] w))
     = stdout w ++ ["importing 0 items into " +:+ dest +:+ " ..."]) ∧
  (∀ uri rest,
     fst (Analytics.import_vcfs omics dest name (uri :: rest) w)
       = Raise (NameError "ClientError") ∧
     omics_in (snd (Analytics.import_vcfs omics dest name (uri :: rest) w))
       = omics_in w).
Proof.
  intros Hload. split; [split; reflexivity|].
  intros uri rest.
  unfold Analytics.import_vcfs. cbn zeta. rewrite bind_run. cbn [print].
  set (wp := mkWorld _ _ _ _ _).
  assert (Hwp : fst (Boto3.role_load name wp) = Raise e).
  { rewrite <- Hload. rewrite (proj1 (role_load_outcome name wp)).
    by rewrite (proj1 (role_load_outcome name w)). }
  destruct (role_load_outcome name wp) as [_ Hsame].
  apply pair_fst_snd in Hwp.
  assert (Hga : Analytics.get_role_arn name wp
                = (Raise (NameError "ClientError"), snd (Boto3.role_load name wp))).
  { unfold Analytics.get_role_arn, try_except_else. by rewrite Hwp. }
  cbn [enumerate length seq combine for_each].
  unfold bind. cbv beta. rewrite Hga. cbn [fst snd].
  split; [reflexivity|exact Hsame].
Qed.

Lemma import_vcfs_without_role_witness :
  fst (Analytics.import_vcfs "us-west-2" "tutorial_variants" "OmicsTutorialRole"
         ["s3://bucket/a.vcf.gz"] Sample.fresh)
    = Raise (NameError "ClientError").
Proof.
  exact (proj1 (proj2 (import_vcfs_without_role "us-west-2" "tutorial_variants"
                         "OmicsTutorialRole" Sample.fresh
                         (ClientError "NoSuchEntity") eq_refl)
                  "s3://bucket/a.vcf.gz" [])).
Defined.

Lemma import_vcfs_loop_rejected (omics dest name arn : string) (total : nat) (e : exn)
    (l : list (nat * string)) :
  ∀ (k : nat) (w : World) (later : fault_schedule),
  roles (iam w) !! name = Some arn →
  iam_faults (iam w) = [] →
  faults (omics_in w omics) = repeat None k ++ Some e :: later →
  (k < length l)%nat →
  ∃ w1 new,
    for_each l
      (λ '(i, uri),
         roleArn <- Analytics.get_role_arn name ;;
         jobId <- Boto3.start_variant_import_job omics dest roleArn [uri] ;;
         print ("[job " +:+ pretty (i + 1) +:+ " of " +:+ pretty total
                +:+ "] started import job " +:+ pretty jobId +:+ " for: " +:+ uri)) w
      = (Raise e, w1) ∧
    import_jobs (omics_in w1 omics) = import_jobs (omics_in w omics) ++ new ∧
    map variant_job_items new = map (λ p, [snd p]) (take k l) ∧
    faults (omics_in w1 omics) = later.
Proof.
  induction l as [|[i uri] l IH]; intros k w later Hrole Hif Hf Hk;
    [cbn in Hk; lia|].
  assert (Hload := role_load_present name arn w Hrole (f_equal next_fault Hif)).
  set (w1 := Boto3.with_iam _ w) in Hload.
  destruct (get_role_arn_loaded _ _ _ _ Hload) as [_ Harn].
  assert (Hw1 : omics_in w1 = omics_in w) by reflexivity.
  destruct k as [|k].
  - cbn [repeat app] in Hf.
    exists (Boto3.with_omics omics
              (received (StartVariantImportJob dest arn [uri]) (omics_in w1 omics)) w1), [].
    split.
    { cbn [for_each]. rewrite bind_run, (bind_returns _ _ _ _ _ Harn).
      unfold Boto3.start_variant_import_job.
      by rewrite bind_run, (invoke_faulted _ _ _ _ e) by (by rewrite Hw1, Hf). }
    rewrite omics_in_with_omics, Hw1. cbn. rewrite Hf, app_nil_r.
    repeat split.
  - cbn [repeat app] in Hf.
    set (st2 := add_import_job
                  (VariantImportJob (next_id (omics_in w omics)) dest arn [uri])
                  (received (StartVariantImportJob dest arn [uri]) (omics_in w omics))).
    set (w3 := snd (print ("[job " +:+ pretty (i + 1) +:+ " of " +:+ pretty total
                           +:+ "] started import job "
                           +:+ pretty (next_id (omics_in w omics)) +:+ " for: " +:+ uri)
                      (Boto3.with_omics omics st2 w1))).
    assert (Hw3 : omics_in w3 omics = st2).
    { subst w3. cbn [print snd omics_in]. apply omics_in_with_omics. }
    destruct (IH k w3 later) as (w4 & new & Hloop & Hjobs & Hitems & Hlater).
    + exact Hrole.
    + subst w3 w1. cbn. by rewrite Hif.
    + rewrite Hw3. subst st2. cbn. by rewrite Hf.
    + cbn in Hk. lia.
    + exists w4, (VariantImportJob (next_id (omics_in w omics)) dest arn [uri] :: new).
      split; [|split; [|split; [|exact Hlater]]].
      * cbn [for_each]. rewrite bind_run, (bind_returns _ _ _ _ _ Harn).
        unfold Boto3.start_variant_import_job.
        rewrite bind_run, invoke_served by (by rewrite Hw1, Hf).
        cbn [fst snd]. rewrite Hw1. exact Hloop.
      * rewrite Hjobs, Hw3. subst st2. cbn. by rewrite <- app_assoc.
      * cbn. by rewrite Hitems.
Qed.

(** X8. When the service rejects the submission for the locator at
    position [k] (the role in place, the earlier calls served), the variant
    import raises that error there and stops: the jobs of the [k] locators
    before it have been submitted, one per locator and in order, and no job
    is submitted for that locator or any later one. *)
Theorem import_vcfs_stops_at_rejection (omics dest name arn : string)
    (vcf_list : list string) (k : nat) (e : exn) (later : fault_schedule) (w : World) :
  roles (iam w) !! name = Some arn →
  iam_faults (iam w) = [] →
  faults (omics_in w omics) = repeat None k ++ Some e :: later →
  (k < length vcf_list)%nat →
  fst (Analytics.import_vcfs omics dest name vcf_list w) = Raise e ∧
  ∃ new,
    import_jobs (omics_in (snd (Analytics.import_vcfs omics dest name vcf_list w)) omics)
      = import_jobs (omics_in w omics) ++ new ∧
    map variant_job_items new = map (λ uri, [uri]) (take k vcf_list).
Proof.
  intros Hrole Hif Hf Hk.
  unfold Analytics.import_vcfs. cbn zeta. rewrite bind_run. cbn [print].
  set (wp := mkWorld _ _ _ _ _).
  destruct (import_vcfs_loop_rejected omics dest name arn (length vcf_list) e
              (enumerate vcf_list) k wp later Hrole Hif Hf)
    as (w1 & new & Hloop & Hjobs & Hitems & _).
  { unfold enumerate. rewrite length_combine, length_seq. lia. }
  rewrite Hloop. cbn [fst snd]. split; [reflexivity|].
  exists new. split; [exact Hjobs|].
  rewrite Hitems. unfold enumerate.
  assert (Hl : take k vcf_list
               = map snd (take k (combine (seq 0 (length vcf_list)) vcf_list))).
  { by rewrite <- firstn_map, enumerate_snd. }
  by rewrite Hl, map_map.
Qed.

Lemma import_vcfs_stops_at_rejection_witness :
  fst (Analytics.import_vcfs "us-west-2" "tutorial_variants" "OmicsTutorialRole"
         ["s3://bucket/a.vcf.gz"; "s3://bucket/b.vcf.gz"; "s3://bucket/c.vcf.gz"]
         (Sample.set_omics
            (mkOmics [] [] [] [] [] false 100 1 []
               [None; Some (ClientError "ValidationException")])
            Sample.with_role))
    = Raise (ClientError "ValidationException").
Proof.
  refine (proj1 (import_vcfs_stops_at_rejection "us-west-2" "tutorial_variants"
                   "OmicsTutorialRole" (role_arn_of "OmicsTutorialRole")
                   ["s3://bucket/a.vcf.gz"; "s3://bucket/b.vcf.gz"; "s3://bucket/c.vcf.gz"]
                   1 (ClientError "ValidationException") []
                   (Sample.set_omics
                      (mkOmics [] [] [] [] [] false 100 1 []
                         [None; Some (ClientError "ValidationException")])
                      Sample.with_role) _ _ _ _)).
  - reflexivity.
  - reflexivity.
  - reflexivity.
  - cbn. lia.
Defined.

(** ** What the manifests keep of the locators *)

Lemma collect_each {A B} (f : A → result B) (l : list A) (entries : list B) :
  collect f l = Return entries → Forall2 (λ x entry, f x = Return entry) l entries.
Proof.
  revert entries. induction l as [|x l IH]; intros entries; cbn.
  - intros [= <-]. constructor.
  - destruct (f x) as [entry|e] eqn:Hx; cbn; [|discriminate].
    destruct (collect f l) as [rest|e]; cbn; [|discriminate].
    intros [= <-]. constructor; [exact Hx|by apply IH].
Qed.

(** X9. An even number [2k] of paired-file locators is used up entirely:
    the builder pairs the first [k] locators in sorted order with the last
    [k], in order, so that the first and second members of the pairs,
    together, are the sorted list and hence a rearrangement of the input;
    with six path segments in the first locator of each pair it returns [k]
    descriptors. *)
Theorem fastq_sources_even (urlparse : string → ParseResult) (ref_arn : string)
    (fastq : list string) (k : nat) :
  length fastq = (2 * k)%nat →
  let pairs := Storage.source_uris fastq in
  pairs = zip (take k (sorted fastq)) (drop k (sorted fastq)) ∧
  length pairs = k ∧
  map fst pairs ++ map snd pairs = sorted fastq ∧
  map fst pairs ++ map snd pairs ≡ₚ fastq ∧
  (Forall (λ reads, (6 ≤ length (segments urlparse (fst reads)))%nat) pairs →
     ∃ ds, Storage.fastq_sources urlparse ref_arn fastq = Return ds ∧ length ds = k).
Proof.
  intros Heven. cbn zeta.
  assert (Hhalf : (length fastq / 2 = k)%nat).
  { rewrite Heven. symmetry. apply Nat.div_unique with (r := 0%nat); lia. }
  assert (Hs : length (sorted fastq) = (2 * k)%nat) by (by rewrite sorted_length).
  assert (Hpairs : Storage.source_uris fastq
                   = zip (take k (sorted fastq)) (drop k (sorted fastq))).
  { unfold Storage.source_uris. by rewrite Hhalf. }
  assert (Hall : map fst (Storage.source_uris fastq) ++ map snd (Storage.source_uris fastq)
                 = sorted fastq).
  { rewrite Hpairs. unfold zip.
    destruct (combine_halves (take k (sorted fastq)) (drop k (sorted fastq)))
      as [-> ->].
    { rewrite length_take, length_drop. lia. }
    apply take_drop. }
  split; [exact Hpairs|]. split; [|split; [exact Hall|split]].
  - rewrite Hpairs. unfold zip. rewrite length_combine, length_take, length_drop. lia.
  - rewrite Hall. apply merge_sort_Permutation.
  - intros Hlong. rewrite fastq_sources_collect.
    destruct (collect_returns (Storage.fastq_source urlparse ref_arn)
                (Storage.source_uris fastq)) as (ds & Hds & Hk).
    { eapply Forall_impl; [|exact Hlong]. intros reads H6. cbn beta in H6.
      destruct (proj2 (fastq_source_run urlparse ref_arn reads) H6) as (d & Hd & _).
      by exists d. }
    exists ds. split; [exact Hds|]. rewrite Hk, Hpairs. unfold zip.
    rewrite length_combine, length_take, length_drop. lia.
Qed.

Lemma fastq_sources_even_witness :
  length (Storage.source_uris
            [Sample.fastq "1" "001"; Sample.fastq "2" "001";
             Sample.fastq "1" "002"; Sample.fastq "2" "002"])
    = 2%nat.
Proof.
  refine (proj1 (proj2 (fastq_sources_even Sample.urlparse "arn:2"
                          [Sample.fastq "1" "001"; Sample.fastq "2" "001";
                           Sample.fastq "1" "002"; Sample.fastq "2" "002"] 2 _))).
  reflexivity.
Defined.

(** X10. The descriptors keep the locators, in order: a CRAM descriptor
    names its locator as its only source file and as where it was generated
    from, a FASTQ descriptor names the two locators of its pair as first and
    second source file; each carries its file type and the reference ARN it
    was given.  So the builders return as many descriptors as locators
    (CRAM) or pairs (FASTQ). *)
Theorem sources_keep_locators (urlparse : string → ParseResult) (ref_arn : string) :
  (∀ uris ds,
     Storage.cram_sources urlparse ref_arn uris = Return ds →
     map (λ d, source1 (sourceFiles d)) ds = uris ∧
     map generatedFrom ds = uris ∧
     Forall (λ d, source2 (sourceFiles d) = None ∧ sourceFileType d = "CRAM"
                  ∧ referenceArn d = ref_arn) ds) ∧
  (∀ fastq ds,
     Storage.fastq_sources urlparse ref_arn fastq = Return ds →
     map (λ d, (source1 (sourceFiles d), source2 (sourceFiles d))) ds
       = map (λ reads, (fst reads, Some (snd reads))) (Storage.source_uris fastq) ∧
     Forall (λ d, sourceFileType d = "FASTQ" ∧ referenceArn d = ref_arn) ds).
Proof.
  split.
  - intros uris ds Hds. rewrite cram_sources_collect in Hds.
    apply collect_each in Hds.
    induction Hds as [|uri d uris ds Hd _ (IH1 & IH2 & IH3)]; [by repeat split|].
    unfold Storage.cram_source in Hd.
    destruct (index_from_end _ 2) as [subject|]; [|discriminate].
    destruct (index_from_end _ 1) as [base|]; [|discriminate].
    cbn in Hd. destruct (index (split "." base) 0) as [sample|]; [|discriminate].
    cbn in Hd. injection Hd as <-. cbn. rewrite IH1, IH2.
    repeat split. by constructor.
  - intros fastq ds Hds. rewrite fastq_sources_collect in Hds.
    apply collect_each in Hds.
    induction Hds as [|reads d pairs ds Hd _ (IH1 & IH2)]; [by repeat split|].
    unfold Storage.fastq_source in Hd.
    destruct (index _ 1) as [subject|]; [|discriminate].
    cbn in Hd. destruct (index _ 5) as [sample|]; [|discriminate].
    cbn in Hd. injection Hd as <-. cbn. rewrite IH1.
    repeat split. by constructor.
Qed.

Lemma sources_keep_locators_witness :
  map generatedFrom
    [{| subjectId := "ERR3988761"; sampleId := "HG00405"; sourceFileType := "CRAM";
        sourceFiles := {| source1 := "s3://bucket/ERR3988761/HG00405.final.cram";
                          source2 := None |};
        referenceArn := "arn:2";
        generatedFrom := "s3://bucket/ERR3988761/HG00405.final.cram";
        description := "ERR3988761/HG00405 from bucket";
        tags := [("SourceLocation", "bucket")] |}]
    = ["s3://bucket/ERR3988761/HG00405.final.cram"].
Proof.
  refine (proj1 (proj2 (proj1 (sources_keep_locators Sample.urlparse "arn:2")
                         ["s3://bucket/ERR3988761/HG00405.final.cram"] _ _))).
  reflexivity.
Defined.

(** The pieces of a split hold no separator, and no other character that
    the string did not hold. *)
Lemma split_pieces (sep c : ascii) (s : string) :
  Forall (λ piece, occurs sep piece = false
                   ∧ (occurs c s = false → occurs c piece = false))
    (split sep s).
Proof.
  induction s as [|d s IH]; cbn [split].
  - constructor; [by split|constructor].
  - destruct (Ascii.eqb d sep) eqn:Hd.
    + constructor; [by split|].
      eapply Forall_impl; [|exact IH]. cbn beta. intros piece [H1 H2].
      split; [exact H1|]. intros Hc. apply H2. cbn in Hc.
      by apply orb_false_elim in Hc as [_ Hc].
    + destruct (split_cons sep s) as (piece & pieces & Hs).
      rewrite Hs in IH |- *. inversion IH as [|? ? [H1 H2] Hrest]; subst.
      constructor.
      * split; [cbn; by rewrite Hd, H1|].
        intros Hc. cbn in Hc. apply orb_false_elim in Hc as [Hdc Hc].
        cbn. by rewrite Hdc, (H2 Hc).
      * eapply Forall_impl; [|exact Hrest]. cbn beta. intros p [H1' H2'].
        split; [exact H1'|]. intros Hc. apply H2'. cbn in Hc.
        by apply orb_false_elim in Hc as [_ Hc].
Qed.

Lemma index_elem {A} (l : list A) (i : nat) (x : A) (P : A → Prop) :
  Forall P l → index l i = Return x → P x.
Proof.
  intros Hall. unfold index. destruct (l !! i) as [y|] eqn:Hy; [|discriminate].
  intros [= <-]. rewrite Forall_forall in Hall. apply Hall.
  apply list_elem_of_In. by eapply list_elem_of_lookup_2.
Qed.

Lemma index_from_end_elem {A} (l : list A) (k : nat) (x : A) (P : A → Prop) :
  Forall P l → index_from_end l k = Return x → P x.
Proof.
  intros Hall. unfold index_from_end.
  destruct (k <=? length l)%nat; [|discriminate]. by apply index_elem.
Qed.

(** X11. The identifiers read from a path are free of the separators they
    were cut at: the subject and sample identifiers of a CRAM or FASTQ
    descriptor hold no slash, and the sample identifier of a CRAM
    descriptor holds no dot either. *)
Theorem identifiers_without_separators (urlparse : string → ParseResult)
    (ref_arn : string) :
  (∀ uri d,
     Storage.cram_source urlparse ref_arn uri = Return d →
     occurs "/" (subjectId d) = false ∧
     occurs "/" (sampleId d) = false ∧
     occurs "." (sampleId d) = false) ∧
  (∀ reads d,
     Storage.fastq_source urlparse ref_arn reads = Return d →
     occurs "/" (subjectId d) = false ∧ occurs "/" (sampleId d) = false).
Proof.
  split.
  - intros uri d. unfold Storage.cram_source.
    set (segs := split "/" (drop_first (path (urlparse uri)))).
    assert (Hsegs := split_pieces "/" "/" (drop_first (path (urlparse uri)))).
    fold segs in Hsegs.
    destruct (index_from_end segs 2) as [subject|] eqn:Hsubject; [|discriminate].
    destruct (index_from_end segs 1) as [base|] eqn:Hbase; [|discriminate].
    cbn [and_then].
    destruct (index (split "." base) 0) as [sample|] eqn:Hsample; [|discriminate].
    cbn [and_then]. intros [= <-]. cbn.
    destruct (index_from_end_elem _ _ _ _ Hsegs Hsubject) as [Hs _].
    destruct (index_from_end_elem _ _ _ _ Hsegs Hbase) as [Hb _].
    destruct (index_elem _ _ _ _ (split_pieces "." "/" base) Hsample) as [Hdot Hslash].
    split; [exact Hs|]. split; [exact (Hslash Hb)|exact Hdot].
  - intros reads d. unfold Storage.fastq_source.
    set (segs := split "/" (drop_first (path (urlparse (fst reads))))).
    assert (Hsegs := split_pieces "/" "/" (drop_first (path (urlparse (fst reads))))).
    fold segs in Hsegs.
    destruct (index segs 1) as [subject|] eqn:Hsubject; [|discriminate].
    cbn [and_then].
    destruct (index segs 5) as [sample|] eqn:Hsample; [|discriminate].
    cbn [and_then]. intros [= <-]. cbn.
    destruct (index_elem _ _ _ _ Hsegs Hsubject) as [Hs _].
    destruct (index_elem _ _ _ _ Hsegs Hsample) as [Hb _].
    by split.
Qed.

(** ** The reference lookup by name, off the expected path *)

Lemma invoke_keeps_rest {A} (region : string) (c : ApiCall)
    (serve : Omics → result A * Omics) (w : World) :
  let w1 := snd (Boto3.invoke region c serve w) in
  iam w1 = iam w ∧ files w1 = files w ∧ stdout w1 = stdout w ∧
  default_region w1 = default_region w ∧
  (∀ other, other ≠ region → omics_in w1 other = omics_in w other).
Proof.
  cbn zeta. unfold Boto3.invoke.
  assert (Hother : ∀ st other, other ≠ region →
            omics_in (Boto3.with_omics region st w) other = omics_in w other).
  { intros st other Hne. cbn. by apply fn_lookup_insert_ne. }
  destruct (next_fault (faults (omics_in w region)));
    [repeat split; apply Hother|].
  destruct (serve _); repeat split; apply Hother.
Qed.

(** X12. [get_reference_arn] lets the errors of its two listing calls
    through unchanged, and when the reference listing comes without its
    [references] member it raises the [TypeError] of iterating [None], not
    the [RuntimeError] that tells how to import a reference. *)
Theorem get_reference_arn_off_path (omics ref_name : string) (client : option string)
    (w : World) :
  (∀ e, fst (Boto3.list_reference_stores (default (default_region w) client) 10 w)
          = Raise e →
        fst (Analytics.get_reference_arn omics ref_name client w) = Raise e) ∧
  (∀ s rest w1,
     Boto3.list_reference_stores (default (default_region w) client) 10 w
       = (Return (Some (s :: rest)), w1) →
     (∀ e, fst (Boto3.list_references omics (store_id s) w1) = Raise e →
           fst (Analytics.get_reference_arn omics ref_name client w) = Raise e) ∧
     (fst (Boto3.list_references omics (store_id s) w1) = Return None →
      fst (Analytics.get_reference_arn omics ref_name client w) = Raise TypeError)).
Proof.
  split.
  - intros e He. apply pair_fst_snd in He.
    assert (Hrun : ∀ k : string → M string,
              bind (match client with
                    | Some c => ret c
                    | None => Boto3.client None
                    end) k w = k (default (default_region w) client) w).
    { intros k. destruct client; reflexivity. }
    unfold Analytics.get_reference_arn. rewrite Hrun.
    unfold bind at 1. by rewrite He.
  - intros s rest w1 Hstores.
    rewrite (get_reference_arn_run _ _ _ _ _ _ Hstores).
    split.
    + intros e He. apply pair_fst_snd in He. by rewrite He.
    + intros Hnone. apply pair_fst_snd in Hnone. by rewrite Hnone.
Qed.

Lemma get_reference_arn_off_path_witness :
  fst (Analytics.get_reference_arn "us-west-2" "GRCh38" None
         (Sample.set_omics
            (mkOmics [Sample.my_reference_store] [] [] [] [] true 100 5 [] [])
            Sample.fresh))
    = Raise TypeError.
Proof.
  refine (proj2 (proj2 (get_reference_arn_off_path "us-west-2" "GRCh38" None
                          (Sample.set_omics
                             (mkOmics [Sample.my_reference_store] [] [] [] [] true 100 5 [] [])
                             Sample.fresh))
                   Sample.my_reference_store [] _ eq_refl) _).
  reflexivity.
Defined.

(** X13. The store is looked up with the client that is passed, the
    references with the notebook's global client: with two different
    regions and no call failing, the passed client receives the store
    listing only, the global client receives the reference listing for the
    identifier of the other region's first store, and the outcome is read
    from the references of the global client's region alone. *)
Theorem get_reference_arn_two_clients (omics client ref_name : string) (w : World)
    (s : ReferenceStore) (rest : list ReferenceStore) :
  client ≠ omics →
  faults (omics_in w client) = [] →
  faults (omics_in w omics) = [] →
  reference_stores (omics_in w client) = s :: rest →
  let run := Analytics.get_reference_arn omics ref_name (Some client) w in
  calls (omics_in (snd run) client)
    = calls (omics_in w client) ++ [ListReferenceStores 10] ∧
  calls (omics_in (snd run) omics)
    = calls (omics_in w omics) ++ [ListReferences (store_id s)] ∧
  fst run
    = match serve_list_references (store_id s) (omics_in w omics) with
      | None => Raise TypeError
      | Some page =>
          match list.last (filter (λ r, reference_name r = ref_name) page) with
          | Some r => Return (reference_arn r)
          | None =>
              Raise (RuntimeError ("Could not find " +:+ ref_name +:+ ", please got to the Amazon Omics Storage tutorial to learn how to import one. Do note continue with this notebook"))
          end
      end.
Proof.
  intros Hne Hfc Hfo Hstores. cbn zeta.
  set (w1 := Boto3.with_omics client
               (received (ListReferenceStores 10) (omics_in w client)) w).
  assert (Hlist : Boto3.list_reference_stores (default (default_region w) (Some client)) 10 w
                  = (Return (Some (s :: take 9 rest)), w1)).
  { change (default (default_region w) (Some client)) with client.
    unfold Boto3.list_reference_stores.
    rewrite invoke_served by (by rewrite Hfc). cbn [fst snd].
    unfold serve_list_reference_stores, list_member. cbn. by rewrite Hstores. }
  rewrite (get_reference_arn_run _ _ _ _ _ _ Hlist).
  assert (Hw1o : omics_in w1 omics = omics_in w omics).
  { subst w1. cbn. apply fn_lookup_insert_ne. exact Hne. }
  assert (Hw1c : omics_in w1 client = received (ListReferenceStores 10) (omics_in w client))
    by apply omics_in_with_omics.
  unfold Boto3.list_references.
  rewrite invoke_served by (by rewrite Hw1o, Hfo). cbn [fst snd].
  rewrite Hw1o.
  set (w2 := Boto3.with_omics omics
               (received (ListReferences (store_id s)) (omics_in w omics)) w1).
  assert (Hw2o : omics_in w2 omics = received (ListReferences (store_id s)) (omics_in w omics))
    by apply omics_in_with_omics.
  assert (Hw2c : omics_in w2 client = received (ListReferenceStores 10) (omics_in w client)).
  { subst w2. cbn. rewrite fn_lookup_insert_ne by congruence. exact Hw1c. }
  change (serve_list_references (store_id s)
            (received (ListReferences (store_id s)) (omics_in w omics)))
    with (serve_list_references (store_id s) (omics_in w omics)).
  destruct (serve_list_references (store_id s) (omics_in w omics)) as [page|];
    [destruct (list.last (filter (λ r, reference_name r = ref_name) page))|];
    cbn [fst snd]; rewrite Hw2o, Hw2c; repeat split.
Qed.

Lemma get_reference_arn_two_clients_witness :
  fst (Analytics.get_reference_arn "us-west-2" "GRCh38" (Some "eu-west-1")
         Sample.three_references)
    = Return "arn:3".
Proof.
  refine (proj2 (proj2 (get_reference_arn_two_clients "us-west-2" "eu-west-1" "GRCh38"
                          Sample.three_references Sample.my_reference_store []
                          _ eq_refl eq_refl eq_refl))).
  discriminate.
Defined.

(** ** What the cells around the waiters report *)

Lemma wait_variant_store_run (waiter_wait : M unit) (name : string) (w : World) :
  Analytics.wait_variant_store waiter_wait name w =
    match waiter_wait w with
    | (Return _, w1) => print ("variant store " +:+ name +:+ " ready for use") w1
    | (Raise (WaiterError message), w1) =>
        (print ("variant store " +:+ name +:+ " FAILED:") ;;; print message) w1
    | (Raise e, w1) => (Raise e, w1)
    end.
Proof.
  unfold Analytics.wait_variant_store, try_except_else, bind.
  destruct (waiter_wait w) as [[[]|e] w1]; [reflexivity|].
  destruct e; reflexivity.
Qed.

(** X14. The cells that wait for the reference import job and for the
    variant store report through the printed output only: when the waiter
    returns they print the line that reports success; when it raises
    [WaiterError] they print the line that reports failure and the error,
    and still return normally; any other error of the waiter is raised to
    the caller and nothing more is printed. *)
Theorem waiter_cells_report_by_printing (waiter_wait : M unit) (w : World) :
  (∀ job_id,
     let w0 := snd (print ("waiting for job " +:+ pretty job_id +:+ " to complete") w) in
     let run := Storage.wait_reference_import waiter_wait job_id w in
     (fst (waiter_wait w0) = Return tt →
        fst run = Return tt ∧
        stdout (snd run) = stdout (snd (waiter_wait w0))
                           ++ ["job " +:+ pretty job_id +:+ " complete"]) ∧
     (∀ message, fst (waiter_wait w0) = Raise (WaiterError message) →
        fst run = Return tt ∧
        stdout (snd run) = stdout (snd (waiter_wait w0))
                           ++ ["job " +:+ pretty job_id +:+ " FAILED:"; message]) ∧
     (∀ e, class_of e ≠ WaiterErrorClass → fst (waiter_wait w0) = Raise e →
        run = (Raise e, snd (waiter_wait w0)))) ∧
  (∀ name,
     let run := Analytics.wait_variant_store waiter_wait name w in
     (fst (waiter_wait w) = Return tt →
        fst run = Return tt ∧
        stdout (snd run) = stdout (snd (waiter_wait w))
                           ++ ["variant store " +:+ name +:+ " ready for use"]) ∧
     (∀ message, fst (waiter_wait w) = Raise (WaiterError message) →
        fst run = Return tt ∧
        stdout (snd run) = stdout (snd (waiter_wait w))
                           ++ ["variant store " +:+ name +:+ " FAILED:"; message]) ∧
     (∀ e, class_of e ≠ WaiterErrorClass → fst (waiter_wait w) = Raise e →
        run = (Raise e, snd (waiter_wait w)))).
Proof.
  split.
  - intros job_id. cbn zeta. rewrite wait_reference_import_run.
    destruct (waiter_wait _) as [[[]|e] w1]; cbn [fst snd].
    + split; [intros _; by split|]. split; [intros m [=]|intros e _ [=]].
    + split; [intros [=]|]. split.
      * intros m [= ->]. split; [reflexivity|]. cbn. by rewrite <- app_assoc.
      * intros e' Hclass [= ->]. destruct e'; cbn in Hclass; congruence.
  - intros name. cbn zeta. rewrite wait_variant_store_run.
    destruct (waiter_wait w) as [[[]|e] w1]; cbn [fst snd].
    + split; [intros _; by split|]. split; [intros m [=]|intros e _ [=]].
    + split; [intros [=]|]. split.
      * intros m [= ->]. split; [reflexivity|]. cbn. by rewrite <- app_assoc.
      * intros e' Hclass [= ->]. destruct e'; cbn in Hclass; congruence.
Qed.

Lemma waiter_cells_report_by_printing_witness :
  fst (Storage.wait_reference_import (raise (WaiterError "Max attempts exceeded")) 7
         Sample.fresh) = Return tt ∧
  stdout (snd (Storage.wait_reference_import (raise (WaiterError "Max attempts exceeded")) 7
                 Sample.fresh))
    = ["waiting for job 7 to complete"; "job 7 FAILED:"; "Max attempts exceeded"].
Proof.
  exact (proj1 (proj2 (proj1 (waiter_cells_report_by_printing
                                (raise (WaiterError "Max attempts exceeded")) Sample.fresh)
                         7))
           "Max attempts exceeded" eq_refl).
Defined.

(** X15. In the cell that waits for a run, the second waiter is reached
    only when the first returned: if the wait for the running state raises
    [WaiterError], the cell prints that error and returns normally, whatever
    the second waiter would do; if it returns and the wait for completion
    raises [WaiterError], the cell has printed that the run is running,
    prints the error and returns normally, never printing that the run
    completed. *)
Theorem wait_run_outcomes (wait_running wait_completed : nat → nat → M unit)
    (run_id : nat) (w : World) :
  (∀ message w1,
     wait_running 30 60 w = (Raise (WaiterError message), w1) →
     ∀ other_wait,
       Workflows.wait_run wait_running other_wait run_id w
         = (Return tt, snd (print message w1))) ∧
  (∀ w1 message w2,
     wait_running 30 60 w = (Return tt, w1) →
     wait_completed 60 60 (snd (print ("run " +:+ pretty run_id +:+ " is running") w1))
       = (Raise (WaiterError message), w2) →
     fst (Workflows.wait_run wait_running wait_completed run_id w) = Return tt ∧
     stdout (snd (Workflows.wait_run wait_running wait_completed run_id w))
       = stdout w2 ++ [message]) ∧
  (∀ w1 w2,
     wait_running 30 60 w = (Return tt, w1) →
     wait_completed 60 60 (snd (print ("run " +:+ pretty run_id +:+ " is running") w1))
       = (Return tt, w2) →
     fst (Workflows.wait_run wait_running wait_completed run_id w) = Return tt ∧
     stdout (snd (Workflows.wait_run wait_running wait_completed run_id w))
       = stdout w2 ++ ["run " +:+ pretty run_id +:+ " completed"]).
Proof.
  split; [|split].
  - intros message w1 Hwait other_wait.
    unfold Workflows.wait_run, try_except_else, bind. by rewrite Hwait.
  - intros w1 message w2 Hrunning Hcompleted.
    unfold Workflows.wait_run, try_except_else, bind. rewrite Hrunning.
    cbn [print snd] in Hcompleted |- *. rewrite Hcompleted. by split.
  - intros w1 w2 Hrunning Hcompleted.
    unfold Workflows.wait_run, try_except_else, bind. rewrite Hrunning.
    cbn [print snd] in Hcompleted |- *. rewrite Hcompleted. by split.
Qed.

Lemma wait_run_outcomes_witness :
  Workflows.wait_run (λ _ _, raise (WaiterError "Max attempts exceeded"))
    (λ _ _, ret tt) 3 Sample.fresh
  = (Return tt, snd (print "Max attempts exceeded" Sample.fresh)).
Proof.
  exact (proj1 (wait_run_outcomes (λ _ _, raise (WaiterError "Max attempts exceeded"))
                  (λ _ _, ret tt) 3 Sample.fresh)
           "Max attempts exceeded" Sample.fresh eq_refl (λ _ _, ret tt)).
Defined.

(** ** A download that fails half way *)

(** X16. The download cell is not all-or-nothing.  When the part of the
    source has been retrieved and written and the call for the index part
    then raises, the cell raises that error, [reference.part.fa] stays
    written with the source part and [reference.part.fai] is as it was
    before the cell.  When that call returns and the transfer of its payload
    breaks off, the cell raises as well, [reference.part.fa] stays written,
    and [reference.part.fai], opened before the payload is read, is left
    empty. *)
Theorem download_reference_part_half_way (omics : string) (store id : nat)
    (w w1 : World) (payload : StreamingBody) :
  Boto3.get_reference omics store id 1 "SOURCE" w = (Return payload, w1) →
  read_error payload = None →
  let w2 := snd (write_file "reference.part.fa" (Boto3.read payload) w1) in
  let run := Storage.download_reference_part omics store id w in
  (∀ e,
     fst (Boto3.get_reference omics store id 1 "INDEX" w2) = Raise e →
     fst run = Raise e ∧
     files (snd run) !! "reference.part.fa" = Some (stream_bytes payload) ∧
     files (snd run) !! "reference.part.fai" = files w !! "reference.part.fai") ∧
  (∀ index e,
     fst (Boto3.get_reference omics store id 1 "INDEX" w2) = Return index →
     read_error index = Some e →
     fst run = Raise e ∧
     files (snd run) !! "reference.part.fa" = Some (stream_bytes payload) ∧
     files (snd run) !! "reference.part.fai" = Some []).
Proof.
  intros Hsource Hread. cbn zeta.
  assert (Hfiles1 : files w1 = files w).
  { replace w1 with (snd (Boto3.get_reference omics store id 1 "SOURCE" w))
      by (by rewrite Hsource).
    apply (invoke_keeps_rest omics _ _ w). }
  unfold Storage.download_reference_part.
  rewrite (bind_returns _ _ _ _ _ Hsource), bind_run, write_file_run, Hread.
  cbn [snd].
  set (w2 := mkWorld _ _ _ _ _).
  assert (Hfiles2 : files (snd (Boto3.get_reference omics store id 1 "INDEX" w2))
                    = <["reference.part.fa" := stream_bytes payload]> (files w)).
  { unfold Boto3.get_reference.
    destruct (invoke_keeps_rest omics (GetReference store id 1 "INDEX")
                (λ st, (serve_get_part store id 1 "INDEX" st, st)) w2)
      as (_ & Hfiles & _).
    rewrite Hfiles. subst w2. cbn [files]. by rewrite Hfiles1. }
  split.
  - intros e Hindex. apply pair_fst_snd in Hindex.
    rewrite bind_run, Hindex. cbn [fst snd]. rewrite Hfiles2.
    split; [reflexivity|]. split; [apply lookup_insert_eq|].
    by rewrite lookup_insert_ne by discriminate.
  - intros index e Hindex Hbroken. apply pair_fst_snd in Hindex.
    rewrite bind_run, Hindex, write_file_run, Hbroken. cbn [fst snd files].
    rewrite Hfiles2.
    split; [reflexivity|]. split; [|apply lookup_insert_eq].
    rewrite lookup_insert_ne by discriminate. apply lookup_insert_eq.
Qed.

Lemma download_reference_part_half_way_witness :
  files (snd (Storage.download_reference_part "us-east-1" 1 2
                (Sample.with_objects [Sample.hg38]
                   [None; Some (ClientError "AccessDeniedException")])))
    !! "reference.part.fai" = None ∧
  files (snd (Storage.download_reference_part "us-east-1" 1 2
                (Sample.with_objects [Sample.hg38_broken_index] [])))
    !! "reference.part.fai" = Some [].
Proof.
  split.
  - refine (proj2 (proj2 (proj1 (download_reference_part_half_way "us-east-1" 1 2
                                   (Sample.with_objects [Sample.hg38]
                                      [None; Some (ClientError "AccessDeniedException")])
                                   _ (Sample.whole (repeat x01 5)) eq_refl eq_refl)
                            (ClientError "AccessDeniedException") _)));
      reflexivity.
  - refine (proj2 (proj2 (proj2 (download_reference_part_half_way "us-east-1" 1 2
                                   (Sample.with_objects [Sample.hg38_broken_index] [])
                                   _ (Sample.whole (repeat x01 5)) eq_refl eq_refl)
                            (Sample.broken [x04])
                            (ResponseStreamingError "Connection broken") _ _)));
      reflexivity.
Defined.

(** ** Creating a workflow *)

Lemma prefix_app (a b : string) : String.prefix a (a +:+ b) = true.
Proof.
  induction a as [|c a IH]; [by destruct b|].
  change (String c a +:+ b) with (String c (a +:+ b)).
  cbn [String.prefix].
  destruct (ascii_dec c c); [exact IH|congruence].
Qed.

Lemma replace_from_skip (old new t s : string) :
  replace_from old new (String.length t) (t +:+ s) = replace_from old new 0 s.
Proof.
  induction t as [|c t IH]; cbn; [by destruct s|exact IH].
Qed.

Lemma replace_prefix (old new rest : string) :
  old ≠ "" → replace old new (old +:+ rest) = new +:+ replace old new rest.
Proof.
  destruct old as [|c old]; [done|]. intros _. unfold replace.
  change (String c old +:+ rest) with (String c (old +:+ rest)).
  cbn [replace_from].
  change (String c (old +:+ rest)) with (String c old +:+ rest).
  rewrite prefix_app. cbn [String.length].
  replace (S (String.length old) - 1)%nat with (String.length old) by lia.
  by rewrite replace_from_skip.
Qed.

Lemma replace_absent (old new s : string) :
  old ≠ "" → contains old s = false → replace old new s = s.
Proof.
  destruct old as [|c old]; [done|]. intros _. unfold replace.
  induction s as [|d s IH]; [reflexivity|].
  cbn [contains replace_from]. intros Habsent.
  apply orb_false_elim in Habsent as [Hprefix Hrest].
  rewrite Hprefix. by rewrite (IH Hrest).
Qed.

(** The inner occurrences of the root go too. *)
Example arcname_inner_occurrence :
  replace (path_join "wf" "") "" "wf/sub/wf/main.wdl" = "sub/main.wdl".
Proof. reflexivity. Qed.

Lemma add_files_run (isfile : string → bool) (zf_write_error : string → option exn)
    (root : string) (found : list string) (zf : list Workflows.ZipEntry) (w : World) :
  Forall (λ file, zf_write_error file = None) (List.filter isfile found) →
  Workflows.add_files isfile zf_write_error root found zf w =
    (Return (zf ++ archive isfile root found),
     mkWorld (iam w) (default_region w) (omics_in w) (files w)
       (stdout w
        ++ map (λ entry, ".. adding: " +:+ Workflows.zipped_file entry +:+ " -> "
                         +:+ Workflows.arcname entry)
             (archive isfile root found))).
Proof.
  revert zf w. induction found as [|file found IH]; intros zf w Hwritten.
  - cbn. rewrite !app_nil_r. by destruct w.
  - cbn [Workflows.add_files]. unfold archive.
    cbn [List.filter] in Hwritten |- *.
    destruct (isfile file); [|by apply IH].
    apply list.Forall_cons in Hwritten as [Hfile Hwritten].
    cbn zeta. rewrite bind_run. cbn [print].
    unfold Workflows.zf_write. rewrite Hfile, bind_run. cbn [ret].
    rewrite (IH _ _ Hwritten).
    cbn [iam default_region omics_in files stdout map].
    by rewrite <- !app_assoc.
Qed.

Lemma add_files_returns (isfile : string → bool) (zf_write_error : string → option exn)
    (root : string) (found : list string) (zf : list Workflows.ZipEntry) (w : World) :
  Forall (λ file, zf_write_error file = None) (List.filter isfile found) →
  Workflows.add_files isfile zf_write_error root found zf w =
    (Return (zf ++ archive isfile root found),
     snd (Workflows.add_files isfile zf_write_error root found zf w)).
Proof. intros Hwritten. by rewrite add_files_run. Qed.

Lemma add_files_raises (isfile : string → bool) (zf_write_error : string → option exn)
    (root : string) (before after : list string) (file : string)
    (zf : list Workflows.ZipEntry) (w : World) (e : exn) :
  Forall (λ f, zf_write_error f = None) (List.filter isfile before) →
  isfile file = true →
  zf_write_error file = Some e →
  Workflows.add_files isfile zf_write_error root (before ++ file :: after) zf w =
    (Raise e,
     mkWorld (iam w) (default_region w) (omics_in w) (files w)
       (stdout w
        ++ map (λ entry, ".. adding: " +:+ Workflows.zipped_file entry +:+ " -> "
                         +:+ Workflows.arcname entry)
             (archive isfile root (before ++ [file])))).
Proof.
  intros Hwritten Hfile He. revert zf w Hwritten.
  induction before as [|f before IH]; intros zf w Hwritten.
  - cbn [app Workflows.add_files]. unfold archive. cbn [List.filter].
    rewrite Hfile. cbn zeta. rewrite bind_run. cbn [print].
    unfold Workflows.zf_write. rewrite He, bind_run. reflexivity.
  - cbn [app Workflows.add_files]. unfold archive.
    cbn [List.filter] in Hwritten |- *.
    destruct (isfile f); [|by apply IH].
    apply list.Forall_cons in Hwritten as [Hf Hwritten].
    cbn zeta. rewrite bind_run. cbn [print].
    unfold Workflows.zf_write. rewrite Hf, bind_run. cbn [ret].
    rewrite (IH _ _ Hwritten).
    cbn [iam default_region omics_in files stdout map].
    by rewrite <- !app_assoc.
Qed.

(** X17. [create_workflow] stores each regular file the glob found, in the
    order found, under its path with every occurrence of the root directory
    (with its trailing slash) removed, and skips what is not a regular file;
    it prints one line per member before it writes the member.  When every
    write succeeds the archive holds exactly these members.  When the write
    of a file raises, the line of that file has been printed already, the
    function raises that error there, and the service is not asked to
    create anything.  A file [root/rel] is stored under [rel] as long as
    [root/] does not occur in [rel] once more. *)
Theorem create_workflow_archive (isfile : string → bool)
    (zf_write_error : string → option exn) (root : string) :
  let member file :=
    {| Workflows.arcname := replace (path_join root "") "" file;
       Workflows.zipped_file := file |} in
  let line file :=
    ".. adding: " +:+ file +:+ " -> " +:+ replace (path_join root "") "" file in
  (∀ found w,
     Forall (λ file, zf_write_error file = None) (List.filter isfile found) →
     fst (Workflows.add_files isfile zf_write_error root found [] w)
       = Return (map member (List.filter isfile found)) ∧
     stdout (snd (Workflows.add_files isfile zf_write_error root found [] w))
       = stdout w ++ map line (List.filter isfile found)) ∧
  (∀ before file after w e,
     Forall (λ f, zf_write_error f = None) (List.filter isfile before) →
     isfile file = true →
     zf_write_error file = Some e →
     let filled :=
       Workflows.add_files isfile zf_write_error root (before ++ file :: after) []
         (snd (print "creating zip file:" w)) in
     fst filled = Raise e ∧
     stdout (snd filled)
       = stdout w ++ "creating zip file:" :: map line (List.filter isfile before)
         ++ [line file] ∧
     ∀ (Parameters Workflow : Type) iglob
       (omics_create_workflow :
          option string → option string → list Workflows.ZipEntry → option string
          → Parameters → M nat)
       waiter_wait (get_workflow : nat → M Workflow) parameters name description main,
       iglob (path_join root "**/*") = before ++ file :: after →
       Workflows.create_workflow iglob isfile zf_write_error omics_create_workflow
         waiter_wait get_workflow root parameters name description main w
       = (Raise e, snd filled)) ∧
  (∀ rel,
     path_join root "" ≠ "" →
     contains (path_join root "") rel = false →
     replace (path_join root "") "" (path_join root "" +:+ rel) = rel).
Proof.
  cbn zeta. split; [|split].
  - intros found w Hwritten. rewrite add_files_run by exact Hwritten.
    cbn [fst snd stdout app]. unfold archive. by rewrite map_map.
  - intros before file after w e Hwritten Hfile He.
    rewrite (add_files_raises _ _ _ _ _ _ _ _ _ Hwritten Hfile He).
    cbn [fst snd stdout print]. split; [reflexivity|]. split.
    + unfold archive. rewrite List.filter_app, !map_app, !map_map, <- app_assoc.
      cbn [List.filter]. rewrite Hfile. reflexivity.
    + intros Parameters Workflow iglob omics_create_workflow waiter_wait get_workflow
        parameters name description main Hglob.
      unfold Workflows.create_workflow.
      rewrite (bind_returns _ _ w tt (snd (print "creating zip file:" w)) eq_refl).
      rewrite bind_run, Hglob.
      by rewrite (add_files_raises _ _ _ _ _ _ _ _ _ Hwritten Hfile He).
  - intros rel Hroot Habsent.
    rewrite replace_prefix by exact Hroot.
    by rewrite replace_absent.
Qed.

Lemma create_workflow_archive_witness :
  fst (Workflows.add_files (λ _, true)
         (λ file, if String.eqb file "wf/gone.wdl"
                  then Some (OSError "No such file or directory") else None)
         "wf" (["wf/main.wdl"] ++ "wf/gone.wdl" :: ["wf/tasks.wdl"]) []
         (snd (print "creating zip file:" Sample.fresh)))
    = Raise (OSError "No such file or directory") ∧
  replace (path_join "workflows/wdl/sample" "") ""
    (path_join "workflows/wdl/sample" "" +:+ "main.wdl")
  = "main.wdl".
Proof.
  split.
  - refine (proj1 (proj1 (proj2 (create_workflow_archive (λ _, true)
                                   (λ file, if String.eqb file "wf/gone.wdl"
                                            then Some (OSError "No such file or directory")
                                            else None)
                                   "wf"))
                     ["wf/main.wdl"] "wf/gone.wdl" ["wf/tasks.wdl"] Sample.fresh
                     (OSError "No such file or directory") _ eq_refl eq_refl)).
    repeat constructor.
  - refine (proj2 (proj2 (create_workflow_archive (λ _, true) (λ _, None)
                            "workflows/wdl/sample"))
              "main.wdl" _ _).
    + discriminate.
    + reflexivity.
Defined.

Section CreateWorkflowOutcome.

Context {Parameters Workflow : Type}.
Variable iglob : string → list string.
Variable isfile : string → bool.
Variable zf_write_error : string → option exn.
Variable omics_create_workflow :
  option string → option string → list Workflows.ZipEntry → option string
  → Parameters → M nat.
Variable waiter_wait : nat → M unit.
Variable get_workflow : nat → M Workflow.

Lemma create_workflow_run (root : string) (parameters : Parameters)
    (name description main : option string) (w : World) :
  Forall (λ file, zf_write_error file = None)
    (List.filter isfile (iglob (path_join root "**/*"))) →
  Workflows.create_workflow iglob isfile zf_write_error omics_create_workflow
    waiter_wait get_workflow root parameters name description main w =
    match omics_create_workflow name description
            (archive isfile root (iglob (path_join root "**/*"))) main parameters
            (snd (Workflows.add_files isfile zf_write_error root
                    (iglob (path_join root "**/*")) []
                    (snd (print "creating zip file:" w)))) with
    | (Raise e, wc) => (Raise e, wc)
    | (Return id, wc) =>
        match waiter_wait id
                (snd (print ("workflow " +:+ pretty id
                             +:+ " created, waiting for it to become ACTIVE") wc)) with
        | (Return _, w1) =>
            get_workflow id (snd (print ("workflow " +:+ pretty id +:+ " ready for use") w1))
        | (Raise (WaiterError message), w1) =>
            get_workflow id
              (snd (print message
                      (snd (print ("workflow " +:+ pretty id +:+ " FAILED:") w1))))
        | (Raise e, w1) => (Raise e, w1)
        end
    end.
Proof.
  intros Hwritten.
  unfold Workflows.create_workflow.
  rewrite (bind_returns _ _ w tt (snd (print "creating zip file:" w)) eq_refl).
  rewrite (bind_returns _ _ _ _ _
             (add_files_returns isfile zf_write_error root _ [] _ Hwritten)).
  cbn [app]. rewrite bind_run.
  destruct (omics_create_workflow _ _ _ _ _ _) as [[id|e] wc]; [|reflexivity].
  rewrite (bind_returns _ _ wc tt (snd (print _ wc)) eq_refl).
  rewrite bind_run. unfold try_except_else. rewrite bind_run.
  destruct (waiter_wait id _) as [[[]|e] w1]; [reflexivity|].
  destruct e; reflexivity.
Qed.

End CreateWorkflowOutcome.

(** X18. Once the archive has been filled and the service has answered the
    create call with an id, [create_workflow] returns what [get_workflow]
    answers for that id whether the waiter returned or raised
    [WaiterError]: a workflow that did not become active is reported by two
    printed lines, not by an error, and is returned all the same.  Any other
    error of the waiter is raised and [get_workflow] is not reached. *)
Theorem create_workflow_returns_workflow {Parameters Workflow : Type}
    (iglob : string → list string) (isfile : string → bool)
    (zf_write_error : string → option exn)
    (omics_create_workflow :
       option string → option string → list Workflows.ZipEntry → option string
       → Parameters → M nat)
    (waiter_wait : nat → M unit) (get_workflow : nat → M Workflow)
    (root : string) (parameters : Parameters) (name description main : option string)
    (w wc : World) (id : nat) :
  Forall (λ file, zf_write_error file = None)
    (List.filter isfile (iglob (path_join root "**/*"))) →
  omics_create_workflow name description
    (archive isfile root (iglob (path_join root "**/*"))) main parameters
    (snd (Workflows.add_files isfile zf_write_error root
            (iglob (path_join root "**/*")) []
            (snd (print "creating zip file:" w))))
    = (Return id, wc) →
  let w0 := snd (print ("workflow " +:+ pretty id
                        +:+ " created, waiting for it to become ACTIVE") wc) in
  let run := Workflows.create_workflow iglob isfile zf_write_error omics_create_workflow
               waiter_wait get_workflow root parameters name description main w in
  (∀ w1, waiter_wait id w0 = (Return tt, w1) →
     run = get_workflow id
             (snd (print ("workflow " +:+ pretty id +:+ " ready for use") w1))) ∧
  (∀ message w1, waiter_wait id w0 = (Raise (WaiterError message), w1) →
     run = get_workflow id
             (snd (print message
                     (snd (print ("workflow " +:+ pretty id +:+ " FAILED:") w1))))) ∧
  (∀ e w1, class_of e ≠ WaiterErrorClass → waiter_wait id w0 = (Raise e, w1) →
     run = (Raise e, w1)).
Proof.
  intros Hwritten Hcreate. cbn zeta.
  rewrite create_workflow_run by exact Hwritten. rewrite Hcreate.
  split; [|split].
  - intros w1 ->. reflexivity.
  - intros message w1 ->. reflexivity.
  - intros e w1 Hclass ->. destruct e; cbn in Hclass; congruence.
Qed.

Lemma create_workflow_returns_workflow_witness :
  fst (Workflows.create_workflow (λ _, ["wf/main.wdl"]) (λ _, true) (λ _, None)
         (λ _ _ _ _ (_ : unit), ret 5)
         (λ _, raise (WaiterError "Waiter WorkflowActive failed"))
         (λ id, ret id) "wf" tt None None None Sample.fresh)
    = Return 5.
Proof.
  pose (wc := snd (Workflows.add_files (λ _, true) (λ _, None) "wf" ["wf/main.wdl"] []
                     (snd (print "creating zip file:" Sample.fresh)))).
  rewrite (proj1 (proj2 (create_workflow_returns_workflow
                           (λ _, ["wf/main.wdl"]) (λ _, true) (λ _, None)
                           (λ _ _ _ _ (_ : unit), ret 5)
                           (λ _, raise (WaiterError "Waiter WorkflowActive failed"))
                           (λ id, ret id) "wf" tt None None None Sample.fresh wc 5
                           (Forall_cons _ _ _ eq_refl (Forall_nil _)) eq_refl))
             "Waiter WorkflowActive failed" _ eq_refl).
  reflexivity.
Defined.

(** ** The Athena workgroup and the shared resource *)

Lemma printed_nil (w : World) : printed [] w = w.
Proof. destruct w. unfold printed. cbn. by rewrite app_nil_r. Qed.

Lemma printed_printed (a b : list string) (w : World) :
  printed b (printed a w) = printed (a ++ b) w.
Proof. unfold printed. cbn. by rewrite app_assoc. Qed.

Lemma print_then {B} (line : string) (k : M B) (w : World) :
  (print line ;;; k) w = k (printed [line] w).
Proof. reflexivity. Qed.

Lemma find_workgroup_none (all : list Analytics.WorkGroup) (w : World) :
  Forall (λ g, Analytics.effective_engine_version g ≠ "Athena engine version 3") all →
  Analytics.find_workgroup all w
    = (Return None, printed (map Analytics.effective_engine_version all) w).
Proof.
  intros Hall. revert w. induction Hall as [|g all Hg _ IH]; intros w.
  - by rewrite printed_nil.
  - cbn [Analytics.find_workgroup].
    rewrite print_then.
    apply String.eqb_neq in Hg. rewrite Hg, IH, printed_printed. reflexivity.
Qed.

Lemma find_workgroup_first (before after : list Analytics.WorkGroup)
    (wg : Analytics.WorkGroup) (w : World) :
  Forall (λ g, Analytics.effective_engine_version g ≠ "Athena engine version 3") before →
  Analytics.effective_engine_version wg = "Athena engine version 3" →
  Analytics.find_workgroup (before ++ wg :: after) w
    = (Return (Some wg),
       printed (map Analytics.effective_engine_version before
                ++ ["Athena engine version 3";
                    "Workgroup '" +:+ Analytics.wg_name wg
                    +:+ "' found using Athena engine version 3"]) w).
Proof.
  intros Hbefore Hwg. revert w. induction Hbefore as [|g before Hg _ IH]; intros w.
  - cbn [app map Analytics.find_workgroup].
    rewrite print_then.
    rewrite Hwg, String.eqb_refl.
    rewrite print_then.
    by rewrite printed_printed.
  - cbn [app map Analytics.find_workgroup].
    rewrite print_then.
    apply String.eqb_neq in Hg. rewrite Hg, IH, printed_printed. reflexivity.
Qed.

(** X19. The workgroup cell answers the first listed workgroup whose
    effective engine version is "Athena engine version 3", after printing
    the versions it passed and the line that names the workgroup; the
    workgroups after it are not looked at and the create call is not made.
    When no listed workgroup has that version, it prints every version and
    the line that announces the creation, makes the create call, and ends
    with that call's answer, or with its error. *)
Theorem select_workgroup_outcome {Response : Type} (create_work_group : M Response)
    (before after : list Analytics.WorkGroup) (wg : Analytics.WorkGroup) (w : World) :
  Forall (λ g, Analytics.effective_engine_version g ≠ "Athena engine version 3") before →
  (Analytics.effective_engine_version wg = "Athena engine version 3" →
   Analytics.select_workgroup create_work_group (before ++ wg :: after) w
     = (Return (inl wg),
        printed (map Analytics.effective_engine_version before
                 ++ ["Athena engine version 3";
                     "Workgroup '" +:+ Analytics.wg_name wg
                     +:+ "' found using Athena engine version 3"]) w)) ∧
  Analytics.select_workgroup create_work_group before w
    = match create_work_group
              (printed (map Analytics.effective_engine_version before
                        ++ ["No workgroups with Athena engine version 3 found. creating one"])
                 w) with
      | (Return response, w') => (Return (inr response), w')
      | (Raise e, w') => (Raise e, w')
      end.
Proof.
  intros Hbefore. split.
  - intros Hwg. unfold Analytics.select_workgroup.
    by rewrite (bind_returns _ _ _ _ _ (find_workgroup_first before after wg w Hbefore Hwg)).
  - unfold Analytics.select_workgroup.
    rewrite (bind_returns _ _ _ _ _ (find_workgroup_none before w Hbefore)).
    rewrite print_then.
    rewrite printed_printed, bind_run.
    by destruct (create_work_group _) as [[response|e] w'].
Qed.

Lemma select_workgroup_outcome_witness :
  fst (Analytics.select_workgroup (Response := unit)
         (raise (ClientError "InvalidRequestException"))
         [ {| Analytics.wg_name := "primary";
              Analytics.effective_engine_version := "Athena engine version 2" |};
           {| Analytics.wg_name := "omics";
              Analytics.effective_engine_version := "Athena engine version 3" |};
           {| Analytics.wg_name := "later";
              Analytics.effective_engine_version := "Athena engine version 3" |} ]
         Sample.fresh)
    = Return (inl {| Analytics.wg_name := "omics";
                     Analytics.effective_engine_version := "Athena engine version 3" |}).
Proof.
  refine (f_equal fst
            (proj1 (select_workgroup_outcome (Response := unit)
                      (raise (ClientError "InvalidRequestException"))
                      [ {| Analytics.wg_name := "primary";
                           Analytics.effective_engine_version := "Athena engine version 2" |} ]
                      [ {| Analytics.wg_name := "later";
                           Analytics.effective_engine_version := "Athena engine version 3" |} ]
                      {| Analytics.wg_name := "omics";
                         Analytics.effective_engine_version := "Athena engine version 3" |}
                      Sample.fresh _) eq_refl)).
  repeat constructor. discriminate.
Defined.

(** X20. The shared-resource cell yields the first listed resource whose
    ARN contains the variant store's id, printing nothing.  When the
    listing has no such resource (no resources member, an empty one, or no
    ARN containing the id) the cell prints one line and assigns nothing: it
    then yields whatever [variantstore_resource] was bound to before the
    cell ran, and raises [NameError] when it was not bound. *)
Theorem find_variantstore_resource_outcome
    (resources : option (list Analytics.SharedResource)) (var_store_id : string)
    (bound : option Analytics.SharedResource) (w : World) :
  let matching :=
    List.filter (λ resource, contains var_store_id (Analytics.resource_arn resource))
      (default [] resources) in
  let cell := Analytics.find_variantstore_resource resources var_store_id bound in
  (∀ first rest, matching = first :: rest → cell w = (Return first, w)) ∧
  (matching = [] →
   fst (cell w) = match bound with
                  | Some stale => Return stale
                  | None => Raise (NameError "variantstore_resource")
                  end ∧
   snd (cell w) =
     printed [ match default [] resources with
               | [] => "no shared resources found. verify that you have successfully created an Omics Analytics store"
               | _ => "no shared resources matching variant store id " +:+ var_store_id
                      +:+ " found"
               end ] w).
Proof.
  cbn zeta. unfold Analytics.find_variantstore_resource.
  destruct resources as [[|resource resources]|]; cbn [default from_option id].
  - split; [intros first rest [=]|]. intros _.
    rewrite bind_run, print_then.
    by destruct bound.
  - split.
    + intros first rest ->. reflexivity.
    + intros ->.
      rewrite bind_run, print_then.
      by destruct bound.
  - split; [intros first rest [=]|]. intros _.
    rewrite bind_run, print_then.
    by destruct bound.
Qed.

Lemma find_variantstore_resource_outcome_witness :
  fst (Analytics.find_variantstore_resource
         (Some [ {| Analytics.resource_arn := "arn:aws:glue:us-east-1:1:database/variant_1_aaaa";
                    Analytics.resource_share_arn := "arn:aws:ram:us-east-1:1:resource-share/a" |} ])
         "bbbb" None Sample.fresh)
    = Raise (NameError "variantstore_resource").
Proof.
  exact (proj1 (proj2 (find_variantstore_resource_outcome
                         (Some [ {| Analytics.resource_arn :=
                                      "arn:aws:glue:us-east-1:1:database/variant_1_aaaa";
                                    Analytics.resource_share_arn :=
                                      "arn:aws:ram:us-east-1:1:resource-share/a" |} ])
                         "bbbb" None Sample.fresh) eq_refl)).
Defined.
